(** * Luddo AI fine-tuning driver: a shallow embedding of [training/train.py]

    The driver is a sequential Python script: it resolves its configuration,
    converts a JSONL dataset, launches the external LoRA trainer, scrapes the
    trainer's output for progress lines, and hands the result to the
    fuse / GGUF-conversion / Ollama-import chain.  Every status update is a
    whole-file overwrite of a JSON progress file.

    The embedding keeps the script's shape:
    - Python [int] is [Z]; Python [float] is a rational carrying exactly the
      binary64 value (see [rne]), with infinities and NaN as separate
      constructors;
    - Python [str] is [string]; only ASCII text is modelled; a path is the
      string [str] gives for it, joined and normalised as [pathlib] does on
      POSIX (see [path_join]);
    - the outside world (files found on disk, exit codes of subprocesses,
      the trainer's output) is a record [world] that [main] consults;
    - every observable effect (a progress-file write, a checkpoint write, a
      subprocess launch) is appended to a trace of [event]s, and Python
      exceptions are the error half of the monad [M];
    - writing a file, creating a directory and starting the trainer
      process are taken to succeed; whether another subprocess or a library
      call raises, and the code a subprocess exits with, is the world's to
      say.  Output printed to the terminal is not modelled. *)

From Stdlib Require Import ZArith QArith Qround Qabs Qpower Qreduction.
From Stdlib Require Import Bool List Sorted String Ascii Lia.
From Stdlib Require Import DecimalString.
Import ListNotations.

Local Open Scope string_scope.
Local Open Scope list_scope.
Local Open Scope Z_scope.

(** ** Binary64 arithmetic, as far as the driver uses it *)

Definition pow2 (e : Z) : Q := Qpower 2 e.

(** [floor_log2 x] is the integer [l] with [2^l <= x < 2^(l+1)], for [0 < x]. *)
Definition floor_log2 (x : Q) : Z :=
  let l := Z.log2 (Qnum x) - Z.log2 (Zpos (Qden x)) in
  if Qle_bool (pow2 l) x then l else l - 1.

(** Nearest integer, ties to the even one. *)
Definition round_half_even (y : Q) : Z :=
  let f := Qfloor y in
  match Qcompare (y - inject_Z f) (1 # 2) with
  | Lt => f
  | Gt => f + 1
  | Eq => if Z.even f then f else f + 1
  end.

(** Exponent of the last mantissa bit of the binary64 number nearest to [x]:
    53 significant bits, and never below the subnormal spacing [2^-1074]. *)
Definition binary64_exponent (x : Q) : Z :=
  Z.max (floor_log2 (Qabs x) - 52) (-1074).

(** Round to nearest binary64, ties to even; the exponent range's upper end
    is checked separately by [to_binary64]. *)
Definition rne (x : Q) : Q :=
  if Qeq_bool x 0 then 0%Q
  else
    let e := binary64_exponent x in
    Qred (inject_Z (round_half_even (x * pow2 (- e))) * pow2 e).

(** A Python float.  The sign of zero is not kept: the driver never
    observes it. *)
Inductive pyfloat : Type :=
| Fin (q : Q)
| Inf (negative : bool)
| NaN.

Definition to_binary64 (x : Q) : pyfloat :=
  let r := rne x in
  if Qle_bool (pow2 1024) (Qabs r) then Inf (Qle_bool r 0) else Fin r.

(** ** Python string operations (ASCII) *)

Definition code (c : ascii) : N := N_of_ascii c.

(** [str.isspace] on the ASCII range: TAB..CR, FS..US and the space. *)
Definition is_space (c : ascii) : bool :=
  let n := code c in
  (((9 <=? n) && (n <=? 13)) || ((28 <=? n) && (n <=? 32)))%N.

Definition is_digit (c : ascii) : bool :=
  let n := code c in ((48 <=? n) && (n <=? 57))%N.

Definition is_upper (c : ascii) : bool :=
  let n := code c in ((65 <=? n) && (n <=? 90))%N.

Definition is_lower (c : ascii) : bool :=
  let n := code c in ((97 <=? n) && (n <=? 122))%N.

Definition to_lower (c : ascii) : ascii :=
  if is_upper c then ascii_of_N (code c + 32) else c.

Definition to_upper (c : ascii) : ascii :=
  if is_lower c then ascii_of_N (code c - 32) else c.

Fixpoint map_string (f : ascii -> ascii) (s : string) : string :=
  match s with
  | EmptyString => EmptyString
  | String c s' => String (f c) (map_string f s')
  end.

(** [s.lower()] *)
Definition lower (s : string) : string := map_string to_lower s.

(** [s.replace(a, b)] for one-character [a] and [b]. *)
Definition replace_char (a b : ascii) (s : string) : string :=
  map_string (fun c => if Ascii.eqb c a then b else c) s.

(** [s.title()]: a cased character is upper-cased when the character before
    it is not cased, lower-cased otherwise. *)
Fixpoint title_from (prev_cased : bool) (s : string) : string :=
  match s with
  | EmptyString => EmptyString
  | String c s' =>
      if is_upper c || is_lower c
      then String (if prev_cased then to_lower c else to_upper c)
                  (title_from true s')
      else String c (title_from false s')
  end.

Definition title (s : string) : string := title_from false s.

(** [sub in s] *)
Fixpoint contains (sub s : string) : bool :=
  prefix sub s ||
  match s with
  | EmptyString => false
  | String _ s' => contains sub s'
  end.

Fixpoint rev_string (acc s : string) : string :=
  match s with
  | EmptyString => acc
  | String c s' => rev_string (String c acc) s'
  end.

(** [s.split(sep)] for a non-empty [sep]: left-to-right, non-overlapping.
    [skip] counts the characters of a matched separator still to be
    dropped; [cur] is the current piece, reversed. *)
Fixpoint split_from (sep : string) (skip : nat) (cur : string) (s : string)
  : list string :=
  match s with
  | EmptyString => [rev_string EmptyString cur]
  | String c s' =>
      match skip with
      | S k => split_from sep k cur s'
      | O =>
          if prefix sep s
          then rev_string EmptyString cur
                 :: split_from sep (Nat.pred (String.length sep)) EmptyString s'
          else split_from sep O (String c cur) s'
      end
  end.

Definition split (sep s : string) : list string := split_from sep O EmptyString s.

(** [s.split()]: maximal runs of non-space characters. *)
Fixpoint split_ws_from (cur : string) (s : string) : list string :=
  match s with
  | EmptyString =>
      match cur with
      | EmptyString => []
      | _ => [rev_string EmptyString cur]
      end
  | String c s' =>
      if is_space c
      then match cur with
           | EmptyString => split_ws_from EmptyString s'
           | _ => rev_string EmptyString cur :: split_ws_from EmptyString s'
           end
      else split_ws_from (String c cur) s'
  end.

Definition split_ws (s : string) : list string := split_ws_from EmptyString s.

Fixpoint lstrip (s : string) : string :=
  match s with
  | String c s' => if is_space c then lstrip s' else s
  | EmptyString => EmptyString
  end.

(** [s.strip()] *)
Definition strip (s : string) : string :=
  rev_string EmptyString (lstrip (rev_string EmptyString (lstrip s))).

(** [str(n)] for an integer. *)
Definition str_of_int (n : Z) : string := NilZero.string_of_int (Z.to_int n).

(** *** Numeric literals accepted by [int()] and [float()] *)

Definition digit_value (c : ascii) : Z := Z.of_N (code c) - 48.

(** The rest of a [digitpart] ([digit (["_"] digit)*]) after its first digit:
    the value read so far, the number of digits and the unread suffix. *)
Fixpoint digitpart_tail (acc : Z) (cnt : Z) (s : string) : Z * Z * string :=
  match s with
  | EmptyString => (acc, cnt, s)
  | String c s' =>
      if is_digit c
      then digitpart_tail (acc * 10 + digit_value c) (cnt + 1) s'
      else if Ascii.eqb c "_"
      then match s' with
           | String d s'' =>
               if is_digit d
               then digitpart_tail (acc * 10 + digit_value d) (cnt + 1) s''
               else (acc, cnt, s)
           | EmptyString => (acc, cnt, s)
           end
      else (acc, cnt, s)
  end.

Definition digitpart (s : string) : option (Z * Z * string) :=
  match s with
  | String c s' =>
      if is_digit c then Some (digitpart_tail (digit_value c) 1 s') else None
  | EmptyString => None
  end.

(** An optional sign: [true] for a minus. *)
Definition sign_of (s : string) : bool * string :=
  match s with
  | String "-" s' => (true, s')
  | String "+" s' => (false, s')
  | _ => (false, s)
  end.

(** [int(s)], base ten; [None] is [ValueError]. *)
Definition int_of_str (s : string) : option Z :=
  let (neg, body) := sign_of (strip s) in
  match digitpart body with
  | Some (v, _, EmptyString) => Some (if neg then - v else v)
  | _ => None
  end.

(** [number ::= [digitpart] "." digitpart | digitpart ["."]]: the digits as
    one integer, how many of them follow the point, and the unread suffix. *)
Definition decimal_number (s : string) : option (Z * Z * string) :=
  match digitpart s with
  | Some (i, _, String "." r) =>
      match digitpart r with
      | Some (f, nf, r') => Some (i * 10 ^ nf + f, nf, r')
      | None => Some (i, 0, r)
      end
  | Some (i, _, r) => Some (i, 0, r)
  | None =>
      match s with
      | String "." r =>
          match digitpart r with
          | Some (f, nf, r') => Some (f, nf, r')
          | None => None
          end
      | _ => None
      end
  end.

(** [exponent ::= ("e" | "E") [sign] digitpart], when present. *)
Definition decimal_exponent (s : string) : option (Z * string) :=
  match s with
  | String c r =>
      if Ascii.eqb (to_lower c) "e"
      then let (neg, r') := sign_of r in
           match digitpart r' with
           | Some (v, _, r'') => Some (if neg then - v else v, r'')
           | None => None
           end
      else Some (0, s)
  | EmptyString => Some (0, s)
  end.

(** [m * 10^k] as a rational. *)
Definition scale10 (m k : Z) : Q :=
  if 0 <=? k then inject_Z (m * 10 ^ k) else Qmake m (Z.to_pos (10 ^ (- k))).

(** [float(s)]; [None] is [ValueError].  The literal is rounded correctly,
    and one beyond the binary64 range gives an infinity. *)
Definition float_of_str (s : string) : option pyfloat :=
  let (neg, body) := sign_of (strip s) in
  let low := lower body in
  if String.eqb low "inf" || String.eqb low "infinity" then Some (Inf neg)
  else if String.eqb low "nan" then Some NaN
  else
    match decimal_number body with
    | Some (m, nf, r) =>
        match decimal_exponent r with
        | Some (ex, EmptyString) =>
            Some (to_binary64 (scale10 (if neg then - m else m) (ex - nf)))
        | _ => None
        end
    | None => None
    end.

(** Truth value of a float: everything but zero. *)
Definition float_truthy (x : pyfloat) : bool :=
  match x with
  | Fin q => negb (Qeq_bool q 0)
  | _ => true
  end.

(** Truth value of a string: non-empty. *)
Definition str_truthy (s : string) : bool :=
  match s with EmptyString => false | _ => true end.

(** ** Exceptions *)

Inductive exn_kind : Type :=
| ValueError | IndexError | ZeroDivisionError | OverflowError
| JSONDecodeError | OSError | ImportError | CalledProcessError
| PlainException.

(** An exception with the text [str(e)] gives. *)
Record exn : Type := Exn { exn_kind_of : exn_kind; exn_text : string }.

(** Pure code that may raise: [inl] is the exception. *)
Definition and_then {A B} (r : exn + A) (f : A -> exn + B) : exn + B :=
  match r with
  | inl e => inl e
  | inr a => f a
  end.

Definition of_option {A} (k : exn_kind) (txt : string) (o : option A) : exn + A :=
  match o with
  | Some a => inr a
  | None => inl (Exn k txt)
  end.

(** [l[i]] for [i >= 0]. *)
Definition index {A} (l : list A) (i : nat) : exn + A :=
  of_option IndexError "list index out of range" (nth_error l i).

(** *** Float operations of the driver *)

Definition finite (txt : string) (x : pyfloat) : exn + Q :=
  match x with
  | Fin q => inr q
  | _ => inl (Exn OverflowError txt)
  end.

(** [float(n)] for an integer, as [n * 0.9] computes it first. *)
Definition float_of_int (n : Z) : exn + Q :=
  finite "int too large to convert to float" (to_binary64 (inject_Z n)).

(** [a / b] on integers: the correctly rounded quotient. *)
Definition true_div (a b : Z) : exn + Q :=
  if b =? 0 then inl (Exn ZeroDivisionError "division by zero")
  else finite "integer division result too large for a float"
         (to_binary64 (inject_Z a / inject_Z b)).

(** [x * y] on finite floats. *)
Definition float_mul (x y : Q) : pyfloat := to_binary64 (x * y).

(** [int(x)]: truncation towards zero. *)
Definition int_of_float (x : pyfloat) : exn + Z :=
  match x with
  | Fin q => inr (Z.quot (Qnum q) (Zpos (Qden q)))
  | Inf _ => inl (Exn OverflowError "cannot convert float infinity to integer")
  | NaN => inl (Exn ValueError "cannot convert float NaN to integer")
  end.

(** The literals [0.9], [65] and [1e-5] of the source, as the binary64
    values nearest to them ([0.9 = 0x1.ccccccccccccdp-1],
    [1e-5 = 0x1.4f8b588e368f1p-17]). *)
Definition lit_0_9 : Q := 8106479329266893 # 9007199254740992.
Definition lit_65 : Q := 65.
Definition lit_1e_5 : pyfloat := Fin (5902958103587057 # 590295810358705651712).

(** [int((i / t) * 65)] *)
Definition fraction65 (i t : Z) : exn + Z :=
  and_then (true_div i t) (fun ratio => int_of_float (float_mul ratio lit_65)).

(** ** Observable events and the driver's monad *)

Inductive stage : Type :=
| Initializing | Installing | LoadingModel | PreparingData | Resuming
| StartingTraining | ApplyingLora | Training | FusingModel | ConvertingGguf
| ImportingOllama | Completed | Failed.

(** One element of [loss_history]. *)
Record loss_entry : Type := LossEntry {
  le_step : Z;
  le_loss : pyfloat;
  le_epoch : Z
}.

(** The dictionary handed to [write_progress].  A key the call site leaves
    out is [None]; a key present with Python's [None] is [Some None] where
    both occur ([final_loss]), and plain [None] where the key is always
    present ([loss], [learning_rate]). *)
Record snapshot : Type := Snapshot {
  sn_stage : stage;
  sn_progress : Z;
  sn_message : string;
  sn_epoch : Z;
  sn_total_epochs : Z;
  sn_loss : option pyfloat;
  sn_learning_rate : option pyfloat;
  sn_dataset_size : option Z;
  sn_step : option Z;
  sn_total_steps : option Z;
  sn_loss_history : option (list loss_entry);
  sn_error : option string;
  sn_final_loss : option (option pyfloat);
  sn_model_path : option string;
  sn_ollama_model : option string
}.

(** The dictionary handed to [save_checkpoint]. *)
Record checkpoint : Type := Checkpoint {
  ck_last_iter : Z;
  ck_last_loss : pyfloat;
  ck_epoch : Z;
  ck_loss_history : list loss_entry;
  ck_total_iters : Z;
  ck_dataset_size : Z
}.

(** What [load_checkpoint] finds in an existing file: a JSON object whose
    keys may be missing. *)
Record checkpoint_json : Type := CheckpointJson {
  cj_last_iter : option Z;
  cj_last_loss : option pyfloat;
  cj_epoch : option Z;
  cj_loss_history : option (list loss_entry);
  cj_total_iters : option Z;
  cj_dataset_size : option Z
}.

(** The external programs the driver starts. *)
Inductive program : Type := Pip | Trainer | Fuse | ConvertScript | Ollama.

(** A training example written to [train.jsonl] / [valid.jsonl]. *)
Record example : Type := Example { text : string }.

Inductive event : Type :=
| WriteProgress (s : snapshot)
| SaveCheckpoint (c : checkpoint)
| WriteDataset (train valid : list example)
| WriteModelfile (content : string)
| Launch (p : program) (cmd : list string).

(** The mutable locals of [main]. *)
Record store : Type := Store {
  loss_history : list loss_entry;
  current_iter : Z;
  current_epoch : Z
}.

Definition initial_store : store := Store [] 0 0.

(** A computation: from the current locals to the events it caused, the
    locals it leaves and either an exception or a value. *)
Definition M (A : Type) : Type := store -> list event * store * (exn + A).

Definition ret {A} (a : A) : M A := fun s => ([], s, inr a).

Definition raise {A} (k : exn_kind) (txt : string) : M A :=
  fun s => ([], s, inl (Exn k txt)).

Definition throw {A} (e : exn) : M A := fun s => ([], s, inl e).

Definition bind {A B} (m : M A) (f : A -> M B) : M B :=
  fun s =>
    match m s with
    | (t1, s1, inl e) => (t1, s1, inl e)
    | (t1, s1, inr a) =>
        match f a s1 with
        | (t2, s2, r) => (t1 ++ t2, s2, r)
        end
    end.

(** [try: m  except Exception as e: h e] *)
Definition try_except {A} (m : M A) (h : exn -> M A) : M A :=
  fun s =>
    match m s with
    | (t1, s1, inl e) =>
        match h e s1 with
        | (t2, s2, r) => (t1 ++ t2, s2, r)
        end
    | r => r
    end.

Definition emit (e : event) : M unit := fun s => ([e], s, inr tt).

Definition get : M store := fun s => ([], s, inr s).

Definition put (s' : store) : M unit := fun _ => ([], s', inr tt).

Declare Scope py_scope.
Delimit Scope py_scope with py.
Notation "x <- m ;; k" := (bind m (fun x => k))
  (at level 100, m at next level, right associativity) : py_scope.
Notation "m ;; k" := (bind m (fun _ => k))
  (at level 100, right associativity) : py_scope.
Local Open Scope py_scope.

(** A library call that either raises or returns. *)
Definition lift {A} (r : exn + A) : M A :=
  match r with
  | inl e => throw e
  | inr a => ret a
  end.

(** A call that returns nothing and raises when the world says so. *)
Definition may_raise (r : option exn) : M unit :=
  match r with
  | Some e => throw e
  | None => ret tt
  end.

Definition write_progress (s : snapshot) : M unit := emit (WriteProgress s).

Definition save_checkpoint (c : checkpoint) : M unit := emit (SaveCheckpoint c).

Definition set_loss_history (h : list loss_entry) : M unit :=
  s <- get ;; put (Store h (current_iter s) (current_epoch s)).

Definition set_current_iter (i : Z) : M unit :=
  s <- get ;; put (Store (loss_history s) i (current_epoch s)).

Definition set_current_epoch (e : Z) : M unit :=
  s <- get ;; put (Store (loss_history s) (current_iter s) e).

(** [l[-n:]] for [n > 0]. *)
Definition last_n {A} (n : nat) (l : list A) : list A :=
  skipn (List.length l - n) l.

(** [l[-1]['loss'] if l else None] *)
Definition last_loss (l : list loss_entry) : option pyfloat :=
  match rev l with
  | e :: _ => Some (le_loss e)
  | [] => None
  end.

(** ** The outside world *)

(** One message of a dataset record: [msg.get('role', 'user')] and
    [msg.get('content', '')] read these. *)
Record message : Type := Message {
  msg_role : option string;
  msg_content : option string
}.

(** A decoded dataset line: the value of its [messages] key, if it has one. *)
Record record_json : Type := RecordJson {
  rec_messages : option (list message)
}.

(** The JSON config file; a key that is missing is [None], a string key
    holding [null] is [Some None]. *)
Record config_file : Type := ConfigFile {
  cf_baseModel : option (option string);
  cf_dataset : option (option string);
  cf_output : option (option string);
  cf_epochs : option Z;
  cf_progressFile : option (option string);
  cf_outputDir : option (option string);
  cf_resume : option bool
}.

(** Everything [main] asks of its environment, and the library calls the
    model does not open up ([json.loads], the ML imports).  A field of type
    [option exn] is a call made for its effect: [Some e] when it raises. *)
Record world : Type := World {
  w_python : string;                                 (* sys.executable *)
  w_config : exn + config_file;                      (* open + json.load of --config *)
  w_mlx_installed : bool;                            (* check_mlx_installed() *)
  w_pip_install : option exn;                        (* install_mlx() *)
  w_import_mlx : option exn;                         (* import mlx_lm; from mlx_lm import ... *)
  w_checkpoint : option (exn + checkpoint_json);     (* checkpoint.json, if it exists *)
  w_dataset : exn + list string;                     (* the lines of the dataset file *)
  w_json_loads : string -> exn + record_json;        (* json.loads *)
  w_import_tuner : option exn;                       (* from mlx_lm.tuner... import *)
  w_load_model : option exn;                         (* mlx_lm.load(hf_model) *)
  w_training_args : option exn;                      (* TrainingArgs(...) *)
  w_adapter_exists : bool;                           (* os.path.exists(adapter_path) *)
  w_trainer_output : list string;                    (* process.stdout, line by line *)
  w_trainer_returncode : Z;
  w_fuse : option exn;                               (* subprocess.run(fuse_cmd, check=True) *)
  w_hf_export : option exn;                          (* torch/transformers load and save *)
  w_convert_script_exists : bool;
  w_convert : exn + Z;                               (* return code of the convert script *)
  w_gguf_exists : bool;                              (* os.path.exists(gguf_path) *)
  w_ollama : exn + Z                                 (* return code of ollama create *)
}.

(** ** Dataset transformer: [convert_jsonl_to_mlx_format] *)

Definition nl : string := String (ascii_of_N 10) EmptyString.

Definition dict_get {A} (field : option A) (default : A) : A :=
  match field with
  | Some v => v
  | None => default
  end.

Definition render_message (m : message) : string :=
  let role := dict_get (msg_role m) "user" in
  let content := dict_get (msg_content m) EmptyString in
  if String.eqb role "system" then ("<|system|>" ++ nl ++ content ++ nl)%string
  else if String.eqb role "user" then ("<|user|>" ++ nl ++ content ++ nl)%string
  else if String.eqb role "assistant" then ("<|assistant|>" ++ nl ++ content ++ nl)%string
  else EmptyString.

Definition render_record (d : record_json) : example :=
  Example (String.concat EmptyString (map render_message (dict_get (rec_messages d) []))).

(** [if line.strip():] *)
Definition non_blank (line : string) : bool := str_truthy (strip line).

(** The reading loop: one example per non-blank line, in order; the first
    line [json.loads] rejects ends it. *)
Fixpoint read_examples (loads : string -> exn + record_json) (lines : list string)
  : exn + list example :=
  match lines with
  | [] => inr []
  | line :: rest =>
      if non_blank line
      then match loads line with
           | inl e => inl e
           | inr data =>
               match read_examples loads rest with
               | inl e => inl e
               | inr examples => inr (render_record data :: examples)
               end
           end
      else read_examples loads rest
  end.

(** [max(1, int(n * 0.9))] *)
Definition split_index (n : Z) : exn + Z :=
  and_then (float_of_int n) (fun x =>
  and_then (int_of_float (float_mul x lit_0_9)) (fun i =>
  inr (Z.max 1 i))).

Definition convert_jsonl_to_mlx_format (w : world) : M Z :=
  lines <- lift (w_dataset w) ;;
  examples <- lift (read_examples (w_json_loads w) lines) ;;
  let n := Z.of_nat (List.length examples) in
  split_idx <- lift (split_index n) ;;
  let train_data := firstn (Z.to_nat split_idx) examples in
  let valid_data :=
    if split_idx <? n then skipn (Z.to_nat split_idx) examples
    else last_n 1 examples in
  emit (WriteDataset train_data valid_data) ;;
  ret n.

(** ** Config resolver *)

Record cli_args : Type := CliArgs {
  a_base_model : option string;
  a_dataset : option string;
  a_output : option string;
  a_epochs : Z;
  a_progress_file : option string;
  a_output_dir : option string;
  a_resume : bool;
  a_config : option string
}.

Definition opt_truthy (o : option string) : bool :=
  match o with
  | Some s => str_truthy s
  | None => false
  end.

(** Lines 98-107: each [config.get(key, args.field)]. *)
Definition merge_config (a : cli_args) (c : config_file) : cli_args :=
  CliArgs
    (dict_get (cf_baseModel c) (a_base_model a))
    (dict_get (cf_dataset c) (a_dataset a))
    (dict_get (cf_output c) (a_output a))
    (dict_get (cf_epochs c) (a_epochs a))
    (dict_get (cf_progressFile c) (a_progress_file a))
    (dict_get (cf_outputDir c) (a_output_dir a))
    (dict_get (cf_resume c) (a_resume a))
    (a_config a).

Definition load_config (a : cli_args) (w : world) : exn + cli_args :=
  if opt_truthy (a_config a)
  then match w_config w with
       | inl e => inl e
       | inr c => inr (merge_config a c)
       end
  else inr a.

(** The arguments of a run that passed validation. *)
Record run_args : Type := RunArgs {
  base_model : string;
  dataset : string;
  output : string;
  epochs : Z;
  progress_file : string;
  output_dir : string;
  resume : bool
}.

(** Line 110: [all([...])] over the five required arguments. *)
Definition validate (a : cli_args) : option run_args :=
  match a_base_model a, a_dataset a, a_output a, a_progress_file a, a_output_dir a with
  | Some b, Some d, Some o, Some p, Some od =>
      if str_truthy b && str_truthy d && str_truthy o && str_truthy p && str_truthy od
      then Some (RunArgs b d o (a_epochs a) p od (a_resume a))
      else None
  | _, _, _, _, _ => None
  end.

(** ** Training supervisor: [main] *)

Fixpoint lookup (key : string) (table : list (string * string)) : option string :=
  match table with
  | [] => None
  | (k, v) :: rest => if String.eqb k key then Some v else lookup key rest
  end.

Definition model_mapping : list (string * string) :=
  [ ("llama3.2:3b", "mlx-community/Llama-3.2-3B-Instruct-4bit");
    ("llama3.2:1b", "mlx-community/Llama-3.2-1B-Instruct-4bit");
    ("llama3.1:8b", "mlx-community/Meta-Llama-3.1-8B-Instruct-4bit");
    ("mistral:7b", "mlx-community/Mistral-7B-Instruct-v0.3-4bit");
    ("qwen2.5:3b", "mlx-community/Qwen2.5-3B-Instruct-4bit");
    ("qwen2.5:7b", "mlx-community/Qwen2.5-7B-Instruct-4bit") ].

Definition custom_model_bases : list (string * string) :=
  [ ("luddo-expert", "llama3.2:3b");
    ("luddo-expert:latest", "llama3.2:3b");
    ("llama3.2-luddo-finetuned", "llama3.2:3b") ].

(** Lines 171-188. *)
Definition resolve_hf_model (base : string) : string :=
  let resolved_model := dict_get (lookup base custom_model_bases) base in
  match lookup resolved_model model_mapping with
  | Some hf_model => hf_model
  | None =>
      let base_lower := lower base in
      if contains "luddo" base_lower || contains "expert" base_lower
         || contains "finetuned" base_lower
      then "mlx-community/Llama-3.2-3B-Instruct-4bit"
      else ("mlx-community/" ++ title (replace_char ":" "-" resolved_model) ++ "-4bit")%string
  end.

(** ** Paths

    [pathlib] on POSIX.  A path is a root and a list of components: the
    root is [//] for a string that starts with exactly two slashes, [/] for
    any other string that starts with a slash, and empty otherwise; the
    components are the pieces between slashes, the empty ones and the [.]
    ones dropped ([..] is kept). *)
Fixpoint leading_slashes (s : string) : nat :=
  match s with
  | String c s' => if Ascii.eqb c "/" then S (leading_slashes s') else O
  | EmptyString => O
  end.

Definition path_root (s : string) : string :=
  match leading_slashes s with
  | O => EmptyString
  | 2%nat => "//"
  | _ => "/"
  end.

Definition path_parts (s : string) : list string :=
  filter (fun c => negb (String.eqb c EmptyString || String.eqb c "."))
         (split "/" s).

(** [str] of the path with this root and these components. *)
Definition path_str (root : string) (parts : list string) : string :=
  match root, parts with
  | EmptyString, [] => "."
  | _, _ => (root ++ String.concat "/" parts)%string
  end.

(** [str(Path(a) / b)]: an absolute [b] replaces [a]. *)
Definition path_join (a b : string) : string :=
  if prefix "/" b then path_str (path_root b) (path_parts b)
  else path_str (path_root a) (path_parts a ++ path_parts b).

(** [os.path.join(a, b)] *)
Definition os_path_join (a b : string) : string :=
  if prefix "/" b then b
  else if negb (str_truthy a) || prefix "/" (rev_string EmptyString a)
       then (a ++ b)%string
       else (a ++ "/" ++ b)%string.

(** A snapshot with the seven keys every call site gives. *)
Definition snap (st : stage) (p : Z) (msg : string) (ep tot : Z)
    (l lr : option pyfloat) : snapshot :=
  Snapshot st p msg ep tot l lr None None None None None None None None.

(** The same with [dataset_size]. *)
Definition snap_ds (st : stage) (p : Z) (msg : string) (ep tot : Z)
    (l lr : option pyfloat) (ds : Z) : snapshot :=
  Snapshot st p msg ep tot l lr (Some ds) None None None None None None None.

(** The same with [dataset_size] and [loss_history]. *)
Definition snap_hist (st : stage) (p : Z) (msg : string) (ep tot : Z)
    (l lr : option pyfloat) (ds : Z) (h : list loss_entry) : snapshot :=
  Snapshot st p msg ep tot l lr (Some ds) None None (Some h) None None None None.

(** [if checkpoint:] — a JSON object is true when it has a key. *)
Definition checkpoint_truthy (c : checkpoint_json) : bool :=
  match c with
  | CheckpointJson None None None None None None => false
  | _ => true
  end.

(** [load_checkpoint]: [None] when the file does not exist. *)
Definition load_checkpoint (w : world) : M (option checkpoint_json) :=
  match w_checkpoint w with
  | None => ret None
  | Some r => c <- lift r ;; ret (Some c)
  end.

(** The snapshot of lines 217-226, for the checkpoint found. *)
Definition resuming_snapshot (r : run_args) (c : checkpoint_json)
    (h : list loss_entry) : snapshot :=
  Snapshot Resuming 5
    ("Resuming training from iteration " ++ str_of_int (dict_get (cj_last_iter c) 0) ++ "...")
    (dict_get (cj_epoch c) 1) (epochs r) (cj_last_loss c) (Some lit_1e_5)
    None None None (Some (last_n 50 h)) None None None None.

(** Lines 208-226: returns [resume_from_iter]. *)
Definition check_resume (r : run_args) (w : world) : M Z :=
  set_loss_history [] ;;
  if resume r then
    checkpoint <- load_checkpoint w ;;
    match checkpoint with
    | Some c =>
        if checkpoint_truthy c then
          let resume_from_iter := dict_get (cj_last_iter c) 0 in
          set_loss_history (dict_get (cj_loss_history c) []) ;;
          s <- get ;;
          write_progress (resuming_snapshot r c (loss_history s)) ;;
          ret resume_from_iter
        else ret 0
    | None => ret 0
    end
  else ret 0.

(** Lines 115-246, up to the iteration count of the run. *)
Record prepared : Type := Prepared {
  hf_model : string;
  output_path : string;
  resume_from_iter : Z;
  dataset_size : Z;
  iters_per_epoch : Z;
  total_iters : Z
}.

Definition prepare (r : run_args) (w : world) : M prepared :=
  write_progress (snap Initializing 0 "Checking dependencies..." 0 (epochs r) None None) ;;
  (if w_mlx_installed w then ret tt
   else
     write_progress (snap Installing 2 "Installing MLX-LM..." 0 (epochs r) None None) ;;
     emit (Launch Pip [w_python w; "-m"; "pip"; "install"; "mlx-lm"; "-q"]) ;;
     may_raise (w_pip_install w)) ;;
  may_raise (w_import_mlx w) ;;
  write_progress
    (snap LoadingModel 5 ("Setting up for model: " ++ base_model r ++ "...")
       0 (epochs r) None None) ;;
  let hf := resolve_hf_model (base_model r) in
  write_progress
    (snap PreparingData 10 "Preparing training data..." 0 (epochs r) None None) ;;
  let out := path_join (output_dir r) (output r) in
  resume_iter <- check_resume r w ;;
  ds <- convert_jsonl_to_mlx_format w ;;
  write_progress
    (snap_ds StartingTraining 15
       ("Starting LoRA training on " ++ str_of_int ds ++ " examples...")
       0 (epochs r) None None ds) ;;
  let ipe := Z.max 1 (ds / 4) in
  ret (Prepared hf out resume_iter ds ipe (ipe * epochs r)).

(** Lines 264-351: the in-process attempt, whose failure is only printed. *)
Definition direct_setup (r : run_args) (w : world) (p : prepared) : M unit :=
  set_loss_history [] ;;
  set_current_epoch 0 ;;
  try_except
    (may_raise (w_import_tuner w) ;;
     write_progress
       (snap_ds LoadingModel 20 ("Loading " ++ hf_model p ++ "...")
          0 (epochs r) None None (dataset_size p)) ;;
     may_raise (w_load_model w) ;;
     write_progress
       (snap_ds ApplyingLora 25 "Applying LoRA adapters..."
          0 (epochs r) None None (dataset_size p)) ;;
     may_raise (w_training_args w))
    (fun _ => ret tt).

(** Lines 411-412: the iteration number in the first comma-separated part. *)
Definition parse_iteration (iter_loss_part : string) : exn + Z :=
  and_then (index (split ":" iter_loss_part) 0) (fun iter_match =>
  and_then (index (split_ws iter_match) 1) (fun token =>
  of_option ValueError "invalid literal for int() with base 10" (int_of_str token))).

(** Lines 417-421. *)
Definition parse_train_loss (iter_loss_part : string) : exn + option pyfloat :=
  if contains "Train loss" iter_loss_part then
    and_then (index (split "Train loss" iter_loss_part) 1) (fun piece =>
    and_then (of_option ValueError "could not convert string to float"
                (float_of_str (strip piece))) (fun x =>
    inr (Some x)))
  else inr None.

(** [if train_loss:] — the loss when it is there and true. *)
Definition loss_truthy (l : option pyfloat) : option pyfloat :=
  match l with
  | Some x => if float_truthy x then Some x else None
  | None => None
  end.

(** The snapshot of lines 433-445. *)
Definition training_snapshot (r : run_args) (p : prepared) (cur ep : Z)
    (train_loss : pyfloat) (progress : Z) (h : list loss_entry) : snapshot :=
  Snapshot Training (Z.min progress 95)
    ("Training epoch " ++ str_of_int ep ++ "/" ++ str_of_int (epochs r))
    ep (epochs r) (Some train_loss) (Some lit_1e_5)
    (Some (dataset_size p)) (Some cur) (Some (total_iters p))
    (Some (last_n 50 h)) None None None None.

(** Lines 423-456: what a line with a true loss value causes. *)
Definition record_progress (r : run_args) (p : prepared) (train_loss : pyfloat) : M unit :=
  s <- get ;;
  let cur := current_iter s in
  let ep := Z.min (epochs r) (cur / iters_per_epoch p + 1) in
  set_current_epoch ep ;;
  k <- lift (fraction65 cur (total_iters p)) ;;
  let progress := 30 + k in
  s <- get ;;
  set_loss_history (loss_history s ++ [LossEntry cur train_loss ep]) ;;
  s <- get ;;
  write_progress (training_snapshot r p cur ep train_loss progress (loss_history s)) ;;
  if cur mod 100 =? 0 then
    save_checkpoint
      (Checkpoint cur train_loss ep (last_n 100 (loss_history s))
         (total_iters p) (dataset_size p))
  else ret tt.

(** Lines 405-456: the body of the [try]. *)
Definition parse_line (r : run_args) (p : prepared) (line : string) : M unit :=
  iter_loss_part <- lift (index (split "," line) 0) ;;
  relative_iter <- lift (parse_iteration iter_loss_part) ;;
  set_current_iter (resume_from_iter p + relative_iter) ;;
  train_loss <- lift (parse_train_loss iter_loss_part) ;;
  match loss_truthy train_loss with
  | Some x => record_progress r p x
  | None => ret tt
  end.

(** Line 404. *)
Definition is_progress_line (line : string) : bool :=
  contains "Iter" line && contains "Train loss" line.

(** Lines 400-458: one turn of the read loop. *)
Definition handle_line (r : run_args) (p : prepared) (line : string) : M unit :=
  if is_progress_line line
  then try_except (parse_line r p line) (fun _ => ret tt)
  else ret tt.

Fixpoint read_loop (r : run_args) (p : prepared) (lines : list string) : M unit :=
  match lines with
  | [] => ret tt
  | line :: rest => handle_line r p line ;; read_loop r p rest
  end.

Definition trainer_cmd (w : world) (p : prepared) (remaining_iters : Z) : list string :=
  let adapter_path := path_join (output_path p) "adapters" in
  [ w_python w; "-m"; "mlx_lm"; "lora";
    "--model"; hf_model p;
    "--data"; path_join (output_path p) "data";
    "--train";
    "--iters"; str_of_int remaining_iters;
    "--batch-size"; "4";
    "--num-layers"; "16";
    "--learning-rate"; "1e-5";
    "--steps-per-report"; "1";
    "--adapter-path"; adapter_path ]
  ++ (if (0 <? resume_from_iter p) && w_adapter_exists w
      then ["--resume-adapter-file"; os_path_join adapter_path "adapters.safetensors"]
      else []).

(** The snapshot of line 354. *)
Definition training_started (r : run_args) (p : prepared) : snapshot :=
  snap_ds Training 30 "Training with MLX LoRA..." 1 (epochs r) None None (dataset_size p).

(** Lines 353-463. *)
Definition train (r : run_args) (w : world) (p : prepared) : M unit :=
  write_progress (training_started r p) ;;
  let remaining_iters := total_iters p - resume_from_iter p in
  if remaining_iters <=? 0 then ret tt
  else
    emit (Launch Trainer (trainer_cmd w p remaining_iters)) ;;
    set_current_iter (resume_from_iter p) ;;
    read_loop r p (w_trainer_output w) ;;
    if w_trainer_returncode w =? 0 then ret tt
    else raise PlainException
           ("Training failed with exit code " ++ str_of_int (w_trainer_returncode w)).

(** ** Post-processing chain *)

Definition dquote3 : string :=
  let q := ascii_of_N 34 in String q (String q (String q EmptyString)).

Definition modelfile_content (model_source : string) : string :=
  ("FROM " ++ model_source ++ nl ++ nl
   ++ "SYSTEM " ++ dquote3
   ++ "You are an expert Luddo game AI, fine-tuned with LoRA on winning game decisions."
   ++ nl ++ nl
   ++ "RULES:" ++ nl
   ++ "- Roll 6 to exit yard, capture or reach home = bonus turn" ++ nl
   ++ "- Safe spots: Start (0,13,26,39) and Stars (8,21,34,47)" ++ nl
   ++ "- 56 steps to home (51-55 = home stretch)" ++ nl ++ nl
   ++ "PRIORITIES: Capture > Escape threat > Home stretch > Advance" ++ nl ++ nl
   ++ "Respond: TOKEN: [0-3] and REASONING: [explanation]" ++ dquote3 ++ nl ++ nl
   ++ "PARAMETER temperature 0.5" ++ nl
   ++ "PARAMETER num_ctx 4096" ++ nl)%string.

Definition convert_script : string :=
  "/Volumes/AI_SSD/ai-local/llama.cpp/convert_hf_to_gguf.py".

(** The snapshots of lines 465, 488 and 541, and the two commands. *)
Definition fusing_snapshot (r : run_args) (p : prepared) (h : list loss_entry) : snapshot :=
  snap_hist FusingModel 96 "Fusing adapters with base model..."
    (epochs r) (epochs r) (last_loss h) None (dataset_size p) h.

Definition converting_snapshot (r : run_args) (p : prepared) (h : list loss_entry) : snapshot :=
  snap_hist ConvertingGguf 97 "Converting model to GGUF format..."
    (epochs r) (epochs r) (last_loss h) None (dataset_size p) h.

Definition importing_snapshot (r : run_args) (p : prepared) (h : list loss_entry) : snapshot :=
  snap_hist ImportingOllama 99 "Importing model to Ollama..."
    (epochs r) (epochs r) (last_loss h) None (dataset_size p) h.

Definition fuse_cmd (w : world) (p : prepared) : list string :=
  [ w_python w; "-m"; "mlx_lm"; "fuse";
    "--model"; hf_model p;
    "--adapter-path"; path_join (output_path p) "adapters";
    "--save-path"; path_join (output_path p) "fused";
    "--dequantize" ].

Definition ollama_cmd (r : run_args) (p : prepared) : list string :=
  ["ollama"; "create"; output r; "-f"; path_join (output_path p) "Modelfile"].

(** Lines 465-486. *)
Definition fuse (r : run_args) (w : world) (p : prepared) : M unit :=
  s <- get ;;
  write_progress (fusing_snapshot r p (loss_history s)) ;;
  emit (Launch Fuse (fuse_cmd w p)) ;;
  may_raise (w_fuse w).

(** Lines 488-539: returns [gguf_path], [None] when the conversion did not
    produce it. *)
Definition convert_gguf (r : run_args) (w : world) (p : prepared) : M (option string) :=
  s <- get ;;
  write_progress (converting_snapshot r p (loss_history s)) ;;
  let single_path := path_join (output_path p) "fused-single" in
  let gguf_path := path_join (output_path p) (output r ++ ".gguf") in
  try_except
    (may_raise (w_hf_export w) ;;
     if w_convert_script_exists w then
       emit (Launch ConvertScript
               [ w_python w; convert_script; "--outtype"; "f16";
                 "--outfile"; gguf_path; single_path ]) ;;
       returncode <- lift (w_convert w) ;;
       if returncode =? 0 then ret (Some gguf_path) else ret None
     else ret None)
    (fun _ => ret None).

(** Lines 541-588: returns the return code of [ollama create]. *)
Definition import_ollama (r : run_args) (w : world) (p : prepared)
    (gguf_path : option string) : M Z :=
  s <- get ;;
  write_progress (importing_snapshot r p (loss_history s)) ;;
  let fused_path := path_join (output_path p) "fused" in
  let model_source :=
    match gguf_path with
    | Some g => if str_truthy g && w_gguf_exists w then g else fused_path
    | None => fused_path
    end in
  emit (WriteModelfile (modelfile_content model_source)) ;;
  emit (Launch Ollama (ollama_cmd r p)) ;;
  lift (w_ollama w).

(** Lines 590-606. *)
Definition completed_snapshot (r : run_args) (p : prepared) (h : list loss_entry)
  : snapshot :=
  let final_loss := last_loss h in
  Snapshot Completed 100 ("Training complete! Model: " ++ output r)
    (epochs r) (epochs r) final_loss None (Some (dataset_size p)) None None
    (Some h) None (Some final_loss)
    (Some (path_join (output_path p) "fused")) (Some (output r)).

(** Lines 115-486: the run up to and including the fusion. *)
Definition upto_fuse (r : run_args) (w : world) : M prepared :=
  p <- prepare r w ;;
  direct_setup r w p ;;
  train r w p ;;
  fuse r w p ;;
  ret p.

(** Lines 115-588: everything the [try] does before the final snapshot. *)
Definition pipeline_body (r : run_args) (w : world) : M prepared :=
  p <- upto_fuse r w ;;
  gguf_path <- convert_gguf r w p ;;
  import_ollama r w p gguf_path ;;
  ret p.

(** Lines 264-588: the body of the [try] after [prepare]. *)
Definition after_prepare (r : run_args) (w : world) (p : prepared) : M prepared :=
  direct_setup r w p ;;
  train r w p ;;
  fuse r w p ;;
  gguf_path <- convert_gguf r w p ;;
  import_ollama r w p gguf_path ;;
  ret p.

(** Lines 611-625; the traceback that follows [str(e)] in the [error] key
    is not modelled. *)
Definition failed_snapshot (r : run_args) (e : exn) : snapshot :=
  Snapshot Failed 0 ("Training failed: " ++ exn_text e) 0 (epochs r) None None
    None None None None (Some (exn_text e)) None None None.

(** The [try] of [main] with its handler; the value is the exit status. *)
Definition pipeline (r : run_args) (w : world) : M Z :=
  try_except
    (p <- pipeline_body r w ;;
     s <- get ;;
     write_progress (completed_snapshot r p (loss_history s)) ;;
     ret 0)
    (fun e => write_progress (failed_snapshot r e) ;; ret 1).

Inductive outcome : Type :=
| Exit (status : Z)        (* sys.exit, or parser.error with status 2 *)
| Uncaught (e : exn).      (* an exception outside the try *)

Definition main (a : cli_args) (w : world) : list event * outcome :=
  match load_config a w with
  | inl e => ([], Uncaught e)
  | inr merged =>
      match validate merged with
      | None => ([], Exit 2)
      | Some r =>
          match pipeline r w initial_store with
          | (t, _, inr status) => (t, Exit status)
          | (t, _, inl e) => (t, Uncaught e)
          end
      end
  end.

(** ** Observations on a trace *)

Definition snapshots (t : list event) : list snapshot :=
  flat_map (fun e => match e with WriteProgress s => [s] | _ => [] end) t.

Definition checkpoints (t : list event) : list checkpoint :=
  flat_map (fun e => match e with SaveCheckpoint c => [c] | _ => [] end) t.

Definition launched (p : program) (e : event) : bool :=
  match e, p with
  | Launch Pip _, Pip | Launch Trainer _, Trainer | Launch Fuse _, Fuse
  | Launch ConvertScript _, ConvertScript | Launch Ollama _, Ollama => true
  | _, _ => false
  end.

Definition run {A} (m : M A) (s : store) : list event := fst (fst (m s)).
Definition final {A} (m : M A) (s : store) : store := snd (fst (m s)).
Definition result {A} (m : M A) (s : store) : exn + A := snd (m s).

(** ** One turn of the read loop, summarised *)

(** What a line makes the loop record, if anything: the absolute
    iteration, the loss, the epoch and the value of [int((i / t) * 65)]. *)
Definition line_record (r : run_args) (p : prepared) (line : string)
  : option (Z * pyfloat * Z * Z) :=
  if is_progress_line line then
    match index (split "," line) 0 with
    | inr part =>
        match parse_iteration part, parse_train_loss part with
        | inr relative_iter, inr train_loss =>
            match loss_truthy train_loss with
            | Some x =>
                let cur := resume_from_iter p + relative_iter in
                match fraction65 cur (total_iters p) with
                | inr k => Some (cur, x, Z.min (epochs r) (cur / iters_per_epoch p + 1), k)
                | inl _ => None
                end
            | None => None
            end
        | _, _ => None
        end
    | inl _ => None
    end
  else None.

(** The iteration number the trainer reports on a line, when lines
    404-412 can read one. *)
Definition reported_iteration (line : string) : option Z :=
  if is_progress_line line then
    match index (split "," line) 0 with
    | inr part =>
        match parse_iteration part with
        | inr relative_iter => Some relative_iter
        | inl _ => None
        end
    | inl _ => None
    end
  else None.

Definition reported_iterations (lines : list string) : list Z :=
  flat_map (fun line => match reported_iteration line with
                        | Some i => [i]
                        | None => []
                        end) lines.

(** The events of a recording turn, given the history it leaves. *)
Definition record_events (r : run_args) (p : prepared) (h : list loss_entry)
    (rec : Z * pyfloat * Z * Z) : list event :=
  let '(cur, x, ep, k) := rec in
  WriteProgress (training_snapshot r p cur ep x (30 + k) h)
  :: (if cur mod 100 =? 0
      then [SaveCheckpoint (Checkpoint cur x ep (last_n 100 h) (total_iters p) (dataset_size p))]
      else []).

Definition record_entry (rec : Z * pyfloat * Z * Z) : loss_entry :=
  let '(cur, x, ep, _) := rec in LossEntry cur x ep.

(** The entries a sequence of lines appends, in order. *)
Definition recorded_entries (r : run_args) (p : prepared) (lines : list string)
  : list loss_entry :=
  flat_map (fun line => match line_record r p line with
                        | Some rec => [record_entry rec]
                        | None => []
                        end) lines.

(** ** Judgements on computations *)

(** Every event [m] causes satisfies [phi], and a value it returns [Q]. *)
Definition emits {A} (phi : event -> Prop) (m : M A) (Q : A -> Prop) : Prop :=
  forall s, Forall phi (run m s) /\ forall a, result m s = inr a -> Q a.

(** [m] causes no event. *)
Definition silent {A} (m : M A) : Prop := forall s, run m s = [].

(** The snapshots whose progress the monitor reads as a position in the
    run: all but [Resuming] and [Failed]. *)
Definition counted (sn : snapshot) : bool :=
  match sn_stage sn with
  | Resuming | Failed => false
  | _ => true
  end.

Definition progress_values (t : list event) : list Z :=
  map sn_progress (filter counted (snapshots t)).

(** Non-decreasing, and within [lo, hi]. *)
Definition ordered (lo hi : Z) (l : list Z) : Prop :=
  StronglySorted Z.le l /\ Forall (fun v => lo <= v <= hi) l.

Definition Ord {A} (lo hi : Z) (m : M A) : Prop :=
  forall s, ordered lo hi (progress_values (run m s)).

(** The progress each stage writes outside the read loop. *)
Definition stage_progress (st : stage) (p : Z) : Prop :=
  match st with
  | Initializing => p = 0
  | Installing => p = 2
  | LoadingModel => p = 5 \/ p = 20
  | PreparingData => p = 10
  | Resuming => p = 5
  | StartingTraining => p = 15
  | ApplyingLora => p = 25
  | Training => p = 30
  | FusingModel => p = 96
  | ConvertingGguf => p = 97
  | ImportingOllama => p = 99
  | Completed | Failed => False
  end.

(** The events of every phase but the read loop: snapshots without a
    [step], at their stage's fixed progress; no checkpoint; no trainer. *)
Definition static_event (r : run_args) (e : event) : Prop :=
  match e with
  | WriteProgress sn =>
      sn_step sn = None /\ sn_total_epochs sn = epochs r
      /\ stage_progress (sn_stage sn) (sn_progress sn)
  | SaveCheckpoint _ => False
  | Launch Trainer _ => False
  | _ => True
  end.

(** The value lines 209-214 give [resume_from_iter]. *)
Definition resume_offset (r : run_args) (w : world) : Z :=
  if resume r then
    match w_checkpoint w with
    | Some (inr c) => if checkpoint_truthy c then dict_get (cj_last_iter c) 0 else 0
    | _ => 0
    end
  else 0.

(** What [prepare] establishes about the value it returns. *)
Definition prepare_post (r : run_args) (w : world) (p : prepared) : Prop :=
  hf_model p = resolve_hf_model (base_model r)
  /\ output_path p = path_join (output_dir r) (output r)
  /\ iters_per_epoch p = Z.max 1 (dataset_size p / 4)
  /\ total_iters p = iters_per_epoch p * epochs r
  /\ resume_from_iter p = resume_offset r w.

(** A [Resuming] snapshot without its [loss_history] key; other events
    unchanged. *)
Definition forget_resumed_history (e : event) : event :=
  match e with
  | WriteProgress (Snapshot Resuming p m ep tot l lr ds st ts _ er fl mp om) =>
      WriteProgress (Snapshot Resuming p m ep tot l lr ds st ts None er fl mp om)
  | other => other
  end.

(** An event that holds no loss entry, the [Resuming] snapshot apart. *)
Definition no_history (e : event) : Prop :=
  match e with
  | WriteProgress sn => sn_stage sn = Resuming \/ sn_loss_history sn = None
  | SaveCheckpoint _ => False
  | _ => True
  end.

(** An event whose loss entries, the [Resuming] snapshot apart, are all
    among [entries]. *)
Definition from_this_run (entries : list loss_entry) (e : event) : Prop :=
  match e with
  | WriteProgress sn =>
      sn_stage sn = Resuming
      \/ forall h, sn_loss_history sn = Some h -> incl h entries
  | SaveCheckpoint c => incl (ck_loss_history c) entries
  | _ => True
  end.

(** The same world with another outcome of the GGUF conversion. *)
Definition with_conversion (w : world) (hf_export : option exn) (script : bool)
    (convert : exn + Z) (gguf : bool) : world :=
  World (w_python w) (w_config w) (w_mlx_installed w) (w_pip_install w)
    (w_import_mlx w) (w_checkpoint w) (w_dataset w) (w_json_loads w)
    (w_import_tuner w) (w_load_model w) (w_training_args w) (w_adapter_exists w)
    (w_trainer_output w) (w_trainer_returncode w) (w_fuse w)
    hf_export script convert gguf (w_ollama w).

(** The conversion step did not produce a GGUF file. *)
Definition conversion_fails (w : world) : bool :=
  match w_hf_export w with
  | Some _ => true
  | None =>
      negb (w_convert_script_exists w)
      || match w_convert w with
         | inl _ => true
         | inr returncode => negb (returncode =? 0)
         end
  end.

(** The same world with other entries under the [loss_history] key of the
    checkpoint file, when the file has that key. *)
Definition with_checkpoint_history (w : world) (h : list loss_entry) : world :=
  World (w_python w) (w_config w) (w_mlx_installed w) (w_pip_install w)
    (w_import_mlx w)
    (match w_checkpoint w with
     | Some (inr c) =>
         Some (inr (CheckpointJson (cj_last_iter c) (cj_last_loss c) (cj_epoch c)
                      (option_map (fun _ => h) (cj_loss_history c))
                      (cj_total_iters c) (cj_dataset_size c)))
     | other => other
     end)
    (w_dataset w) (w_json_loads w)
    (w_import_tuner w) (w_load_model w) (w_training_args w) (w_adapter_exists w)
    (w_trainer_output w) (w_trainer_returncode w) (w_fuse w)
    (w_hf_export w) (w_convert_script_exists w) (w_convert w) (w_gguf_exists w)
    (w_ollama w).

(** Two computations that differ at most in the [loss_history] of the
    [Resuming] snapshots they write and in the history they leave. *)
Definition alike {A} (m m' : M A) : Prop :=
  forall s s',
    current_iter s = current_iter s' ->
    current_epoch s = current_epoch s' ->
    map forget_resumed_history (run m s) = map forget_resumed_history (run m' s')
    /\ result m s = result m' s'
    /\ current_iter (final m s) = current_iter (final m' s')
    /\ current_epoch (final m s) = current_epoch (final m' s').

(** ** Sample runs *)

(** A decoder for sample datasets: every line is one user message. *)
Definition sample_loads (line : string) : exn + record_json :=
  inr (RecordJson (Some [Message (Some "user") (Some line)])).

Definition sample_line (n : nat) : string :=
  ("{messages: " ++ str_of_int (Z.of_nat n) ++ "}" ++ nl)%string.

(** A dataset file of [n] records with a blank line after the first. *)
Definition sample_dataset (n : nat) : list string :=
  match map sample_line (seq 1 n) with
  | first :: rest => first :: nl :: rest
  | [] => []
  end.

(** A trainer line as [mlx_lm lora] prints it with [--steps-per-report 1]. *)
Definition trainer_line (iter : Z) (loss : string) : string :=
  ("Iter " ++ str_of_int iter ++ ": Train loss " ++ loss
   ++ ", Learning Rate 1.000e-05, It/sec 0.512, Tokens/sec 210.3" ++ nl)%string.

Definition trainer_lines (n : nat) : list string :=
  map (fun i => trainer_line (Z.of_nat i) "0.500") (seq 1 n).

(** A world in which everything succeeds: MLX is installed, there is no
    checkpoint, the dataset has [n] records, the trainer prints [out]. *)
Definition sample_world (n : nat) (out : list string) : world :=
  World "python3" (inl (Exn OSError "no config file")) true None None None
    (inr (sample_dataset n)) sample_loads None None None false
    out 0 None None true (inr 0) true (inr 0).

Definition with_checkpoint (w : world) (c : option (exn + checkpoint_json)) : world :=
  World (w_python w) (w_config w) (w_mlx_installed w) (w_pip_install w)
    (w_import_mlx w) c (w_dataset w) (w_json_loads w)
    (w_import_tuner w) (w_load_model w) (w_training_args w) (w_adapter_exists w)
    (w_trainer_output w) (w_trainer_returncode w) (w_fuse w)
    (w_hf_export w) (w_convert_script_exists w) (w_convert w) (w_gguf_exists w)
    (w_ollama w).

Definition with_trainer_returncode (w : world) (rc : Z) : world :=
  World (w_python w) (w_config w) (w_mlx_installed w) (w_pip_install w)
    (w_import_mlx w) (w_checkpoint w) (w_dataset w) (w_json_loads w)
    (w_import_tuner w) (w_load_model w) (w_training_args w) (w_adapter_exists w)
    (w_trainer_output w) rc (w_fuse w)
    (w_hf_export w) (w_convert_script_exists w) (w_convert w) (w_gguf_exists w)
    (w_ollama w).

Definition sample_cli (n_epochs : Z) (resume_flag : bool) : cli_args :=
  CliArgs (Some "llama3.2:3b") (Some "data.jsonl") (Some "luddo-v2") n_epochs
    (Some "progress.json") (Some "models") resume_flag None.

Definition sample_args (n_epochs : Z) (resume_flag : bool) : run_args :=
  RunArgs "llama3.2:3b" "data.jsonl" "luddo-v2" n_epochs "progress.json" "models"
    resume_flag.

(** What [prepare] returns for [n] records, [n_epochs] epochs and a resume
    offset. *)
Definition sample_prepared (n : Z) (n_epochs : Z) (offset : Z) : prepared :=
  Prepared "mlx-community/Llama-3.2-3B-Instruct-4bit" "models/luddo-v2" offset n
    (Z.max 1 (n / 4)) (Z.max 1 (n / 4) * n_epochs).

Definition sample_checkpoint (last_iter : Z) (h : list loss_entry) : checkpoint_json :=
  CheckpointJson (Some last_iter) (Some (Fin (1 # 2))) (Some 1) (Some h) (Some 40) (Some 4).

Definition sample_config : config_file :=
  ConfigFile (Some (Some "qwen2.5:3b")) None (Some None) (Some 5) None None (Some true).


(** ** The preparation phase, by name *)

(** The snapshots of lines 117, 129, 143, 190 and 232, and the command of
    [install_mlx]. *)
Definition initializing_snapshot (r : run_args) : snapshot :=
  snap Initializing 0 "Checking dependencies..." 0 (epochs r) None None.

Definition installing_snapshot (r : run_args) : snapshot :=
  snap Installing 2 "Installing MLX-LM..." 0 (epochs r) None None.

Definition pip_cmd (w : world) : list string :=
  [w_python w; "-m"; "pip"; "install"; "mlx-lm"; "-q"].

Definition setting_up_snapshot (r : run_args) : snapshot :=
  snap LoadingModel 5 ("Setting up for model: " ++ base_model r ++ "...")
    0 (epochs r) None None.

Definition preparing_snapshot (r : run_args) : snapshot :=
  snap PreparingData 10 "Preparing training data..." 0 (epochs r) None None.

Definition starting_snapshot (r : run_args) (ds : Z) : snapshot :=
  snap_ds StartingTraining 15
    ("Starting LoRA training on " ++ str_of_int ds ++ " examples...")
    0 (epochs r) None None ds.

(** What [prepare] returns for a resume offset and a dataset size. *)
Definition prepared_for (r : run_args) (resume_iter ds : Z) : prepared :=
  let ipe := Z.max 1 (ds / 4) in
  Prepared (resolve_hf_model (base_model r)) (path_join (output_dir r) (output r))
    resume_iter ds ipe (ipe * epochs r).

(** The exception of line 463. *)
Definition trainer_failure (returncode : Z) : exn :=
  Exn PlainException ("Training failed with exit code " ++ str_of_int returncode).

(** [gguf_path] of line 502. *)
Definition gguf_path (r : run_args) (p : prepared) : string :=
  path_join (output_path p) (output r ++ ".gguf").

(** ** Checkpoint files *)

(** What [json.load] reads back from the file [save_checkpoint] wrote: an
    object holding the six keys. *)
Definition stored_checkpoint (c : checkpoint) : checkpoint_json :=
  CheckpointJson (Some (ck_last_iter c)) (Some (ck_last_loss c)) (Some (ck_epoch c))
    (Some (ck_loss_history c)) (Some (ck_total_iters c)) (Some (ck_dataset_size c)).

(** The empty JSON object. *)
Definition empty_checkpoint : checkpoint_json :=
  CheckpointJson None None None None None None.

(** ** Further observations on a trace *)

Definition is_launch (e : event) : bool :=
  match e with
  | Launch _ _ => true
  | _ => false
  end.

Definition is_dataset_write (e : event) : bool :=
  match e with
  | WriteDataset _ _ => true
  | _ => false
  end.

Definition modelfiles (t : list event) : list string :=
  flat_map (fun e => match e with WriteModelfile c => [c] | _ => [] end) t.

(** The last entry of a history, if it has one. *)
Definition last_entry (h : list loss_entry) : option loss_entry :=
  match rev h with
  | e :: _ => Some e
  | [] => None
  end.

(** The part of a string before the first occurrence of a character. *)
Fixpoint before_char (c : ascii) (s : string) : string :=
  match s with
  | EmptyString => EmptyString
  | String d s' => if Ascii.eqb d c then EmptyString else String d (before_char c s')
  end.

(** No character of the string satisfies [f]. *)
Fixpoint none_of (f : ascii -> bool) (s : string) : bool :=
  match s with
  | EmptyString => true
  | String c s' => negb (f c) && none_of f s'
  end.

(** A component of a path: without a slash, not empty and not [.]. *)
Definition is_component (s : string) : bool :=
  none_of (fun d => Ascii.eqb d "/") s
  && negb (String.eqb s EmptyString || String.eqb s ".").

(** ** Subprocesses *)

(** The launches of a trace, in order. *)
Definition launches (t : list event) : list event := filter is_launch t.

Definition launched_programs (t : list event) : list program :=
  flat_map (fun e => match e with Launch p _ => [p] | _ => [] end) t.

(** The order in which [main] comes to each program. *)
Definition program_rank (p : program) : Z :=
  match p with
  | Pip => 0
  | Trainer => 1
  | Fuse => 2
  | ConvertScript => 3
  | Ollama => 4
  end.

(** The command of lines 523-528. *)
Definition convert_cmd (r : run_args) (w : world) (p : prepared) : list string :=
  [ w_python w; convert_script; "--outtype"; "f16";
    "--outfile"; gguf_path r p; path_join (output_path p) "fused-single" ].

(** The convert script is started: the export to a single file went
    through and the script is there. *)
Definition conversion_attempted (w : world) : bool :=
  match w_hf_export w with
  | Some _ => false
  | None => w_convert_script_exists w
  end.

(** The exception lines 128-141 raise, if any: a failed [pip install] when
    MLX is missing, or a failed import. *)
Definition dependency_error (w : world) : option exn :=
  match (if w_mlx_installed w then None else w_pip_install w) with
  | Some e => Some e
  | None => w_import_mlx w
  end.

(** [remaining_iters] of line 367. *)
Definition remaining_iters (p : prepared) : Z := total_iters p - resume_from_iter p.

(** The training stage went through: it was skipped, or the trainer
    exited with status 0. *)
Definition training_succeeds (w : world) (p : prepared) : bool :=
  (remaining_iters p <=? 0) || (w_trainer_returncode w =? 0).

Definition is_modelfile (e : event) : bool :=
  match e with
  | WriteModelfile _ => true
  | _ => false
  end.

(** [fused_path] of line 478. *)
Definition fused_path (p : prepared) : string := path_join (output_path p) "fused".

(** [model_source] of line 554. *)
Definition model_source (r : run_args) (w : world) (p : prepared) : string :=
  if negb (conversion_fails w) && w_gguf_exists w then gguf_path r p else fused_path p.

(** The locals when the read loop starts. *)
Definition loop_start (p : prepared) : store := Store [] (resume_from_iter p) 0.

(** ** What the read loop leaves behind *)

(** The step, loss and epoch of the snapshots that carry a step, in order. *)
Definition recorded_steps (t : list event) : list (Z * option pyfloat * Z) :=
  flat_map (fun e => match e with
                     | WriteProgress sn =>
                         match sn_step sn with
                         | Some i => [(i, sn_loss sn, sn_epoch sn)]
                         | None => []
                         end
                     | _ => []
                     end) t.

Definition entry_fields (e : loss_entry) : Z * option pyfloat * Z :=
  (le_step e, Some (le_loss e), le_epoch e).

(** A character that ends the iteration number on a trainer line: white
    space, the colon or the comma. *)
Definition is_delimiter (c : ascii) : bool :=
  is_space c || Ascii.eqb c ":" || Ascii.eqb c ",".

(** * The GGUF converter: a shallow embedding of [training/convert_to_gguf.py]

    A stand-alone script: it copies a fused MLX model, runs llama.cpp's
    convert script on the copy and registers the result with Ollama.  Its
    effects are file-system operations and subprocesses; they are traced
    as [effect]s, and the environment [env] says how each one ends. *)

Module ConvertToGguf.

(** An effect names a path by a string that denotes it: the command-line
    argument the [Path] was made from, or the [str] of a joined path. *)
Inductive effect : Type :=
| MakeDirs (path : string)
| Run (cmd : list string)
| RemoveTree (path : string)
| CopyTree (src dst : string)
| Download (url dst : string)
| WriteFile (path content : string).

(** What [subprocess.run(..., capture_output=True)] returns. *)
Record completed : Type := Completed { returncode : Z; stderr : string }.

Record env : Type := Env {
  e_python : string;                 (* sys.executable *)
  e_script_dir : string;             (* Path(__file__).parent *)
  e_mkdir : option exn;              (* work_dir.mkdir(parents=True, exist_ok=True) *)
  e_pip : option exn;                (* subprocess.run([... pip install ...], check=True) *)
  e_hf_exists : bool;                (* dst.exists() before the copy *)
  e_rmtree : option exn;             (* shutil.rmtree(dst) *)
  e_copytree : option exn;           (* shutil.copytree(src, dst) *)
  e_script_exists : bool;            (* convert_script.exists() *)
  e_download : option exn;           (* urllib.request.urlretrieve(url, convert_script) *)
  e_convert : exn + completed;       (* the convert script *)
  e_write_modelfile : option exn;    (* open(modelfile_path, 'w') and the write *)
  e_ollama : exn + completed;        (* ollama create *)
  e_hf_left : bool;                  (* hf_path.exists() at the clean-up *)
  e_cleanup : option exn             (* shutil.rmtree(hf_path) *)
}.

(** A computation: the effects it caused and an exception or a value. *)
Definition C (A : Type) : Type := list effect * (exn + A).

Definition cret {A} (a : A) : C A := ([], inr a).

Definition cthrow {A} (e : exn) : C A := ([], inl e).

Definition cbind {A B} (m : C A) (f : A -> C B) : C B :=
  match m with
  | (t1, inl e) => (t1, inl e)
  | (t1, inr a) =>
      match f a with
      | (t2, r) => (t1 ++ t2, r)
      end
  end.

Definition cemit (e : effect) : C unit := ([e], inr tt).

Definition cmay_raise (r : option exn) : C unit :=
  match r with
  | Some e => cthrow e
  | None => cret tt
  end.

Definition clift {A} (r : exn + A) : C A :=
  match r with
  | inl e => cthrow e
  | inr a => cret a
  end.

Declare Scope conv_scope.
Delimit Scope conv_scope with conv.
Notation "x <- m ;; k" := (cbind m (fun x => k))
  (at level 100, m at next level, right associativity) : conv_scope.
Notation "m ;; k" := (cbind m (fun _ => k))
  (at level 100, right associativity) : conv_scope.

(** [check_llama_cpp], given how the probe ended: its bare [except] turns
    every exception into [False]. *)
Definition check_llama_cpp (probe : exn + completed) : C bool :=
  (cemit (Run ["python3"; "-c"; "import llama_cpp; print(llama_cpp.__file__)"]) ;;
   match probe with
   | inr result => cret (returncode result =? 0)
   | inl _ => cret false
   end)%conv.

Definition pip_cmd (e : env) : list string :=
  [e_python e; "-m"; "pip"; "install";
   "transformers"; "torch"; "sentencepiece"; "protobuf"; "-q"].

Definition install_conversion_deps (e : env) : C unit :=
  (cemit (Run (pip_cmd e)) ;; cmay_raise (e_pip e))%conv.

Definition convert_mlx_to_hf (e : env) (mlx_path hf_path : string) : C bool :=
  ((if e_hf_exists e
    then cemit (RemoveTree hf_path) ;; cmay_raise (e_rmtree e)
    else cret tt) ;;
   cemit (CopyTree mlx_path hf_path) ;;
   cmay_raise (e_copytree e) ;;
   cret true)%conv.

Definition script_url : string :=
  "https://raw.githubusercontent.com/ggerganov/llama.cpp/master/convert_hf_to_gguf.py".

Definition convert_script (e : env) : string :=
  path_join (e_script_dir e) "convert_hf_to_gguf.py".

Definition convert_cmd (e : env) (hf_path gguf_path : string) : list string :=
  [e_python e; convert_script e; hf_path; "--outfile"; gguf_path; "--outtype"; "q4_0"].

Definition conversion_failure (result : completed) : exn :=
  Exn PlainException ("GGUF conversion failed: " ++ stderr result).

Definition convert_hf_to_gguf (e : env) (hf_path gguf_path model_name : string) : C bool :=
  ((if e_script_exists e then cret tt
    else cemit (Download script_url (convert_script e)) ;; cmay_raise (e_download e)) ;;
   cemit (Run (convert_cmd e hf_path gguf_path)) ;;
   result <- clift (e_convert e) ;;
   if negb (returncode result =? 0) then cthrow (conversion_failure result)
   else cret true)%conv.

Definition modelfile_content (gguf_path : string) : string :=
  ("FROM " ++ gguf_path ++ nl ++ nl
   ++ "SYSTEM " ++ dquote3
   ++ "You are an expert Luddo game AI trained on winning game strategies." ++ nl
   ++ "Analyze board positions and select optimal moves considering:" ++ nl
   ++ "- Capture opportunities for bonus turns" ++ nl
   ++ "- Safety from opponent captures" ++ nl
   ++ "- Advancement toward home" ++ nl
   ++ "- Token distribution strategy" ++ nl ++ nl
   ++ "Respond with TOKEN: [0-3] and REASONING: [brief explanation]" ++ dquote3
   ++ nl ++ nl
   ++ "PARAMETER temperature 0.7" ++ nl
   ++ "PARAMETER num_ctx 4096" ++ nl)%string.

(** [str(Path(s).parent)]: the last component dropped; a path without
    components is its own parent. *)
Definition parent (s : string) : string :=
  path_str (path_root s) (removelast (path_parts s)).

Definition ollama_cmd (model_name modelfile_path : string) : list string :=
  ["/opt/homebrew/bin/ollama"; "create"; model_name; "-f"; modelfile_path].

Definition ollama_failure (result : completed) : exn :=
  Exn PlainException ("Ollama create failed: " ++ stderr result).

Definition create_ollama_model (e : env) (gguf_path model_name : string) : C bool :=
  (let modelfile_path := path_join (parent gguf_path) "Modelfile.gguf" in
   cemit (WriteFile modelfile_path (modelfile_content gguf_path)) ;;
   cmay_raise (e_write_modelfile e) ;;
   cemit (Run (ollama_cmd model_name modelfile_path)) ;;
   result <- clift (e_ollama e) ;;
   if negb (returncode result =? 0) then cthrow (ollama_failure result)
   else cret true)%conv.

(** The arguments as the parser leaves them: the two required ones may be
    missing. *)
Record cli : Type := Cli {
  c_mlx_path : option string;
  c_output_name : option string;
  c_work_dir : option string
}.

(** The body of the [try] of [main]. *)
Definition steps (e : env) (mlx_path output_name work_dir : string) : C unit :=
  (let hf_path := path_join work_dir "hf_model" in
   let gguf_path := path_join work_dir (output_name ++ ".gguf") in
   install_conversion_deps e ;;
   convert_mlx_to_hf e mlx_path hf_path ;;
   convert_hf_to_gguf e hf_path gguf_path output_name ;;
   create_ollama_model e gguf_path output_name ;;
   if e_hf_left e then cemit (RemoveTree hf_path) ;; cmay_raise (e_cleanup e)
   else cret tt)%conv.

(** [main]: the effects and how the process ends.  Falling off the end of
    [main] is status 0. *)
Definition main (c : cli) (e : env) : list effect * outcome :=
  match c_mlx_path c, c_output_name c with
  | Some mlx_path, Some output_name =>
      let work_dir := dict_get (c_work_dir c) "/tmp/luddo-convert" in
      match e_mkdir e with
      | Some x => ([MakeDirs work_dir], Uncaught x)
      | None =>
          match steps e mlx_path output_name work_dir with
          | (t, inr _) => (MakeDirs work_dir :: t, Exit 0)
          | (t, inl _) => (MakeDirs work_dir :: t, Exit 1)
          end
      end
  | _, _ => ([], Exit 2)
  end.

(** The exception the [try] of [main] catches, if any. *)
Definition failure (c : cli) (e : env) : option exn :=
  match c_mlx_path c, c_output_name c with
  | Some mlx_path, Some output_name =>
      match steps e mlx_path output_name (dict_get (c_work_dir c) "/tmp/luddo-convert") with
      | (_, inl x) => Some x
      | (_, inr _) => None
      end
  | _, _ => None
  end.

Definition is_write (ef : effect) : bool :=
  match ef with
  | WriteFile _ _ => true
  | _ => false
  end.

(** A world in which every step goes through. *)
Definition sample_env : env :=
  Env "python3" "/opt/luddo/training" None None false None None true None
    (inr (Completed 0 EmptyString)) None (inr (Completed 0 EmptyString)) true None.

Definition sample_cli : cli := Cli (Some "models/luddo-v2/fused") (Some "luddo-v2") None.

End ConvertToGguf.

(** * Properties *)

(** ** Powers of two *)

Lemma pow2_pos (e : Z) : (0 < pow2 e)%Q.
Proof. apply Qpower_0_lt. reflexivity. Qed.

Lemma pow2_add (a b : Z) : (pow2 (a + b) == pow2 a * pow2 b)%Q.
Proof. apply Qpower_plus. discriminate. Qed.

Lemma pow2_le (a b : Z) : a <= b -> (pow2 a <= pow2 b)%Q.
Proof. intros H. apply Qpower_le_compat_l; [exact H | discriminate]. Qed.

Lemma pow2_lt (a b : Z) : a < b -> (pow2 a < pow2 b)%Q.
Proof. intros H. apply Qpower_lt_compat_l; [exact H | reflexivity]. Qed.

Lemma pow2_lt_inv (a b : Z) : (pow2 a < pow2 b)%Q -> a < b.
Proof. intros H. apply (Qpower_lt_compat_l_inv 2); [exact H | reflexivity]. Qed.

Lemma pow2_Z (e : Z) : 0 <= e -> (pow2 e == inject_Z (2 ^ e))%Q.
Proof. intros H. unfold pow2. rewrite Zpower_Qpower by exact H. reflexivity. Qed.

Lemma pow2_cancel (e : Z) : (pow2 e * pow2 (- e) == 1)%Q.
Proof. rewrite <- pow2_add. replace (e + - e) with 0 by lia. reflexivity. Qed.

(** ** [floor_log2] *)

Lemma Q_as_ratio (x : Q) : (x * inject_Z (Zpos (Qden x)) == inject_Z (Qnum x))%Q.
Proof.
  destruct x as [n d]. unfold Qeq, Qmult, inject_Z. simpl.
  rewrite Pos.mul_1_r. ring.
Qed.

Lemma log2_window (n : Z) :
  0 < n -> (pow2 (Z.log2 n) <= inject_Z n /\ inject_Z n < pow2 (Z.log2 n + 1))%Q.
Proof.
  intros Hn.
  pose proof (Z.log2_nonneg n) as H0.
  destruct (Z.log2_spec n Hn) as [Hlo Hhi].
  rewrite !pow2_Z by lia. split.
  - rewrite <- Zle_Qle. exact Hlo.
  - rewrite <- Zlt_Qlt. replace (Z.log2 n + 1) with (Z.succ (Z.log2 n)) by lia. exact Hhi.
Qed.

Lemma floor_log2_spec (x : Q) :
  (0 < x)%Q -> (pow2 (floor_log2 x) <= x /\ x < pow2 (floor_log2 x + 1))%Q.
Proof.
  intros Hx.
  assert (Hn : 0 < Qnum x) by (destruct x as [n d]; unfold Qlt in Hx; simpl in *; lia).
  pose proof (Q_as_ratio x) as Hr.
  destruct (log2_window (Qnum x) Hn) as [Hn1 Hn2].
  destruct (log2_window (Zpos (Qden x)) (Pos2Z.is_pos _)) as [Hd1 Hd2].
  set (ln := Z.log2 (Qnum x)) in *. set (ld := Z.log2 (Zpos (Qden x))) in *.
  set (D := inject_Z (Zpos (Qden x))) in *. set (N := inject_Z (Qnum x)) in *.
  assert (HD : (0 < D)%Q) by (eapply Qlt_le_trans; [apply (pow2_pos ld) | exact Hd1]).
  assert (Hup : (x < pow2 (ln - ld + 1))%Q).
  { apply (Qmult_lt_r _ _ (pow2 ld) (pow2_pos ld)).
    rewrite <- pow2_add. replace (ln - ld + 1 + ld) with (ln + 1) by lia.
    eapply Qle_lt_trans; [| exact Hn2]. rewrite <- Hr.
    apply Qmult_le_l; [exact Hx | exact Hd1]. }
  assert (Hlow : (pow2 (ln - ld - 1) <= x)%Q).
  { apply (Qmult_le_r _ _ D HD). rewrite Hr.
    eapply Qle_trans; [| exact Hn1].
    replace ln with ((ln - ld - 1) + (ld + 1)) at 2 by lia. rewrite pow2_add.
    apply Qmult_le_l; [apply pow2_pos | apply Qlt_le_weak; exact Hd2]. }
  unfold floor_log2. fold ln ld.
  destruct (Qle_bool (pow2 (ln - ld)) x) eqn:Hb.
  - apply Qle_bool_iff in Hb. split; [exact Hb | exact Hup].
  - split; [exact Hlow |].
    replace (ln - ld - 1 + 1) with (ln - ld) by lia.
    apply Qnot_le_lt. intros Hc. apply Qle_bool_iff in Hc. congruence.
Qed.

Lemma floor_log2_unique (x : Q) (l : Z) :
  (pow2 l <= x)%Q -> (x < pow2 (l + 1))%Q -> floor_log2 x = l.
Proof.
  intros H1 H2.
  assert (Hx : (0 < x)%Q) by (eapply Qlt_le_trans; [apply (pow2_pos l) | exact H1]).
  destruct (floor_log2_spec x Hx) as [H3 H4].
  assert (floor_log2 x < l + 1)
    by (apply pow2_lt_inv; eapply Qle_lt_trans; [exact H3 | exact H2]).
  assert (l < floor_log2 x + 1)
    by (apply pow2_lt_inv; eapply Qle_lt_trans; [exact H1 | exact H4]).
  lia.
Qed.

Lemma floor_log2_comp (x y : Q) : (0 < x)%Q -> (x == y)%Q -> floor_log2 x = floor_log2 y.
Proof.
  intros Hx Hxy. symmetry. destruct (floor_log2_spec x Hx) as [H1 H2].
  apply floor_log2_unique; rewrite <- Hxy; assumption.
Qed.

Lemma floor_log2_mono (x y : Q) :
  (0 < x)%Q -> (x <= y)%Q -> floor_log2 x <= floor_log2 y.
Proof.
  intros Hx Hxy.
  destruct (floor_log2_spec x Hx) as [H1 _].
  destruct (floor_log2_spec y (Qlt_le_trans _ _ _ Hx Hxy)) as [_ H2].
  assert (floor_log2 x < floor_log2 y + 1); [| lia].
  apply pow2_lt_inv. eapply Qle_lt_trans; [exact H1 |].
  eapply Qle_lt_trans; [exact Hxy | exact H2].
Qed.

(** ** Rounding to the nearest integer *)

Lemma round_half_even_comp (x y : Q) : (x == y)%Q -> round_half_even x = round_half_even y.
Proof.
  intros H. unfold round_half_even.
  rewrite (Qfloor_comp x y H).
  assert (Hc : ((x - inject_Z (Qfloor y)) ?= (1 # 2))%Q
               = ((y - inject_Z (Qfloor y)) ?= (1 # 2))%Q).
  { apply Qcompare_comp; [rewrite H; reflexivity | reflexivity]. }
  rewrite Hc. reflexivity.
Qed.

Lemma round_half_even_bounds (y : Q) :
  Qfloor y <= round_half_even y <= Qfloor y + 1.
Proof.
  unfold round_half_even.
  destruct (Qcompare _ _); [destruct (Z.even _) | |]; lia.
Qed.

Lemma round_half_even_Z (z : Z) : round_half_even (inject_Z z) = z.
Proof.
  unfold round_half_even. rewrite Qfloor_Z.
  assert (H : ((inject_Z z - inject_Z z) ?= (1 # 2))%Q = Lt).
  { apply Qlt_alt. setoid_replace (inject_Z z - inject_Z z)%Q with 0%Q by ring. reflexivity. }
  rewrite H. reflexivity.
Qed.

Lemma round_half_even_mono (x y : Q) :
  (x <= y)%Q -> round_half_even x <= round_half_even y.
Proof.
  intros Hxy.
  pose proof (Qfloor_resp_le x y Hxy) as Hf.
  pose proof (round_half_even_bounds x) as Bx.
  pose proof (round_half_even_bounds y) as By.
  destruct (Z.eq_dec (Qfloor x) (Qfloor y)) as [E | NE]; [| lia].
  unfold round_half_even in *. rewrite E in *.
  set (f := Qfloor y) in *.
  assert (Hr : (x - inject_Z f <= y - inject_Z f)%Q)
    by (apply Qplus_le_l; exact Hxy).
  clear Bx By Hf E.
  destruct (Qcompare_spec (x - inject_Z f) (1 # 2)) as [Ex | Lx | Gx];
    destruct (Qcompare_spec (y - inject_Z f) (1 # 2)) as [Ey | Ly | Gy];
    try (destruct (Z.even f); lia); try lia; exfalso;
    apply (Qlt_irrefl (1 # 2)).
  - rewrite Ex in Hr. eapply Qle_lt_trans; eassumption.
  - rewrite Ey in Hr. eapply Qlt_le_trans; eassumption.
  - eapply Qlt_trans; [exact Gx |]. eapply Qle_lt_trans; eassumption.
Qed.

(** ** Rounding to binary64 *)

Lemma binary64_exponent_comp (x y : Q) :
  (0 < x)%Q -> (x == y)%Q -> binary64_exponent x = binary64_exponent y.
Proof.
  intros Hx H. unfold binary64_exponent.
  rewrite (floor_log2_comp (Qabs x) (Qabs y)); [reflexivity | | rewrite H; reflexivity].
  rewrite Qabs_pos by (apply Qlt_le_weak; exact Hx). exact Hx.
Qed.

Lemma rne_zero (x : Q) : (x == 0)%Q -> rne x = 0%Q.
Proof.
  intros H. unfold rne.
  destruct (Qeq_bool x 0) eqn:E; [reflexivity |].
  apply Qeq_bool_neq in E. contradiction.
Qed.

(** For a positive argument [rne] is the scaled integer rounding. *)
Lemma rne_pos (x : Q) :
  (0 < x)%Q ->
  (rne x == inject_Z (round_half_even (x * pow2 (- binary64_exponent x)))
            * pow2 (binary64_exponent x))%Q.
Proof.
  intros Hx. unfold rne.
  destruct (Qeq_bool x 0) eqn:E.
  - apply Qeq_bool_iff in E. rewrite E in Hx. discriminate.
  - apply Qred_correct.
Qed.

Lemma rne_comp (x y : Q) : (x == y)%Q -> rne x = rne y.
Proof.
  intros H. unfold rne.
  destruct (Qeq_bool x 0) eqn:Ex; destruct (Qeq_bool y 0) eqn:Ey; try reflexivity.
  - apply Qeq_bool_iff in Ex. apply Qeq_bool_neq in Ey. rewrite H in Ex. contradiction.
  - apply Qeq_bool_iff in Ey. apply Qeq_bool_neq in Ex. rewrite H in Ex. contradiction.
  - apply Qeq_bool_neq in Ex.
    assert (Hxy : binary64_exponent x = binary64_exponent y).
    { unfold binary64_exponent.
      rewrite (floor_log2_comp (Qabs x) (Qabs y)); [reflexivity | | rewrite H; reflexivity].
      destruct (Qlt_le_dec 0 (Qabs x)) as [Hp | Hn]; [exact Hp |].
      exfalso. apply Ex.
      assert (Hz : (Qabs x == 0)%Q) by (apply Qle_antisym; [exact Hn | apply Qabs_nonneg]).
      destruct (Qabs_Qle_condition x 0) as [Hc _].
      destruct Hc as [H1 H2]; [rewrite Hz; apply Qle_refl |].
      apply Qle_antisym; assumption. }
    rewrite Hxy. apply Qred_complete.
    rewrite (round_half_even_comp (x * pow2 (- binary64_exponent y))
               (y * pow2 (- binary64_exponent y))) by (rewrite H; reflexivity).
    reflexivity.
Qed.

Lemma rne_nonneg (x : Q) : (0 <= x)%Q -> (0 <= rne x)%Q.
Proof.
  intros Hx. destruct (Qeq_dec x 0) as [E | NE].
  - rewrite (rne_zero x E). apply Qle_refl.
  - assert (Hp : (0 < x)%Q).
    { apply Qnot_le_lt. intros Hc. apply NE. apply Qle_antisym; assumption. }
    rewrite (rne_pos x Hp).
    apply Qmult_le_0_compat; [| apply Qlt_le_weak, pow2_pos].
    change 0%Q with (inject_Z 0). rewrite <- Zle_Qle.
    rewrite <- (round_half_even_Z 0). apply round_half_even_mono.
    apply Qmult_le_0_compat; [exact Hx | apply Qlt_le_weak, pow2_pos].
Qed.

Lemma binary64_exponent_pos (x : Q) :
  (0 < x)%Q -> binary64_exponent x = Z.max (floor_log2 x - 52) (-1074).
Proof.
  intros Hx. unfold binary64_exponent.
  rewrite (floor_log2_comp (Qabs x) x); [reflexivity | |].
  - rewrite Qabs_pos by (apply Qlt_le_weak; exact Hx). exact Hx.
  - apply Qabs_pos. apply Qlt_le_weak; exact Hx.
Qed.

(** The scaled argument stays below [2^53]. *)
Lemma scaled_below (x : Q) :
  (0 < x)%Q -> (x * pow2 (- binary64_exponent x) < pow2 53)%Q.
Proof.
  intros Hx. rewrite (binary64_exponent_pos x Hx).
  destruct (floor_log2_spec x Hx) as [_ Hup].
  set (e := Z.max (floor_log2 x - 52) (-1074)).
  apply (Qmult_lt_r _ _ (pow2 e) (pow2_pos e)).
  rewrite <- Qmult_assoc.
  setoid_replace (pow2 (- e) * pow2 e)%Q with 1%Q
    by (rewrite Qmult_comm; apply pow2_cancel).
  rewrite Qmult_1_r, <- pow2_add.
  eapply Qlt_le_trans; [exact Hup |]. apply pow2_le. lia.
Qed.

(** Above the subnormal range it reaches [2^52]. *)
Lemma scaled_above (x : Q) :
  (0 < x)%Q -> -1074 < binary64_exponent x ->
  (pow2 52 <= x * pow2 (- binary64_exponent x))%Q.
Proof.
  intros Hx He. rewrite (binary64_exponent_pos x Hx) in *.
  destruct (floor_log2_spec x Hx) as [Hlo _].
  set (e := Z.max (floor_log2 x - 52) (-1074)) in *.
  apply (Qmult_le_r _ _ (pow2 e) (pow2_pos e)).
  rewrite <- Qmult_assoc.
  setoid_replace (pow2 (- e) * pow2 e)%Q with 1%Q
    by (rewrite Qmult_comm; apply pow2_cancel).
  rewrite Qmult_1_r, <- pow2_add.
  eapply Qle_trans; [| exact Hlo]. apply pow2_le. lia.
Qed.

Lemma rne_mono_pos (x y : Q) : (0 < x)%Q -> (x <= y)%Q -> (rne x <= rne y)%Q.
Proof.
  intros Hx Hxy.
  assert (Hy : (0 < y)%Q) by (eapply Qlt_le_trans; eassumption).
  rewrite (rne_pos x Hx), (rne_pos y Hy).
  assert (He : binary64_exponent x <= binary64_exponent y).
  { rewrite (binary64_exponent_pos x Hx), (binary64_exponent_pos y Hy).
    pose proof (floor_log2_mono x y Hx Hxy). lia. }
  set (ex := binary64_exponent x) in *. set (ey := binary64_exponent y) in *.
  destruct (Z.eq_dec ex ey) as [E | NE].
  - rewrite E. apply Qmult_le_compat_r; [| apply Qlt_le_weak, pow2_pos].
    rewrite <- Zle_Qle. apply round_half_even_mono.
    apply Qmult_le_compat_r; [exact Hxy | apply Qlt_le_weak, pow2_pos].
  - (* the binades differ: [rne x <= 2^(ex+53) <= 2^(ey+52) <= rne y] *)
    apply Qle_trans with (pow2 (ex + 53)).
    + rewrite Z.add_comm, pow2_add.
      apply Qmult_le_compat_r; [| apply Qlt_le_weak, pow2_pos].
      rewrite (pow2_Z 53) by lia. rewrite <- Zle_Qle.
      rewrite <- (round_half_even_Z (2 ^ 53)). apply round_half_even_mono.
      rewrite <- (pow2_Z 53) by lia. apply Qlt_le_weak. apply scaled_below. exact Hx.
    + apply Qle_trans with (pow2 (52 + ey)); [apply pow2_le; lia |].
      rewrite pow2_add.
      apply Qmult_le_compat_r; [| apply Qlt_le_weak, pow2_pos].
      rewrite (pow2_Z 52) by lia. rewrite <- Zle_Qle.
      rewrite <- (round_half_even_Z (2 ^ 52)). apply round_half_even_mono.
      rewrite <- (pow2_Z 52) by lia. apply scaled_above; [exact Hy |].
      pose proof (binary64_exponent_pos x Hx). fold ex in H. fold ey. lia.
Qed.

(** Rounding is monotone on the non-negative rationals. *)
Lemma rne_mono (x y : Q) : (0 <= x)%Q -> (x <= y)%Q -> (rne x <= rne y)%Q.
Proof.
  intros Hx Hxy. destruct (Qeq_dec x 0) as [E | NE].
  - rewrite (rne_zero x E). apply rne_nonneg. eapply Qle_trans; eassumption.
  - apply rne_mono_pos; [| exact Hxy].
    apply Qnot_le_lt. intros Hc. apply NE. apply Qle_antisym; assumption.
Qed.

(** A dyadic number with at most 53 significant bits, not finer than the
    subnormal spacing, is its own rounding. *)
Lemma rne_exact (m j : Z) :
  0 < m < 2 ^ 53 -> 0 <= j <= 1074 ->
  (rne (inject_Z m * pow2 (- j)) == inject_Z m * pow2 (- j))%Q.
Proof.
  intros Hm Hj.
  set (x := (inject_Z m * pow2 (- j))%Q).
  assert (Hx : (0 < x)%Q).
  { unfold x. apply Qmult_lt_0_compat; [| apply pow2_pos].
    change 0%Q with (inject_Z 0). rewrite <- Zlt_Qlt. lia. }
  assert (Hlt : (x < pow2 (53 - j))%Q).
  { unfold x. replace (53 - j) with (53 + - j) by lia. rewrite pow2_add.
    apply Qmult_lt_r; [apply pow2_pos |].
    rewrite (pow2_Z 53) by lia. rewrite <- Zlt_Qlt. lia. }
  assert (Hfl : floor_log2 x < 53 - j).
  { destruct (floor_log2_spec x Hx) as [H1 _].
    apply pow2_lt_inv. eapply Qle_lt_trans; eassumption. }
  rewrite (rne_pos x Hx).
  pose proof (binary64_exponent_pos x Hx) as He.
  set (e := binary64_exponent x) in *.
  assert (Hej : 0 <= - e - j) by lia.
  assert (Hs : (x * pow2 (- e) == inject_Z (m * 2 ^ (- e - j)))%Q).
  { unfold x. rewrite <- Qmult_assoc, <- pow2_add.
    replace (- j + - e) with (- e - j) by lia.
    rewrite (pow2_Z (- e - j)) by lia. rewrite inject_Z_mult. reflexivity. }
  rewrite (round_half_even_comp _ _ Hs), round_half_even_Z.
  rewrite inject_Z_mult, <- (pow2_Z (- e - j)) by lia.
  unfold x. rewrite <- Qmult_assoc, <- pow2_add.
  replace (- e - j + e) with (- j) by lia. reflexivity.
Qed.

(** Integers below [2^53] are binary64 numbers. *)
Lemma rne_small_int (n : Z) : 0 <= n < 2 ^ 53 -> (rne (inject_Z n) == inject_Z n)%Q.
Proof.
  intros Hn. destruct (Z.eq_dec n 0) as [-> | NE]; [reflexivity |].
  pose proof (rne_exact n 0 ltac:(lia) ltac:(lia)) as H.
  change (pow2 (- 0)) with 1%Q in H.
  rewrite <- (rne_comp (inject_Z n * 1) (inject_Z n)) by ring.
  rewrite H. ring.
Qed.

(** ** The float expressions of the driver *)

Lemma to_binary64_finite (x : Q) :
  (Qabs (rne x) < pow2 1024)%Q -> to_binary64 x = Fin (rne x).
Proof.
  intros H. unfold to_binary64.
  destruct (Qle_bool (pow2 1024) (Qabs (rne x))) eqn:E; [| reflexivity].
  apply Qle_bool_iff in E. exfalso.
  apply (Qlt_irrefl (pow2 1024)). eapply Qle_lt_trans; eassumption.
Qed.

Lemma to_binary64_comp (x y : Q) : (x == y)%Q -> to_binary64 x = to_binary64 y.
Proof. intros H. unfold to_binary64. rewrite (rne_comp x y H). reflexivity. Qed.

Lemma to_binary64_nonneg (x q : Q) : (0 <= x)%Q -> to_binary64 x = Fin q -> q = rne x.
Proof.
  intros _. unfold to_binary64.
  destruct (Qle_bool _ _); [discriminate | intros H; injection H; auto].
Qed.

Lemma Qfloor_unique (q : Q) (k : Z) :
  (inject_Z k <= q)%Q -> (q < inject_Z (k + 1))%Q -> Qfloor q = k.
Proof.
  intros H1 H2.
  pose proof (Qfloor_resp_le _ _ H1) as H3. rewrite Qfloor_Z in H3.
  assert (H4 : Qfloor q < k + 1).
  { rewrite Zlt_Qlt. eapply Qle_lt_trans; [apply Qfloor_le | exact H2]. }
  lia.
Qed.

(** [int()] of a non-negative float is its floor. *)
Lemma int_of_float_nonneg (q : Q) : (0 <= q)%Q -> int_of_float (Fin q) = inr (Qfloor q).
Proof.
  intros H. destruct q as [n d]. unfold Qle in H. simpl in *.
  rewrite Z.quot_div_nonneg by lia. reflexivity.
Qed.

(** The two float literals are the correctly rounded decimals. *)
Lemma lit_0_9_value : lit_0_9 = rne (9 # 10).
Proof. vm_compute. reflexivity. Qed.

Lemma lit_1e_5_value : lit_1e_5 = to_binary64 (1 # 100000).
Proof. vm_compute. reflexivity. Qed.

Lemma small_below_overflow (q : Q) (b : Z) :
  (0 <= q)%Q -> (q <= inject_Z b)%Q -> b < 2 ^ 1024 -> (Qabs q < pow2 1024)%Q.
Proof.
  intros H0 H1 H2. rewrite Qabs_pos by exact H0.
  eapply Qle_lt_trans; [exact H1 |].
  rewrite (pow2_Z 1024) by lia. rewrite <- Zlt_Qlt. exact H2.
Qed.

(** [max(1, int(n * 0.9))] is [max(1, floor(9n/10))] for every length a
    list can have: below [2^49] the binary64 product never reaches the
    next integer. *)
Lemma split_index_correct (n : Z) :
  0 <= n < 2 ^ 49 -> split_index n = inr (Z.max 1 (9 * n / 10)).
Proof.
  intros Hn. unfold split_index, float_of_int.
  pose proof (rne_small_int n ltac:(lia)) as Hr.
  rewrite to_binary64_finite.
  2: { apply (small_below_overflow _ n); rewrite ?Hr;
       [rewrite <- Zle_Qle with (x := 0); lia | apply Qle_refl | lia]. }
  cbn [finite and_then]. unfold float_mul, lit_0_9.
  set (c := (8106479329266893 # 9007199254740992)%Q).
  set (k := 9 * n / 10).
  assert (Hk : 10 * k <= 9 * n < 10 * k + 10).
  { unfold k. pose proof (Z.div_mod (9 * n) 10 ltac:(lia)).
    pose proof (Z.mod_pos_bound (9 * n) 10 ltac:(lia)). lia. }
  rewrite (to_binary64_comp (rne (inject_Z n) * c) (inject_Z n * c))
    by (rewrite Hr; reflexivity).
  assert (Hlo : (inject_Z k <= inject_Z n * c)%Q).
  { unfold c, Qle, Qmult, inject_Z. cbn [Qnum Qden]. rewrite ?Pos.mul_1_l. lia. }
  assert (Hhi : (inject_Z n * c <= inject_Z (16 * k + 15) * pow2 (- 4))%Q).
  { change (pow2 (- 4)) with (1 # 16)%Q.
    unfold c, Qle, Qmult, inject_Z. cbn [Qnum Qden]. rewrite ?Pos.mul_1_l. lia. }
  assert (H0 : (0 <= inject_Z n * c)%Q).
  { eapply Qle_trans; [| exact Hlo]. rewrite <- Zle_Qle with (x := 0). lia. }
  assert (Hlo' : (inject_Z k <= rne (inject_Z n * c))%Q).
  { rewrite <- (rne_small_int k) by lia.
    apply rne_mono; [rewrite <- Zle_Qle with (x := 0); lia | exact Hlo]. }
  assert (Hhi' : (rne (inject_Z n * c) <= inject_Z (16 * k + 15) * pow2 (- 4))%Q).
  { rewrite <- (rne_exact (16 * k + 15) 4) by lia.
    apply rne_mono; [exact H0 | exact Hhi]. }
  assert (Hlt : (rne (inject_Z n * c) < inject_Z (k + 1))%Q).
  { eapply Qle_lt_trans; [exact Hhi' |].
    change (pow2 (- 4)) with (1 # 16)%Q.
    unfold Qlt, Qmult, inject_Z. cbn [Qnum Qden]. rewrite ?Pos.mul_1_l. lia. }
  rewrite to_binary64_finite.
  2: { apply (small_below_overflow _ (k + 1));
       [apply rne_nonneg; exact H0 | apply Qlt_le_weak; exact Hlt | lia]. }
  rewrite int_of_float_nonneg by (apply rne_nonneg; exact H0).
  cbn [and_then]. rewrite (Qfloor_unique _ k Hlo' Hlt). reflexivity.
Qed.

Lemma true_div_value (i t : Z) (q : Q) :
  true_div i t = inr q -> t <> 0 /\ q = rne (inject_Z i / inject_Z t).
Proof.
  unfold true_div. destruct (Z.eqb_spec t 0) as [E | NE]; [discriminate |].
  unfold to_binary64. destruct (Qle_bool _ _); [discriminate |].
  intros H. injection H as <-. split; [exact NE | reflexivity].
Qed.

Lemma ratio_nonneg (i t : Z) : 0 <= i -> 0 < t -> (0 <= inject_Z i / inject_Z t)%Q.
Proof.
  intros Hi Ht. apply Qle_shift_div_l.
  - rewrite <- Zlt_Qlt with (x := 0). exact Ht.
  - rewrite Qmult_0_l. rewrite <- Zle_Qle with (x := 0). exact Hi.
Qed.

Lemma ratio_mono (i j t : Z) :
  i <= j -> 0 < t -> (inject_Z i / inject_Z t <= inject_Z j / inject_Z t)%Q.
Proof.
  intros Hij Ht. unfold Qdiv. apply Qmult_le_compat_r.
  - rewrite <- Zle_Qle. exact Hij.
  - apply Qinv_le_0_compat. rewrite <- Zle_Qle with (x := 0). lia.
Qed.

(** The value [fraction65] computes, for a non-negative ratio. *)
Lemma fraction65_value (i t k : Z) :
  0 <= i -> 0 < t -> fraction65 i t = inr k ->
  k = Qfloor (rne (rne (inject_Z i / inject_Z t) * lit_65)).
Proof.
  intros Hi Ht. unfold fraction65.
  destruct (true_div i t) as [e | q] eqn:Hd; [discriminate |].
  apply true_div_value in Hd. destruct Hd as [_ ->].
  cbn [and_then]. unfold float_mul, to_binary64.
  destruct (Qle_bool _ _); [discriminate |].
  rewrite int_of_float_nonneg.
  - intros H. injection H as <-. reflexivity.
  - apply rne_nonneg. apply Qmult_le_0_compat; [| discriminate].
    apply rne_nonneg. apply ratio_nonneg; assumption.
Qed.

Lemma fraction65_nonneg (i t k : Z) :
  0 <= i -> 0 < t -> fraction65 i t = inr k -> 0 <= k.
Proof.
  intros Hi Ht H. rewrite (fraction65_value i t k Hi Ht H).
  rewrite <- (Qfloor_Z 0). apply Qfloor_resp_le.
  apply rne_nonneg. apply Qmult_le_0_compat; [| discriminate].
  apply rne_nonneg. apply ratio_nonneg; assumption.
Qed.

(** Rounding twice and truncating keeps the order of the iterations. *)
Lemma fraction65_mono (i j t a b : Z) :
  0 <= i -> i <= j -> 0 < t ->
  fraction65 i t = inr a -> fraction65 j t = inr b -> a <= b.
Proof.
  intros Hi Hij Ht Ha Hb.
  rewrite (fraction65_value i t a Hi Ht Ha).
  rewrite (fraction65_value j t b ltac:(lia) Ht Hb).
  apply Qfloor_resp_le. apply rne_mono.
  - apply Qmult_le_0_compat; [| discriminate].
    apply rne_nonneg. apply ratio_nonneg; assumption.
  - apply Qmult_le_compat_r; [| discriminate].
    apply rne_mono; [apply ratio_nonneg; assumption | apply ratio_mono; assumption].
Qed.

(** ** The monad *)

Lemma run_bind {A B} (m : M A) (f : A -> M B) (s : store) :
  run (bind m f) s =
  run m s ++ match result m s with
             | inr a => run (f a) (final m s)
             | inl _ => []
             end.
Proof.
  unfold run, result, final, bind.
  destruct (m s) as [[t1 s1] [e | a]]; simpl.
  - rewrite app_nil_r. reflexivity.
  - destruct (f a s1) as [[t2 s2] r2]. reflexivity.
Qed.

Lemma result_bind {A B} (m : M A) (f : A -> M B) (s : store) :
  result (bind m f) s =
  match result m s with
  | inr a => result (f a) (final m s)
  | inl e => inl e
  end.
Proof.
  unfold run, result, final, bind.
  destruct (m s) as [[t1 s1] [e | a]]; simpl; [reflexivity |].
  destruct (f a s1) as [[t2 s2] r2]. reflexivity.
Qed.

Lemma final_bind {A B} (m : M A) (f : A -> M B) (s : store) :
  final (bind m f) s =
  match result m s with
  | inr a => final (f a) (final m s)
  | inl e => final m s
  end.
Proof.
  unfold run, result, final, bind.
  destruct (m s) as [[t1 s1] [e | a]]; simpl; [reflexivity |].
  destruct (f a s1) as [[t2 s2] r2]. reflexivity.
Qed.

Lemma run_try {A} (m : M A) (h : exn -> M A) (s : store) :
  run (try_except m h) s =
  run m s ++ match result m s with
             | inl e => run (h e) (final m s)
             | inr _ => []
             end.
Proof.
  unfold run, result, final, try_except.
  destruct (m s) as [[t1 s1] [e | a]]; simpl.
  - destruct (h e s1) as [[t2 s2] r2]. reflexivity.
  - rewrite app_nil_r. reflexivity.
Qed.

Lemma result_try {A} (m : M A) (h : exn -> M A) (s : store) :
  result (try_except m h) s =
  match result m s with
  | inl e => result (h e) (final m s)
  | inr a => inr a
  end.
Proof.
  unfold run, result, final, try_except.
  destruct (m s) as [[t1 s1] [e | a]]; simpl; [| reflexivity].
  destruct (h e s1) as [[t2 s2] r2]. reflexivity.
Qed.

Lemma final_try {A} (m : M A) (h : exn -> M A) (s : store) :
  final (try_except m h) s =
  match result m s with
  | inl e => final (h e) (final m s)
  | inr a => final m s
  end.
Proof.
  unfold run, result, final, try_except.
  destruct (m s) as [[t1 s1] [e | a]]; simpl; [| reflexivity].
  destruct (h e s1) as [[t2 s2] r2]. reflexivity.
Qed.

Lemma M_eta {A} (m : M A) (s : store) : m s = (run m s, final m s, result m s).
Proof. unfold run, final, result. destruct (m s) as [[t s'] r]. reflexivity. Qed.

(** *** Rules for [emits] *)

Section EmitsRules.
Variable phi : event -> Prop.

Lemma emits_ret {A} (a : A) (Q : A -> Prop) : Q a -> emits phi (ret a) Q.
Proof. intros H s. split; [constructor | intros a' E; injection E as <-; exact H]. Qed.

Lemma emits_throw {A} (e : exn) (Q : A -> Prop) : emits phi (throw e) Q.
Proof. intros s. split; [constructor | intros a E; discriminate E]. Qed.

Lemma emits_raise {A} (k : exn_kind) (txt : string) (Q : A -> Prop) :
  emits phi (raise k txt) Q.
Proof. intros s. split; [constructor | intros a E; discriminate E]. Qed.

Lemma emits_lift {A} (r : exn + A) : emits phi (lift r) (fun a => r = inr a).
Proof.
  intros s. destruct r as [e | a]; (split; [constructor | intros a' E]).
  - discriminate E.
  - exact E.
Qed.

Lemma emits_may_raise (r : option exn) : emits phi (may_raise r) (fun _ => r = None).
Proof.
  intros s. destruct r as [e |]; (split; [constructor | intros a' E]).
  - discriminate E.
  - reflexivity.
Qed.

Lemma emits_get : emits phi get (fun _ => True).
Proof. intros s. split; [constructor | auto]. Qed.

Lemma emits_put (s' : store) : emits phi (put s') (fun _ => True).
Proof. intros s. split; [constructor | auto]. Qed.

Lemma emits_emit (e : event) : phi e -> emits phi (emit e) (fun _ => True).
Proof. intros H s. split; [repeat constructor; exact H | auto]. Qed.

Lemma emits_bind {A B} (m : M A) (f : A -> M B) (R : A -> Prop) (Q : B -> Prop) :
  emits phi m R -> (forall a, R a -> emits phi (f a) Q) -> emits phi (bind m f) Q.
Proof.
  intros Hm Hf s. destruct (Hm s) as [H1 H2].
  rewrite run_bind, result_bind.
  destruct (result m s) as [e | a] eqn:E.
  - rewrite app_nil_r. split; [exact H1 | intros a Ha; discriminate Ha].
  - destruct (Hf a (H2 a eq_refl) (final m s)) as [H3 H4].
    split; [apply Forall_app; split; assumption | exact H4].
Qed.

Lemma emits_try {A} (m : M A) (h : exn -> M A) (Q : A -> Prop) :
  emits phi m Q -> (forall e, emits phi (h e) Q) -> emits phi (try_except m h) Q.
Proof.
  intros Hm Hh s. destruct (Hm s) as [H1 H2].
  rewrite run_try, result_try.
  destruct (result m s) as [e | a] eqn:E.
  - destruct (Hh e (final m s)) as [H3 H4].
    split; [apply Forall_app; split; assumption | exact H4].
  - rewrite app_nil_r. split; [exact H1 | intros a' Ha; apply H2; exact Ha].
Qed.

Lemma emits_weaken {A} (m : M A) (R Q : A -> Prop) :
  emits phi m R -> (forall a, R a -> Q a) -> emits phi m Q.
Proof. intros Hm HQ s. destruct (Hm s) as [H1 H2]. split; auto. Qed.

Lemma emits_set_loss_history (h : list loss_entry) :
  emits phi (set_loss_history h) (fun _ => True).
Proof. intros s. split; [constructor | auto]. Qed.

Lemma emits_set_current_iter (i : Z) : emits phi (set_current_iter i) (fun _ => True).
Proof. intros s. split; [constructor | auto]. Qed.

Lemma emits_set_current_epoch (i : Z) : emits phi (set_current_epoch i) (fun _ => True).
Proof. intros s. split; [constructor | auto]. Qed.

Lemma emits_write (sn : snapshot) :
  phi (WriteProgress sn) -> emits phi (write_progress sn) (fun _ => True).
Proof. apply emits_emit. Qed.
End EmitsRules.

(** One step of a walk through a computation: the first rule that fits. *)
Ltac emits_step :=
  first
    [ apply emits_ret
    | apply emits_throw
    | apply emits_raise
    | eapply emits_weaken; [apply emits_lift | intros ? ?]
    | eapply emits_weaken; [apply emits_may_raise | intros ? ?]
    | eapply emits_bind;
      [ first [ apply emits_lift | apply emits_may_raise | apply emits_get
              | apply emits_put | apply emits_set_loss_history
              | apply emits_set_current_iter | apply emits_set_current_epoch
              | apply emits_write | apply emits_emit ]
      | intros ? ? ]
    | apply emits_try; [| intros ?]
    | match goal with
      | |- emits _ (if ?b then _ else _) _ => destruct b eqn:?
      | |- emits _ (match ?x with _ => _ end) _ => destruct x eqn:?
      end ].

(** *** Silent computations *)

Lemma silent_ret {A} (a : A) : silent (ret a).
Proof. intros s. reflexivity. Qed.

Lemma silent_throw {A} (e : exn) : silent (@throw A e).
Proof. intros s. reflexivity. Qed.

Lemma silent_raise {A} (k : exn_kind) (txt : string) : silent (@raise A k txt).
Proof. intros s. reflexivity. Qed.

Lemma silent_lift {A} (r : exn + A) : silent (lift r).
Proof. intros s. destruct r; reflexivity. Qed.

Lemma silent_may_raise (r : option exn) : silent (may_raise r).
Proof. intros s. destruct r; reflexivity. Qed.

Lemma silent_get : silent get.
Proof. intros s. reflexivity. Qed.

Lemma silent_put (s' : store) : silent (put s').
Proof. intros s. reflexivity. Qed.

Lemma silent_set_loss_history (h : list loss_entry) : silent (set_loss_history h).
Proof. intros s. reflexivity. Qed.

Lemma silent_set_current_iter (i : Z) : silent (set_current_iter i).
Proof. intros s. reflexivity. Qed.

Lemma silent_set_current_epoch (i : Z) : silent (set_current_epoch i).
Proof. intros s. reflexivity. Qed.

(** *** Ordered progress values *)

Lemma progress_values_app (t1 t2 : list event) :
  progress_values (t1 ++ t2) = progress_values t1 ++ progress_values t2.
Proof.
  unfold progress_values, snapshots.
  rewrite flat_map_app, filter_app, map_app. reflexivity.
Qed.

Lemma sorted_app (l1 l2 : list Z) :
  StronglySorted Z.le l1 -> StronglySorted Z.le l2 ->
  (forall x y, In x l1 -> In y l2 -> x <= y) ->
  StronglySorted Z.le (l1 ++ l2).
Proof.
  intros H1 H2 H12. induction H1 as [| x l1 Hs IH Hx]; [exact H2 |].
  cbn. constructor.
  - apply IH. intros a b Ha Hb. apply H12; [right; exact Ha | exact Hb].
  - apply Forall_app. split; [exact Hx |].
    apply Forall_forall. intros y Hy. apply H12; [left; reflexivity | exact Hy].
Qed.

Lemma ordered_nil (lo hi : Z) : ordered lo hi [].
Proof. split; constructor. Qed.

Lemma ordered_one (lo hi v : Z) : lo <= v <= hi -> ordered lo hi [v].
Proof. intros H. split; repeat constructor; lia. Qed.

Lemma ordered_app (lo mid hi : Z) (l1 l2 : list Z) :
  lo <= mid <= hi -> ordered lo mid l1 -> ordered mid hi l2 -> ordered lo hi (l1 ++ l2).
Proof.
  intros Hm [S1 B1] [S2 B2]. rewrite Forall_forall in B1, B2. split.
  - apply sorted_app; [exact S1 | exact S2 |].
    intros x y Hx Hy. specialize (B1 x Hx). specialize (B2 y Hy). lia.
  - apply Forall_app. split; apply Forall_forall; intros v Hv.
    + specialize (B1 v Hv). lia.
    + specialize (B2 v Hv). lia.
Qed.

Lemma ordered_weaken (lo hi lo' hi' : Z) (l : list Z) :
  lo' <= lo -> hi <= hi' -> ordered lo hi l -> ordered lo' hi' l.
Proof.
  intros H1 H2 [S B]. split; [exact S |].
  eapply Forall_impl; [| exact B]. cbn. intros v Hv. lia.
Qed.

Lemma Ord_silent {A} (lo hi : Z) (m : M A) : silent m -> Ord lo hi m.
Proof. intros H s. rewrite H. apply ordered_nil. Qed.

Lemma Ord_write (lo hi : Z) (sn : snapshot) :
  lo <= sn_progress sn <= hi -> Ord lo hi (write_progress sn).
Proof.
  intros H s. unfold write_progress, emit, run, progress_values. cbn.
  destruct (counted sn); [apply ordered_one; exact H | apply ordered_nil].
Qed.

Lemma Ord_write_uncounted (lo hi : Z) (sn : snapshot) :
  counted sn = false -> Ord lo hi (write_progress sn).
Proof.
  intros H s. unfold write_progress, emit, run, progress_values. cbn.
  rewrite H. apply ordered_nil.
Qed.

Lemma Ord_emit_other (lo hi : Z) (e : event) :
  snapshots [e] = [] -> Ord lo hi (emit e).
Proof.
  intros H s. unfold emit, run, progress_values. cbn [fst]. rewrite H. apply ordered_nil.
Qed.

Lemma Ord_bind {A B} (lo mid hi : Z) (m : M A) (f : A -> M B) :
  Ord lo mid m -> (forall a, Ord mid hi (f a)) -> lo <= mid <= hi ->
  Ord lo hi (bind m f).
Proof.
  intros Hm Hf Hb s. rewrite run_bind, progress_values_app.
  apply (ordered_app lo mid hi); [exact Hb | apply Hm |].
  destruct (result m s); [apply ordered_nil | apply Hf].
Qed.

(** The same when what follows may rely on a property of the value. *)
Lemma Ord_bind_with {A B} (R : A -> Prop) (lo mid hi : Z) (m : M A) (f : A -> M B) :
  Ord lo mid m -> emits (fun _ => True) m R -> (forall a, R a -> Ord mid hi (f a)) ->
  lo <= mid <= hi -> Ord lo hi (bind m f).
Proof.
  intros Hm HR Hf Hb s. rewrite run_bind, progress_values_app.
  apply (ordered_app lo mid hi); [exact Hb | apply Hm |].
  destruct (result m s) as [e | a] eqn:E; [apply ordered_nil |].
  apply Hf. destruct (HR s) as [_ H]. apply H. exact E.
Qed.

Lemma Ord_bind_silent {A B} (lo hi : Z) (m : M A) (f : A -> M B) :
  silent m -> (forall a, Ord lo hi (f a)) -> Ord lo hi (bind m f).
Proof.
  intros Hm Hf s. rewrite run_bind, Hm. cbn [app].
  destruct (result m s); [apply ordered_nil | apply Hf].
Qed.

Lemma Ord_try {A} (lo mid hi : Z) (m : M A) (h : exn -> M A) :
  Ord lo mid m -> (forall e, Ord mid hi (h e)) -> lo <= mid <= hi ->
  Ord lo hi (try_except m h).
Proof.
  intros Hm Hh Hb s. rewrite run_try, progress_values_app.
  apply (ordered_app lo mid hi); [exact Hb | apply Hm |].
  destruct (result m s); [apply Hh | apply ordered_nil].
Qed.

Lemma Ord_bind_write {B} (lo hi : Z) (sn : snapshot) (f : unit -> M B) :
  lo <= sn_progress sn <= hi -> (forall a, Ord (sn_progress sn) hi (f a)) ->
  Ord lo hi (bind (write_progress sn) f).
Proof.
  intros H Hf. apply (Ord_bind lo (sn_progress sn) hi); [| exact Hf | exact H].
  apply Ord_write. lia.
Qed.

Lemma Ord_bind_other {B} (lo hi : Z) (e : event) (f : unit -> M B) :
  snapshots [e] = [] -> (forall a, Ord lo hi (f a)) -> Ord lo hi (bind (emit e) f).
Proof.
  intros H Hf s. rewrite run_bind, progress_values_app.
  replace (progress_values (run (emit e) s)) with (@nil Z)
    by (unfold progress_values, run, emit; cbn [fst]; rewrite H; reflexivity).
  cbn [app]. destruct (result (emit e) s); [apply ordered_nil | apply Hf].
Qed.

Lemma Ord_bind_uncounted {B} (lo hi : Z) (sn : snapshot) (f : unit -> M B) :
  counted sn = false -> (forall a, Ord lo hi (f a)) ->
  Ord lo hi (bind (write_progress sn) f).
Proof.
  intros H Hf s. rewrite run_bind, progress_values_app.
  replace (progress_values (run (write_progress sn) s)) with (@nil Z)
    by (unfold progress_values, run, write_progress, emit; cbn; rewrite H; reflexivity).
  cbn [app]. destruct (result (write_progress sn) s); [apply ordered_nil | apply Hf].
Qed.

Lemma Ord_weaken {A} (lo hi lo' hi' : Z) (m : M A) :
  Ord lo hi m -> lo' <= lo -> hi <= hi' -> Ord lo' hi' m.
Proof. intros H H1 H2 s. apply (ordered_weaken lo hi); auto. Qed.

Lemma silent_bind {A B} (m : M A) (f : A -> M B) :
  silent m -> (forall a, silent (f a)) -> silent (bind m f).
Proof.
  intros Hm Hf s. rewrite run_bind, Hm. cbn [app].
  destruct (result m s); [reflexivity | apply Hf].
Qed.

Lemma silent_load_checkpoint (w : world) : silent (load_checkpoint w).
Proof.
  unfold load_checkpoint. destruct (w_checkpoint w) as [r |]; [| apply silent_ret].
  apply silent_bind; [apply silent_lift | intros c; apply silent_ret].
Qed.

Create HintDb silent_db.
#[local] Hint Resolve silent_ret silent_throw silent_raise silent_lift silent_may_raise
  silent_get silent_put silent_set_loss_history silent_set_current_iter
  silent_set_current_epoch silent_load_checkpoint : silent_db.

Ltac silent_step := solve [auto with silent_db].

(** A walk for [Ord]: a write moves the lower bound up to its progress. *)
Ltac Ord_step :=
  first
    [ apply Ord_silent; silent_step
    | apply Ord_bind_silent; [silent_step | intros ?]
    | apply Ord_bind_uncounted; [reflexivity | intros ?]
    | apply Ord_bind_write; [cbn; lia | intros ?; cbn [sn_progress snap snap_ds snap_hist]]
    | apply Ord_bind_other; [reflexivity | intros ?]
    | apply Ord_write_uncounted; reflexivity
    | apply Ord_write; cbn; lia
    | apply Ord_emit_other; reflexivity
    | match goal with
      | |- Ord _ _ (if ?b then _ else _) => destruct b eqn:?
      | |- Ord _ _ (match ?x with _ => _ end) => destruct x eqn:?
      end ].

Lemma emits_impl {A} (psi phi : event -> Prop) (m : M A) (Q : A -> Prop) :
  (forall e, psi e -> phi e) -> emits psi m Q -> emits phi m Q.
Proof.
  intros H Hm s. destruct (Hm s) as [H1 H2]. split; [| exact H2].
  eapply Forall_impl; [exact H | exact H1].
Qed.

Lemma emits_forget {A} (phi : event -> Prop) (m : M A) (Q : A -> Prop) :
  emits phi m Q -> emits phi m (fun _ => True).
Proof. intros H. eapply emits_weaken; [exact H | auto]. Qed.

Lemma WriteProgress_inj (a b : snapshot) : WriteProgress a = WriteProgress b -> a = b.
Proof. intros H. congruence. Qed.

Lemma Some_inj {A} (a b : A) : Some a = Some b -> a = b.
Proof. intros H. congruence. Qed.

(** ** The read loop *)

(** One turn never raises; it writes exactly the events of [line_record]
    and appends exactly its entry. *)
Lemma handle_line_summary (r : run_args) (p : prepared) (line : string) (s : store) :
  result (handle_line r p line) s = inr tt
  /\ run (handle_line r p line) s =
     match line_record r p line with
     | Some rec => record_events r p (loss_history s ++ [record_entry rec]) rec
     | None => []
     end
  /\ loss_history (final (handle_line r p line) s) =
     loss_history s ++ match line_record r p line with
                       | Some rec => [record_entry rec]
                       | None => []
                       end.
Proof.
  unfold handle_line, line_record.
  destruct (is_progress_line line); [| rewrite app_nil_r; repeat split].
  unfold run, result, final, try_except, parse_line, bind, lift, throw, ret.
  destruct (index (split "," line) 0) as [e | part];
    [cbn; rewrite app_nil_r; repeat split |].
  destruct (parse_iteration part) as [e | rel];
    [cbn; rewrite app_nil_r; repeat split |].
  cbn [set_current_iter bind get put fst snd app].
  destruct (parse_train_loss part) as [e | tl];
    [cbn; rewrite app_nil_r; repeat split |].
  destruct (loss_truthy tl) as [x |];
    [| cbn; rewrite app_nil_r; repeat split].
  unfold record_progress, bind, get, set_current_epoch, set_loss_history, put, lift,
    throw, ret, write_progress, save_checkpoint, emit.
  cbn [current_iter loss_history current_epoch].
  destruct (fraction65 (resume_from_iter p + rel) (total_iters p)) as [e | k];
    [cbn; rewrite app_nil_r; repeat split |].
  cbn [record_events record_entry].
  destruct ((resume_from_iter p + rel) mod 100 =? 0); cbn; repeat split.
Qed.

Lemma read_loop_result (r : run_args) (p : prepared) (lines : list string) (s : store) :
  result (read_loop r p lines) s = inr tt.
Proof.
  revert s. induction lines as [| line rest IH]; intros s; [reflexivity |].
  cbn [read_loop]. rewrite result_bind.
  destruct (handle_line_summary r p line s) as [-> _]. apply IH.
Qed.

Lemma read_loop_history (r : run_args) (p : prepared) (lines : list string) (s : store) :
  loss_history (final (read_loop r p lines) s) =
  loss_history s ++ recorded_entries r p lines.
Proof.
  revert s. induction lines as [| line rest IH]; intros s.
  - cbn. rewrite app_nil_r. reflexivity.
  - cbn [read_loop recorded_entries flat_map]. rewrite final_bind.
    destruct (handle_line_summary r p line s) as [-> [_ Hh]].
    rewrite IH, Hh, <- app_assoc. reflexivity.
Qed.

(** ** Dataset transformer *)

Lemma read_examples_total (loads : string -> exn + record_json) (lines : list string) :
  (forall line, In line lines -> non_blank line = true -> exists d, loads line = inr d) ->
  exists examples,
    read_examples loads lines = inr examples
    /\ List.length examples = List.length (filter non_blank lines).
Proof.
  induction lines as [| line rest IH]; intros Hd.
  - exists []. split; reflexivity.
  - destruct IH as [exs [He Hl]]; [intros l Hin; apply Hd; right; exact Hin |].
    cbn [read_examples filter].
    destruct (non_blank line) eqn:Hb.
    + destruct (Hd line (or_introl eq_refl) Hb) as [d ->]. rewrite He.
      exists (render_record d :: exs). split; [reflexivity | cbn; rewrite Hl; reflexivity].
    + exists exs. split; assumption.
Qed.

Lemma last_n_singleton {A} (x : A) : last_n 1 [x] = [x].
Proof. reflexivity. Qed.

(** C1.  For a dataset with [N >= 1] non-blank lines, all of them decodable
    (and [N] below [2^49], where the binary64 product [N * 0.9] still
    truncates to [floor(0.9 N)]), [convert_jsonl_to_mlx_format] writes as
    train partition the first [max(1, floor(0.9 N))] examples and as
    validation partition the remainder, or, when the remainder is empty,
    the one-element list holding the last training example; the validation
    partition is never empty, the sizes are [max(1, floor(0.9 N))] and
    [N - train] if positive else [1], and the function returns [N]. *)
Theorem convert_jsonl_split (w : world) (lines : list string) (s : store) :
  w_dataset w = inr lines ->
  (forall line, In line lines -> non_blank line = true ->
                exists d, w_json_loads w line = inr d) ->
  let N := Z.of_nat (List.length (filter non_blank lines)) in
  1 <= N < 2 ^ 49 ->
  let k := Z.max 1 (9 * N / 10) in
  exists examples train valid,
    read_examples (w_json_loads w) lines = inr examples
    /\ Z.of_nat (List.length examples) = N
    /\ convert_jsonl_to_mlx_format w s = ([WriteDataset train valid], s, inr N)
    /\ train = firstn (Z.to_nat k) examples
    /\ (skipn (Z.to_nat k) examples <> [] -> valid = skipn (Z.to_nat k) examples)
    /\ (skipn (Z.to_nat k) examples = [] ->
        exists init e, train = init ++ [e] /\ valid = [e])
    /\ valid <> []
    /\ Z.of_nat (List.length train) = k
    /\ Z.of_nat (List.length valid) = (if 0 <? N - k then N - k else 1)
    /\ N <= Z.of_nat (List.length train) + Z.of_nat (List.length valid).
Proof.
  intros Hds Hdec N HN k.
  destruct (read_examples_total (w_json_loads w) lines Hdec) as [examples [Hre Hlen]].
  assert (HlenZ : Z.of_nat (List.length examples) = N) by (unfold N; rewrite Hlen; reflexivity).
  assert (Hk : 1 <= k <= N).
  { unfold k. pose proof (Z.div_le_upper_bound (9 * N) 10 N ltac:(lia) ltac:(lia)). lia. }
  assert (Hconv : convert_jsonl_to_mlx_format w s =
    ([WriteDataset (firstn (Z.to_nat k) examples)
        (if k <? N then skipn (Z.to_nat k) examples else last_n 1 examples)], s, inr N)).
  { unfold convert_jsonl_to_mlx_format, bind, lift, throw, ret, emit.
    rewrite Hds, Hre, HlenZ, (split_index_correct N) by lia. reflexivity. }
  exists examples, (firstn (Z.to_nat k) examples),
    (if k <? N then skipn (Z.to_nat k) examples else last_n 1 examples).
  assert (Hfl : List.length (firstn (Z.to_nat k) examples) = Z.to_nat k)
    by (apply firstn_length_le; lia).
  assert (Hsl : List.length (skipn (Z.to_nat k) examples) = (List.length examples - Z.to_nat k)%nat)
    by (apply length_skipn).
  destruct (Z.ltb_spec k N) as [Hlt | Hge].
  - (* the remainder is not empty *)
    assert (Hne : skipn (Z.to_nat k) examples <> []).
    { intros E. rewrite E in Hsl. cbn in Hsl. lia. }
    repeat split; try assumption; try reflexivity.
    + intros E. contradiction.
    + lia.
    + rewrite Hsl. destruct (Z.ltb_spec 0 (N - k)); lia.
    + lia.
  - (* only possible with a single example *)
    assert (HN1 : N = 1).
    { unfold k in Hge. pose proof (Z.div_lt_upper_bound (9 * N) 10 N ltac:(lia) ltac:(lia)). lia. }
    assert (Hk1 : k = 1) by lia.
    destruct examples as [| e [| e' rest]]; cbn in HlenZ; try lia.
    rewrite Hk1 in *. change (Z.to_nat 1) with 1%nat in *. cbn [firstn skipn] in *.
    rewrite last_n_singleton in Hconv.
    repeat split; try reflexivity; try assumption.
    + intros E. contradiction.
    + intros _. exists [], e. split; reflexivity.
    + discriminate.
    + rewrite HN1. reflexivity.
    + cbn. lia.
Qed.

Lemma convert_jsonl_split_witness :
  exists train valid,
    convert_jsonl_to_mlx_format (sample_world 10 []) initial_store
    = ([WriteDataset train valid], initial_store, inr 10)
    /\ List.length train = 9%nat /\ List.length valid = 1%nat.
Proof.
  destruct (convert_jsonl_split (sample_world 10 []) (sample_dataset 10) initial_store)
    as (examples & train & valid & _ & _ & Hc & _ & _ & _ & _ & Ht & Hv & _).
  - reflexivity.
  - intros line _ _. eexists. reflexivity.
  - vm_compute. split; [discriminate | reflexivity].
  - exists train, valid. split; [exact Hc |].
    assert (H9 : Z.of_nat (List.length train) = 9) by (rewrite Ht; reflexivity).
    assert (H1 : Z.of_nat (List.length valid) = 1) by (rewrite Hv; reflexivity).
    lia.
Defined.

(** ** Parse failures and zero losses *)

(** A failing [try] body has written nothing and appended nothing. *)
Lemma parse_line_failure (r : run_args) (p : prepared) (line : string) (s : store) (e : exn) :
  result (parse_line r p line) s = inl e ->
  run (parse_line r p line) s = []
  /\ loss_history (final (parse_line r p line) s) = loss_history s.
Proof.
  unfold run, result, final, parse_line, bind, lift, throw, ret.
  destruct (index (split "," line) 0) as [e0 | part]; [cbn; auto |].
  destruct (parse_iteration part) as [e0 | rel]; [cbn; auto |].
  cbn [set_current_iter bind get put fst snd app].
  destruct (parse_train_loss part) as [e0 | tl]; [cbn; auto |].
  destruct (loss_truthy tl) as [x |]; [| cbn; discriminate].
  unfold record_progress, bind, get, set_current_epoch, set_loss_history, put, lift,
    throw, ret, write_progress, save_checkpoint, emit.
  cbn [current_iter loss_history current_epoch].
  destruct (fraction65 (resume_from_iter p + rel) (total_iters p)) as [e0 | k];
    [cbn; auto |].
  destruct ((resume_from_iter p + rel) mod 100 =? 0); cbn; discriminate.
Qed.

(** C3.  When parsing a trainer line fails at any point, the failure is
    swallowed: the turn of the read loop returns normally, writes no
    snapshot and no checkpoint, leaves the recorded loss history as it was,
    and the loop goes on with the next line; the read loop as a whole never
    raises. *)
Theorem parse_failure_is_swallowed
    (r : run_args) (p : prepared) (line : string) (rest : list string)
    (s : store) (e : exn) :
  result (parse_line r p line) s = inl e ->
  let s' := final (handle_line r p line) s in
  result (handle_line r p line) s = inr tt
  /\ run (handle_line r p line) s = []
  /\ loss_history s' = loss_history s
  /\ read_loop r p (line :: rest) s = read_loop r p rest s'
  /\ result (read_loop r p (line :: rest)) s = inr tt.
Proof.
  intros Hfail s'.
  destruct (parse_line_failure r p line s e Hfail) as [Hrun Hhist].
  assert (H : result (handle_line r p line) s = inr tt
              /\ run (handle_line r p line) s = []
              /\ loss_history s' = loss_history s).
  { unfold s', handle_line. destruct (is_progress_line line); [| repeat split].
    rewrite result_try, run_try, final_try, Hfail, Hrun. repeat split. exact Hhist. }
  destruct H as [Hres [Hnone Hsame]].
  repeat split; try assumption.
  - cbn [read_loop]. unfold bind. rewrite (M_eta (handle_line r p line) s).
    rewrite Hres, Hnone. fold s'.
    destruct (read_loop r p rest s') as [[t2 s2] r2]. reflexivity.
  - apply read_loop_result.
Qed.

Lemma parse_failure_is_swallowed_witness :
  let r := sample_args 3 false in
  let p := sample_prepared 8 3 0 in
  let bad := "Iter 12x: Train loss 0.731, Learning Rate 1.000e-05" in
  let h := [LossEntry 1 (Fin (1 # 2)) 1] in
  loss_history (final (read_loop r p [bad; trainer_line 3 "0.250"]) (Store h 1 1))
  = h ++ [LossEntry 3 (Fin (1 # 4)) 2].
Proof.
  intros r p bad h.
  destruct (parse_failure_is_swallowed r p bad [trainer_line 3 "0.250"] (Store h 1 1)
              (Exn ValueError "invalid literal for int() with base 10"))
    as (_ & _ & Hh & Hloop & _).
  - reflexivity.
  - unfold final at 1. rewrite Hloop. reflexivity.
Defined.

(** C9.  A progress line whose iteration and loss both parse, the loss
    being exactly zero, is treated like a line without a loss: the turn
    writes no snapshot, saves no checkpoint and appends no entry (only
    [current_iter] moves), because line 423 tests the truth value of
    [train_loss]. *)
Theorem zero_loss_is_dropped
    (r : run_args) (p : prepared) (line part : string) (rel : Z) (q : Q) (s : store) :
  is_progress_line line = true ->
  index (split "," line) 0 = inr part ->
  parse_iteration part = inr rel ->
  parse_train_loss part = inr (Some (Fin q)) ->
  (q == 0)%Q ->
  handle_line r p line s
  = ([], Store (loss_history s) (resume_from_iter p + rel) (current_epoch s), inr tt)
  /\ snapshots (run (handle_line r p line) s) = []
  /\ checkpoints (run (handle_line r p line) s) = []
  /\ loss_history (final (handle_line r p line) s) = loss_history s.
Proof.
  intros Hp Hpart Hit Hloss Hq.
  assert (Hz : loss_truthy (Some (Fin q)) = None).
  { cbn. apply Qeq_bool_iff in Hq. rewrite Hq. reflexivity. }
  assert (H : handle_line r p line s
              = ([], Store (loss_history s) (resume_from_iter p + rel) (current_epoch s),
                 inr tt)).
  { unfold handle_line. rewrite Hp.
    unfold try_except, parse_line, bind, lift, throw, ret.
    rewrite Hpart, Hit. cbn [set_current_iter bind get put fst snd app].
    rewrite Hloss, Hz. reflexivity. }
  unfold run, final. rewrite H. repeat split.
Qed.

Lemma zero_loss_is_dropped_witness :
  let r := sample_args 3 false in
  let p := sample_prepared 8 3 0 in
  let h := [LossEntry 1 (Fin (1 # 2)) 1] in
  run (handle_line r p (trainer_line 2 "0.000")) (Store h 1 1) = []
  /\ run (handle_line r p (trainer_line 2 "0.001")) (Store h 1 1) <> [].
Proof.
  intros r p h. split.
  - destruct (zero_loss_is_dropped r p (trainer_line 2 "0.000")
                "Iter 2: Train loss 0.000" 2 0%Q (Store h 1 1)) as [H _];
      [reflexivity | reflexivity | reflexivity | reflexivity | reflexivity |].
    unfold run. rewrite H. reflexivity.
  - vm_compute. discriminate.
Defined.

(** ** Config resolver *)

(** C7.  With a config file, every key the file defines replaces the
    command-line value and every key it leaves out keeps it; and whenever
    one of the five required arguments is unset after merging, [main] ends
    with the argument parser's error (status 2) before writing anything. *)
Theorem config_overrides_then_validation (a : cli_args) (w : world) (c : config_file) :
  opt_truthy (a_config a) = true ->
  w_config w = inr c ->
  let m := merge_config a c in
  load_config a w = inr m
  /\ (forall v, cf_baseModel c = Some v -> a_base_model m = v)
  /\ (forall v, cf_dataset c = Some v -> a_dataset m = v)
  /\ (forall v, cf_output c = Some v -> a_output m = v)
  /\ (forall v, cf_epochs c = Some v -> a_epochs m = v)
  /\ (forall v, cf_progressFile c = Some v -> a_progress_file m = v)
  /\ (forall v, cf_outputDir c = Some v -> a_output_dir m = v)
  /\ (forall v, cf_resume c = Some v -> a_resume m = v)
  /\ (cf_baseModel c = None -> a_base_model m = a_base_model a)
  /\ (cf_dataset c = None -> a_dataset m = a_dataset a)
  /\ (cf_output c = None -> a_output m = a_output a)
  /\ (cf_epochs c = None -> a_epochs m = a_epochs a)
  /\ (cf_progressFile c = None -> a_progress_file m = a_progress_file a)
  /\ (cf_outputDir c = None -> a_output_dir m = a_output_dir a)
  /\ (cf_resume c = None -> a_resume m = a_resume a)
  /\ (a_base_model m = None \/ a_dataset m = None \/ a_output m = None
      \/ a_progress_file m = None \/ a_output_dir m = None ->
      main a w = ([], Exit 2)).
Proof.
  intros Hcfg Hfile m.
  assert (Hload : load_config a w = inr m)
    by (unfold load_config; rewrite Hcfg, Hfile; reflexivity).
  assert (Hfail : a_base_model m = None \/ a_dataset m = None \/ a_output m = None
                  \/ a_progress_file m = None \/ a_output_dir m = None ->
                  main a w = ([], Exit 2)).
  { intros Hunset. unfold main. rewrite Hload.
    assert (Hval : validate m = None).
    { unfold validate.
      destruct (a_base_model m) eqn:E1; [| reflexivity].
      destruct (a_dataset m) eqn:E2; [| reflexivity].
      destruct (a_output m) eqn:E3; [| reflexivity].
      destruct (a_progress_file m) eqn:E4; [| reflexivity].
      destruct (a_output_dir m) eqn:E5; [| reflexivity].
      destruct Hunset as [H | [H | [H | [H | H]]]]; congruence. }
    rewrite Hval. reflexivity. }
  split; [exact Hload |].
  repeat split; try exact Hfail;
    unfold m, merge_config, dict_get;
    cbn [a_base_model a_dataset a_output a_epochs a_progress_file a_output_dir a_resume];
    try (intros v Hv; rewrite Hv; reflexivity);
    try (intros Hv; rewrite Hv; reflexivity).
Qed.

Lemma config_overrides_then_validation_witness :
  let a := CliArgs (Some "llama3.2:3b") (Some "data.jsonl") (Some "luddo-v2") 3
             (Some "progress.json") (Some "models") false (Some "run.json") in
  let w := World "python3" (inr sample_config) true None None None
             (inr (sample_dataset 4)) sample_loads None None None false
             [] 0 None None true (inr 0) true (inr 0) in
  load_config a w
  = inr (CliArgs (Some "qwen2.5:3b") (Some "data.jsonl") None 5
           (Some "progress.json") (Some "models") true (Some "run.json"))
  /\ main a w = ([], Exit 2).
Proof.
  intros a w.
  destruct (config_overrides_then_validation a w sample_config eq_refl eq_refl)
    as (Hload & _ & _ & _ & _ & _ & _ & _ & _ & _ & _ & _ & _ & _ & _ & Hfail).
  split; [exact Hload |].
  apply Hfail. right. right. left. reflexivity.
Defined.

(** ** Progress values, phase by phase *)

Lemma Ord_convert_jsonl (lo hi : Z) (w : world) :
  lo <= hi -> Ord lo hi (convert_jsonl_to_mlx_format w).
Proof. intros H. unfold convert_jsonl_to_mlx_format. repeat Ord_step. Qed.

Lemma Ord_check_resume (lo hi : Z) (r : run_args) (w : world) :
  lo <= hi -> Ord lo hi (check_resume r w).
Proof.
  intros H. unfold check_resume. repeat Ord_step.
Qed.

Lemma Ord_prepare (r : run_args) (w : world) : Ord 0 15 (prepare r w).
Proof.
  unfold prepare.
  Ord_step. apply (Ord_bind 0 2 15); [| intros ? | lia].
  { repeat Ord_step. }
  Ord_step. Ord_step. Ord_step.
  apply (Ord_bind 10 10 15); [apply Ord_check_resume; lia | intros ? | lia].
  apply (Ord_bind 10 10 15); [apply Ord_convert_jsonl; lia | intros ? | lia].
  repeat Ord_step.
Qed.

Lemma Ord_direct_setup (r : run_args) (w : world) (p : prepared) :
  Ord 15 25 (direct_setup r w p).
Proof.
  unfold direct_setup. Ord_step. Ord_step.
  apply (Ord_try 15 25 25); [| intros e; repeat Ord_step | lia].
  repeat Ord_step.
Qed.

Lemma Ord_fuse (r : run_args) (w : world) (p : prepared) : Ord 95 96 (fuse r w p).
Proof. unfold fuse. repeat Ord_step. Qed.

Lemma Ord_convert_gguf (r : run_args) (w : world) (p : prepared) :
  Ord 96 97 (convert_gguf r w p).
Proof.
  unfold convert_gguf. Ord_step. Ord_step.
  apply (Ord_try 97 97 97); [| intros e; repeat Ord_step | lia].
  repeat Ord_step.
Qed.

Lemma Ord_import_ollama (r : run_args) (w : world) (p : prepared) (g : option string) :
  Ord 97 99 (import_ollama r w p g).
Proof. unfold import_ollama. repeat Ord_step. Qed.

(** What [line_record] says about a recorded line. *)
Lemma line_record_reported (r : run_args) (p : prepared) (line : string)
    (cur : Z) (x : pyfloat) (ep k : Z) :
  line_record r p line = Some (cur, x, ep, k) ->
  exists rel,
    reported_iteration line = Some rel
    /\ cur = resume_from_iter p + rel
    /\ fraction65 cur (total_iters p) = inr k
    /\ ep = Z.min (epochs r) (cur / iters_per_epoch p + 1).
Proof.
  unfold line_record, reported_iteration.
  destruct (is_progress_line line); [| discriminate].
  destruct (index (split "," line) 0) as [e | part]; [discriminate |].
  destruct (parse_iteration part) as [e | rel]; [discriminate |].
  destruct (parse_train_loss part) as [e | tl]; [discriminate |].
  destruct (loss_truthy tl) as [x' |]; [| discriminate].
  destruct (fraction65 (resume_from_iter p + rel) (total_iters p)) as [e | k'] eqn:Hf;
    [discriminate |].
  intros H. injection H as <- <- <- <-. exists rel. repeat split. exact Hf.
Qed.

Lemma reported_of_unrecorded (r : run_args) (p : prepared) (line : string) (rest : list string) :
  forall i, In i (reported_iterations rest) -> In i (reported_iterations (line :: rest)).
Proof.
  intros i Hi. cbn [reported_iterations flat_map]. apply in_or_app. right. exact Hi.
Qed.

Lemma progress_values_record (r : run_args) (p : prepared) (h : list loss_entry)
    (cur : Z) (x : pyfloat) (ep k : Z) :
  progress_values (record_events r p h (cur, x, ep, k)) = [Z.min (30 + k) 95].
Proof.
  unfold record_events, progress_values.
  destruct (cur mod 100 =? 0); reflexivity.
Qed.

(** The snapshots of the read loop are in step with the iterations the
    trainer reports. *)
Lemma read_loop_ordered (r : run_args) (p : prepared) (lines : list string) :
  0 < total_iters p ->
  StronglySorted Z.le (reported_iterations lines) ->
  Forall (fun rel => 0 <= resume_from_iter p + rel) (reported_iterations lines) ->
  forall lo s,
    lo <= 95 ->
    (forall rel k, In rel (reported_iterations lines) ->
                   fraction65 (resume_from_iter p + rel) (total_iters p) = inr k ->
                   lo <= Z.min (30 + k) 95) ->
    ordered lo 95 (progress_values (run (read_loop r p lines) s)).
Proof.
  intros Ht. induction lines as [| line rest IH]; intros Hs Hn lo s Hlo Hlow.
  - apply ordered_nil.
  - cbn [read_loop]. rewrite run_bind, progress_values_app.
    destruct (handle_line_summary r p line s) as [-> [-> _]].
    destruct (line_record r p line) as [[[[cur x] ep] k] |] eqn:Hrec.
    + destruct (line_record_reported r p line cur x ep k Hrec)
        as (rel & Hrep & -> & Hk & _).
      cbn [reported_iterations flat_map] in Hs, Hn, Hlow. rewrite Hrep in Hs, Hn, Hlow.
      cbn [app] in Hs, Hn, Hlow.
      apply StronglySorted_inv in Hs. destruct Hs as [Hs Hall].
      apply Forall_cons_iff in Hn. destruct Hn as [Hrel Hn].
      rewrite progress_values_record.
      apply (ordered_app lo (Z.min (30 + k) 95) 95).
      * split; [apply Hlow with (rel := rel); [left; reflexivity | exact Hk] | lia].
      * apply ordered_one. split; [| lia].
        apply Hlow with (rel := rel); [left; reflexivity | exact Hk].
      * apply IH; [exact Hs | exact Hn | lia |].
        intros rel' k' Hin Hk'.
        rewrite Forall_forall in Hall, Hn.
        pose proof (fraction65_mono (resume_from_iter p + rel) (resume_from_iter p + rel')
                      (total_iters p) k k' Hrel ltac:(specialize (Hall rel' Hin); lia)
                      Ht Hk Hk').
        lia.
    + cbn [app].
      assert (Hsub : forall i, In i (reported_iterations rest) ->
                               In i (reported_iterations (line :: rest)))
        by (apply (reported_of_unrecorded r p)).
      apply IH; [| | exact Hlo |].
      * cbn [reported_iterations flat_map] in Hs.
        destruct (reported_iteration line); [| exact Hs].
        apply StronglySorted_inv in Hs. apply Hs.
      * rewrite Forall_forall in *. intros i Hi. apply Hn, Hsub, Hi.
      * intros rel k Hin. apply Hlow, Hsub, Hin.
Qed.

Lemma Ord_train (r : run_args) (w : world) (p : prepared) :
  0 <= resume_from_iter p ->
  StronglySorted Z.le (reported_iterations (w_trainer_output w)) ->
  Forall (fun rel => 0 <= rel) (reported_iterations (w_trainer_output w)) ->
  Ord 25 95 (train r w p).
Proof.
  intros Hres Hs Hn. unfold train.
  apply Ord_bind_write; [cbn; lia | intros _; cbn [sn_progress snap_ds]].
  destruct (Z.leb_spec (total_iters p - resume_from_iter p) 0) as [Hle | Hgt];
    [repeat Ord_step |].
  Ord_step. Ord_step.
  apply (Ord_bind 30 95 95); [| intros _; repeat Ord_step | lia].
  intros s. apply read_loop_ordered; try assumption; try lia.
  - eapply Forall_impl; [| exact Hn]. cbn. intros rel Hrel. lia.
  - intros rel k Hin Hk. rewrite Forall_forall in Hn. specialize (Hn rel Hin).
    pose proof (fraction65_nonneg (resume_from_iter p + rel) (total_iters p) k
                  ltac:(lia) ltac:(lia) Hk). lia.
Qed.

(** ** The events of the phases outside the read loop *)

Lemma check_resume_static (r : run_args) (w : world) :
  emits (static_event r) (check_resume r w) (fun i => i = resume_offset r w).
Proof.
  unfold check_resume, load_checkpoint, resume_offset.
  eapply emits_bind; [apply emits_set_loss_history | intros _ _].
  destruct (resume r) eqn:Hres; [| apply emits_ret; reflexivity].
  destruct (w_checkpoint w) as [[e | c] |] eqn:Hck.
  - eapply emits_bind with (R := fun _ => False);
      [eapply emits_bind; [apply emits_lift | intros ? H; discriminate H] |].
    intros ? [].
  - eapply emits_bind with (R := fun o => o = Some c).
    { eapply emits_bind; [apply emits_lift | intros c' Hc'].
      injection Hc' as <-. apply emits_ret. reflexivity. }
    intros o ->. destruct (checkpoint_truthy c) eqn:Htr; [| apply emits_ret; reflexivity].
    repeat emits_step.
    + cbn. auto.
    + reflexivity.
  - eapply emits_bind with (R := fun o => o = None); [apply emits_ret; reflexivity |].
    intros o ->. apply emits_ret. reflexivity.
Qed.

Lemma resume_offset_nonneg (r : run_args) (w : world) :
  (forall c, w_checkpoint w = Some (inr c) -> 0 <= dict_get (cj_last_iter c) 0) ->
  0 <= resume_offset r w.
Proof.
  intros Hck. unfold resume_offset.
  destruct (resume r); [| lia].
  destruct (w_checkpoint w) as [[e | c] |]; try lia.
  destruct (checkpoint_truthy c); [apply Hck; reflexivity | lia].
Qed.

Lemma convert_jsonl_static (r : run_args) (w : world) :
  emits (static_event r) (convert_jsonl_to_mlx_format w) (fun _ => True).
Proof. unfold convert_jsonl_to_mlx_format. repeat emits_step; cbn; auto. Qed.

Lemma prepare_static (r : run_args) (w : world) :
  emits (static_event r) (prepare r w) (prepare_post r w).
Proof.
  unfold prepare.
  emits_step; [cbn; auto |].
  eapply emits_bind with (R := fun _ => True).
  { destruct (w_mlx_installed w); repeat emits_step; cbn; auto. }
  intros _ _. emits_step. emits_step; [cbn; auto |]. emits_step; [cbn; auto |].
  eapply emits_bind; [apply check_resume_static | intros i Hi].
  eapply emits_bind; [apply convert_jsonl_static | intros ds _].
  emits_step; [cbn; auto |].
  apply emits_ret. unfold prepare_post. cbn. repeat split. exact Hi.
Qed.

Lemma direct_setup_static (r : run_args) (w : world) (p : prepared) :
  emits (static_event r) (direct_setup r w p) (fun _ => True).
Proof. unfold direct_setup. repeat emits_step; cbn; auto. Qed.

Lemma fuse_static (r : run_args) (w : world) (p : prepared) :
  emits (static_event r) (fuse r w p) (fun _ => True).
Proof. unfold fuse. repeat emits_step; cbn; auto. Qed.

Lemma convert_gguf_static (r : run_args) (w : world) (p : prepared) :
  emits (static_event r) (convert_gguf r w p) (fun _ => True).
Proof. unfold convert_gguf. repeat emits_step; cbn; auto. Qed.

Lemma import_ollama_static (r : run_args) (w : world) (p : prepared) (g : option string) :
  emits (static_event r) (import_ollama r w p g) (fun _ => True).
Proof. unfold import_ollama. repeat emits_step; cbn; auto. Qed.

(** The read loop emits what its recording turns emit. *)
Lemma emits_read_loop (phi : event -> Prop) (r : run_args) (p : prepared)
    (lines : list string) :
  (forall line rec h0,
      In line lines -> line_record r p line = Some rec ->
      Forall phi (record_events r p (h0 ++ [record_entry rec]) rec)) ->
  emits phi (read_loop r p lines) (fun _ => True).
Proof.
  induction lines as [| line rest IH]; intros H.
  - apply emits_ret. exact I.
  - cbn [read_loop]. eapply emits_bind with (R := fun _ => True).
    + intros s. destruct (handle_line_summary r p line s) as [_ [-> _]].
      split; [| auto].
      destruct (line_record r p line) as [rec |] eqn:Hrec; [| constructor].
      apply (H line rec (loss_history s)); [left; reflexivity | exact Hrec].
    + intros _ _. apply IH. intros l rec h0 Hin. apply H. right. exact Hin.
Qed.

Lemma emits_train (phi : event -> Prop) (r : run_args) (w : world) (p : prepared) :
  (forall e, static_event r e -> phi e) ->
  (0 < total_iters p - resume_from_iter p ->
   phi (Launch Trainer (trainer_cmd w p (total_iters p - resume_from_iter p)))
   /\ forall line rec h0,
       In line (w_trainer_output w) -> line_record r p line = Some rec ->
       Forall phi (record_events r p (h0 ++ [record_entry rec]) rec)) ->
  emits phi (train r w p) (fun _ => True).
Proof.
  intros Hst Hloop. unfold train.
  emits_step; [apply Hst; cbn; auto |].
  destruct (Z.leb_spec (total_iters p - resume_from_iter p) 0) as [Hle | Hgt];
    [apply emits_ret; exact I |].
  destruct (Hloop Hgt) as [Hl Hrec].
  emits_step; [exact Hl |]. emits_step.
  eapply emits_bind; [apply emits_read_loop; exact Hrec | intros _ _].
  repeat emits_step. exact I.
Qed.

(** The whole body of the [try], given the events of the training phase. *)
Lemma emits_pipeline_body (phi : event -> Prop) (r : run_args) (w : world) :
  (forall e, static_event r e -> phi e) ->
  (forall p, prepare_post r w p -> emits phi (train r w p) (fun _ => True)) ->
  emits phi (pipeline_body r w) (prepare_post r w).
Proof.
  intros Hst Htrain. unfold pipeline_body, upto_fuse.
  eapply emits_bind with (R := prepare_post r w).
  - eapply emits_bind; [apply (emits_impl _ _ _ _ Hst), prepare_static | intros p Hp].
    eapply emits_bind;
      [apply (emits_impl _ _ _ _ Hst), direct_setup_static | intros _ _].
    eapply emits_bind; [apply Htrain; exact Hp | intros _ _].
    eapply emits_bind; [apply (emits_impl _ _ _ _ Hst), fuse_static | intros _ _].
    apply emits_ret. exact Hp.
  - intros p Hp.
    eapply emits_bind; [apply (emits_impl _ _ _ _ Hst), convert_gguf_static | intros g _].
    eapply emits_bind; [apply (emits_impl _ _ _ _ Hst), import_ollama_static | intros _ _].
    apply emits_ret. exact Hp.
Qed.

(** ** The shape of a run *)

Lemma pipeline_shape (r : run_args) (w : world) (s : store) :
  pipeline r w s =
  match result (pipeline_body r w) s with
  | inr p =>
      (run (pipeline_body r w) s
         ++ [WriteProgress
               (completed_snapshot r p (loss_history (final (pipeline_body r w) s)))],
       final (pipeline_body r w) s, inr 0)
  | inl e =>
      (run (pipeline_body r w) s ++ [WriteProgress (failed_snapshot r e)],
       final (pipeline_body r w) s, inr 1)
  end.
Proof.
  unfold pipeline, try_except, bind, run, final, result.
  destruct (pipeline_body r w s) as [[t s'] [e | p]]; reflexivity.
Qed.

(** Either [main] stops before the [try], having written nothing, or it
    runs the pipeline on validated arguments. *)
Lemma main_shape (a : cli_args) (w : world) :
  (fst (main a w) = [] /\ snd (main a w) <> Exit 0)
  \/ exists m r,
       load_config a w = inr m /\ validate m = Some r
       /\ main a w =
          match result (pipeline_body r w) initial_store with
          | inr p =>
              (run (pipeline_body r w) initial_store
                 ++ [WriteProgress
                       (completed_snapshot r p
                          (loss_history (final (pipeline_body r w) initial_store)))],
               Exit 0)
          | inl e =>
              (run (pipeline_body r w) initial_store ++ [WriteProgress (failed_snapshot r e)],
               Exit 1)
          end.
Proof.
  unfold main.
  destruct (load_config a w) as [e | m]; [left; split; [reflexivity | discriminate] |].
  destruct (validate m) as [r |] eqn:Hv; [| left; split; [reflexivity | discriminate]].
  right. exists m, r. split; [reflexivity |]. split; [exact Hv |].
  rewrite pipeline_shape. destruct (result (pipeline_body r w) initial_store); reflexivity.
Qed.

Lemma last_n_snoc {A} (n : nat) (l : list A) (x : A) :
  exists init, last_n (S n) (l ++ [x]) = init ++ [x].
Proof.
  unfold last_n. rewrite length_app. cbn [List.length].
  replace (List.length l + 1 - S n)%nat with (List.length l - n)%nat by lia.
  rewrite skipn_app.
  replace (List.length l - n - List.length l)%nat with 0%nat by lia.
  exists (skipn (List.length l - n) l). reflexivity.
Qed.

(** ** Epochs *)

(** The epoch of a recording turn, for a non-negative iteration of a
    training phase that runs. *)
Lemma recorded_epoch_bounds (r : run_args) (w : world) (p : prepared) (cur : Z) :
  prepare_post r w p ->
  0 <= resume_from_iter p ->
  0 < total_iters p - resume_from_iter p ->
  0 <= cur ->
  1 <= Z.min (epochs r) (cur / iters_per_epoch p + 1) <= epochs r.
Proof.
  intros (_ & _ & Hipe & Htot & _) Hres Hrun Hcur.
  assert (Hi : 1 <= iters_per_epoch p) by lia.
  assert (He : 1 <= epochs r) by nia.
  pose proof (Z.div_pos cur (iters_per_epoch p) Hcur ltac:(lia)). lia.
Qed.

(** The run that refutes the bounds of C5 as worded: a negative number of
    epochs, resumed from a checkpoint whose [last_iter] is negative.  With
    four examples there is one iteration per epoch and [-1] iterations in
    all; resuming at [-5] leaves four to run, the trainer's "Iter 10" is
    step [5], and the snapshot written for it has epoch
    [min(-1, 5 // 1 + 1) = -1], below 1. *)
Lemma epoch_below_one :
  let w := with_checkpoint (sample_world 4 [trainer_line 10 "0.500"])
             (Some (inr (sample_checkpoint (-5) []))) in
  exists sn,
    In (WriteProgress sn) (fst (main (sample_cli (-1) true) w))
    /\ sn_step sn = Some 5
    /\ 0 <= 5
    /\ sn_dataset_size sn = Some 4
    /\ sn_total_epochs sn = -1
    /\ sn_epoch sn = Z.min (sn_total_epochs sn) (5 / Z.max 1 (4 / 4) + 1)
    /\ sn_epoch sn = -1
    /\ ~ (1 <= sn_epoch sn <= sn_total_epochs sn).
Proof.
  cbv zeta. eexists. split.
  - apply (nth_error_In _ 10). vm_compute. reflexivity.
  - repeat split; try reflexivity; try (vm_compute; discriminate).
    intros [H _]. vm_compute in H. apply H. reflexivity.
Qed.

(** C5, as the code has it.  Every snapshot of a run that carries a [step]
    [i >= 0] (the snapshots of successfully parsed progress lines) has
    [epoch = min(total_epochs, i // iters_per_epoch + 1)] with
    [iters_per_epoch = max(1, dataset_size // 4)] and
    [total_steps = iters_per_epoch * total_epochs], and it is the epoch of
    the loss entry appended for the line.  That epoch never exceeds
    [total_epochs]; it is at least 1 exactly when [total_epochs] is, and
    [total_epochs] is at least 1 whenever the checkpoint being resumed, if
    any, holds a non-negative [last_iter]. *)
Theorem recorded_epoch_formula (a : cli_args) (w : world) (sn : snapshot) (i : Z) :
  In (WriteProgress sn) (fst (main a w)) ->
  sn_step sn = Some i ->
  0 <= i ->
  exists ds loss init,
    sn_dataset_size sn = Some ds
    /\ sn_total_steps sn = Some (Z.max 1 (ds / 4) * sn_total_epochs sn)
    /\ sn_epoch sn = Z.min (sn_total_epochs sn) (i / Z.max 1 (ds / 4) + 1)
    /\ sn_epoch sn <= sn_total_epochs sn
    /\ (1 <= sn_epoch sn <-> 1 <= sn_total_epochs sn)
    /\ ((forall c, w_checkpoint w = Some (inr c) -> 0 <= dict_get (cj_last_iter c) 0) ->
        1 <= sn_epoch sn <= sn_total_epochs sn)
    /\ sn_loss_history sn = Some (init ++ [LossEntry i loss (sn_epoch sn)]).
Proof.
  intros Hin Hstep Hi.
  set (phi := fun e : event =>
    forall sn0 i0, e = WriteProgress sn0 -> sn_step sn0 = Some i0 -> 0 <= i0 ->
    exists ds loss init,
      sn_dataset_size sn0 = Some ds
      /\ sn_total_steps sn0 = Some (Z.max 1 (ds / 4) * sn_total_epochs sn0)
      /\ sn_epoch sn0 = Z.min (sn_total_epochs sn0) (i0 / Z.max 1 (ds / 4) + 1)
      /\ sn_epoch sn0 <= sn_total_epochs sn0
      /\ (1 <= sn_epoch sn0 <-> 1 <= sn_total_epochs sn0)
      /\ ((forall c, w_checkpoint w = Some (inr c) -> 0 <= dict_get (cj_last_iter c) 0) ->
          1 <= sn_epoch sn0 <= sn_total_epochs sn0)
      /\ sn_loss_history sn0 = Some (init ++ [LossEntry i0 loss (sn_epoch sn0)])).
  assert (Hstatic : forall r e, static_event r e -> phi e).
  { intros r e He sn0 i0 -> Hs _. destruct He as [Hnone _]. congruence. }
  destruct (main_shape a w) as [[Hnil _] | (m & r & _ & _ & Hmain)];
    [rewrite Hnil in Hin; destruct Hin |].
  assert (Hbody : emits phi (pipeline_body r w) (prepare_post r w)).
  { apply emits_pipeline_body; [apply Hstatic |].
    intros p Hp. apply emits_train; [apply Hstatic |].
    intros Hrun.
    split; [intros sn0 i0 H; discriminate H |].
    intros line [[[cur x] ep] k] h0 _ Hrec.
    destruct (line_record_reported r p line cur x ep k Hrec) as (rel & _ & Hcur & _ & Hep).
    cbn [record_events record_entry].
    assert (Hsn : phi (WriteProgress
                         (training_snapshot r p cur ep x (30 + k)
                            (h0 ++ [LossEntry cur x ep])))).
    { intros sn0 i0 Hsn0 Hs0 Hi0. injection Hsn0 as <-.
      cbn in Hs0. injection Hs0 as <-.
      assert (Hck : (forall c, w_checkpoint w = Some (inr c) ->
                               0 <= dict_get (cj_last_iter c) 0) ->
                    1 <= ep <= epochs r).
      { intros Hck. rewrite Hep.
        apply (recorded_epoch_bounds r w p cur Hp); [| exact Hrun | exact Hi0].
        destruct Hp as (_ & _ & _ & _ & ->). apply resume_offset_nonneg, Hck. }
      destruct Hp as (_ & _ & Hipe & Htot & _).
      assert (Hdiv : 0 <= cur / iters_per_epoch p)
        by (apply Z.div_pos; lia).
      destruct (last_n_snoc 49 h0 (LossEntry cur x ep)) as [init Hinit].
      exists (dataset_size p), x, init. cbn.
      rewrite <- Hipe, <- Htot, <- Hep.
      split; [reflexivity |]. split; [reflexivity |]. split; [reflexivity |].
      split; [lia |]. split; [lia |]. split; [exact Hck |].
      rewrite Hinit. reflexivity. }
    destruct (cur mod 100 =? 0); repeat constructor; try exact Hsn;
      intros sn0 i0 H; discriminate H. }
  destruct (Hbody initial_store) as [Hall _].
  rewrite Forall_forall in Hall.
  rewrite Hmain in Hin.
  destruct (result (pipeline_body r w) initial_store) as [e | p]; cbn [fst] in Hin;
    apply in_app_or in Hin; destruct Hin as [Hin | [Hin | []]].
  - apply (Hall _ Hin sn i eq_refl Hstep Hi).
  - injection Hin as <-. discriminate Hstep.
  - apply (Hall _ Hin sn i eq_refl Hstep Hi).
  - injection Hin as <-. discriminate Hstep.
Qed.

Lemma recorded_epoch_formula_witness :
  exists sn,
    nth_error (fst (main (sample_cli 3 false) (sample_world 8 (trainer_lines 3)))) 11
    = Some (WriteProgress sn)
    /\ sn_step sn = Some 3 /\ sn_epoch sn = 2 /\ 1 <= sn_epoch sn <= sn_total_epochs sn.
Proof.
  eexists. split; [vm_compute; reflexivity |].
  split; [reflexivity |]. split; [reflexivity |].
  match goal with
  | |- 1 <= sn_epoch ?sn <= _ =>
      destruct (recorded_epoch_formula (sample_cli 3 false)
                  (sample_world 8 (trainer_lines 3)) sn 3)
        as (ds & loss & init & _ & _ & _ & Hle & Hone & _)
  end.
  - apply (nth_error_In _ 11). vm_compute. reflexivity.
  - reflexivity.
  - lia.
  - split; [| exact Hle]. apply Hone. vm_compute. discriminate.
Defined.

(** ** Progress *)

Lemma Forall_record_events (phi : event -> Prop) (r : run_args) (p : prepared)
    (h : list loss_entry) (cur : Z) (x : pyfloat) (ep k : Z) :
  phi (WriteProgress (training_snapshot r p cur ep x (30 + k) h)) ->
  phi (SaveCheckpoint
         (Checkpoint cur x ep (last_n 100 h) (total_iters p) (dataset_size p))) ->
  Forall phi (record_events r p h (cur, x, ep, k)).
Proof.
  intros Hs Hc. cbn [record_events].
  destruct (cur mod 100 =? 0).
  - apply Forall_cons; [exact Hs |]. apply Forall_cons; [exact Hc | apply Forall_nil].
  - apply Forall_cons; [exact Hs | apply Forall_nil].
Qed.

Lemma Ord_pipeline_body (r : run_args) (w : world) :
  (forall c, w_checkpoint w = Some (inr c) -> 0 <= dict_get (cj_last_iter c) 0) ->
  StronglySorted Z.le (reported_iterations (w_trainer_output w)) ->
  Forall (fun i => 0 <= i) (reported_iterations (w_trainer_output w)) ->
  Ord 0 99 (pipeline_body r w).
Proof.
  intros Hck Hs Hn. unfold pipeline_body.
  apply (Ord_bind 0 96 99); [| intros p | lia].
  - unfold upto_fuse.
    apply (Ord_bind_with (prepare_post r w) 0 15 96); [apply Ord_prepare | | | lia].
    + apply (emits_impl (static_event r)); [auto | apply prepare_static].
    + intros p Hp.
      assert (Hres : 0 <= resume_from_iter p).
      { destruct Hp as (_ & _ & _ & _ & ->). apply resume_offset_nonneg, Hck. }
      apply (Ord_bind 15 25 96); [apply Ord_direct_setup | intros _ | lia].
      apply (Ord_bind 25 95 96); [apply Ord_train; assumption | intros _ | lia].
      apply (Ord_bind 95 96 96); [apply Ord_fuse | intros _ | lia].
      repeat Ord_step.
  - apply (Ord_bind 96 97 99); [apply Ord_convert_gguf | intros g | lia].
    apply (Ord_bind 97 99 99); [apply Ord_import_ollama | intros _ | lia].
    repeat Ord_step.
Qed.

(** Before the final snapshot, progress stays below 100; in the training
    stage it stays within [30, 95] when the trainer counts from zero up. *)
Lemma pipeline_body_bounded (r : run_args) (w : world) :
  emits (fun e => forall sn, e = WriteProgress sn ->
                   sn_progress sn <= 99 /\ (sn_stage sn = Training -> sn_progress sn <= 95))
    (pipeline_body r w) (prepare_post r w).
Proof.
  apply emits_pipeline_body.
  - intros e He sn ->. destruct He as (_ & _ & Hp).
    destruct (sn_stage sn); cbn in Hp; try contradiction;
      (split; [lia | intros Hst; try discriminate Hst; lia]).
  - intros p Hp. apply emits_train.
    + intros e He sn ->. destruct He as (_ & _ & Hs).
      destruct (sn_stage sn); cbn in Hs; try contradiction;
        (split; [lia | intros Hst; try discriminate Hst; lia]).
    + intros _. split; [intros sn H; discriminate H |].
      intros line [[[cur x] ep] k] h0 _ _.
      apply Forall_record_events; [| intros sn H; discriminate H].
      intros sn H. apply WriteProgress_inj in H. subst sn.
      cbn [sn_progress sn_stage training_snapshot]. lia.
Qed.

Lemma pipeline_body_training_floor (r : run_args) (w : world) :
  (forall c, w_checkpoint w = Some (inr c) -> 0 <= dict_get (cj_last_iter c) 0) ->
  Forall (fun i => 0 <= i) (reported_iterations (w_trainer_output w)) ->
  emits (fun e => forall sn, e = WriteProgress sn ->
                   sn_stage sn = Training -> 30 <= sn_progress sn)
    (pipeline_body r w) (prepare_post r w).
Proof.
  intros Hck Hn. apply emits_pipeline_body.
  - intros e He sn -> Hst. destruct He as (_ & _ & Hp). rewrite Hst in Hp. cbn in Hp. lia.
  - intros p Hp. apply emits_train.
    + intros e He sn -> Hst. destruct He as (_ & _ & Hs). rewrite Hst in Hs. cbn in Hs. lia.
    + intros Hrun.
      assert (Hres : 0 <= resume_from_iter p).
      { destruct Hp as (_ & _ & _ & _ & ->). apply resume_offset_nonneg, Hck. }
      split; [intros sn H; discriminate H |].
      intros line [[[cur x] ep] k] h0 Hin Hrec.
      destruct (line_record_reported r p line cur x ep k Hrec) as (rel & Hrep & -> & Hk & _).
      assert (Hrel : 0 <= rel).
      { rewrite Forall_forall in Hn. apply Hn.
        unfold reported_iterations. apply in_flat_map. exists line.
        split; [exact Hin | rewrite Hrep; left; reflexivity]. }
      pose proof (fraction65_nonneg (resume_from_iter p + rel) (total_iters p) k
                    ltac:(lia) ltac:(lia) Hk) as Hk0.
      apply Forall_record_events; [| intros sn H; discriminate H].
      intros sn H _. apply WriteProgress_inj in H. subst sn.
      cbn [sn_progress training_snapshot]. lia.
Qed.

(** C2, as the code has it.  Leaving aside the [Resuming] snapshot (written
    at 5 after 10) and the [Failed] snapshot (written at 0), and given a
    trainer that reports non-negative, non-decreasing iteration numbers and
    a checkpoint with a non-negative [last_iter], the progress values of a
    run never decrease; the snapshots of the training stage have progress
    in [30, 95]; and a snapshot with progress 100 is the last event of the
    run, has stage [Completed], and the run exits with status 0. *)
Theorem progress_monotone_but_for_resuming_and_failed (a : cli_args) (w : world) :
  (forall c, w_checkpoint w = Some (inr c) -> 0 <= dict_get (cj_last_iter c) 0) ->
  StronglySorted Z.le (reported_iterations (w_trainer_output w)) ->
  Forall (fun i => 0 <= i) (reported_iterations (w_trainer_output w)) ->
  let t := fst (main a w) in
  StronglySorted Z.le (progress_values t)
  /\ (forall sn, In (WriteProgress sn) t -> sn_stage sn = Training ->
                 30 <= sn_progress sn <= 95)
  /\ (forall n sn, nth_error t n = Some (WriteProgress sn) -> sn_progress sn = 100 ->
                   S n = List.length t /\ sn_stage sn = Completed
                   /\ snd (main a w) = Exit 0).
Proof.
  intros Hck Hs Hn t.
  destruct (main_shape a w) as [[Hnil _] | (m & r & _ & _ & Hmain)].
  { unfold t. rewrite Hnil. split; [constructor |].
    split; [intros sn [] |]. intros n sn H. destruct n; discriminate H. }
  pose proof (Ord_pipeline_body r w Hck Hs Hn initial_store) as Hord.
  destruct (pipeline_body_bounded r w initial_store) as [Hb _].
  destruct (pipeline_body_training_floor r w Hck Hn initial_store) as [Hf _].
  rewrite Forall_forall in Hb, Hf.
  set (body := run (pipeline_body r w) initial_store) in *.
  assert (Ht : exists final_sn,
             t = body ++ [WriteProgress final_sn]
             /\ (sn_stage final_sn = Completed /\ sn_progress final_sn = 100
                 /\ snd (main a w) = Exit 0
                 \/ sn_stage final_sn = Failed /\ sn_progress final_sn = 0)).
  { unfold t. rewrite Hmain.
    destruct (result (pipeline_body r w) initial_store) as [e | p];
      eexists; (split; [reflexivity |]); [right | left]; repeat split. }
  destruct Ht as (fin & Ht & Hfin). rewrite Ht.
  split; [| split].
  - rewrite progress_values_app.
    apply (ordered_app 0 99 100 _ _ ltac:(lia) Hord).
    unfold progress_values, counted. cbn [snapshots flat_map app filter].
    destruct Hfin as [(Hc & Hv & _) | (Hc & _)]; rewrite Hc; cbn [map];
      [rewrite Hv; apply ordered_one; lia | apply ordered_nil].
  - intros sn H Hst. apply in_app_or in H. destruct H as [H | [H | []]].
    + split; [apply (Hf _ H sn eq_refl Hst) | apply (Hb _ H sn eq_refl); exact Hst].
    + apply WriteProgress_inj in H. subst fin.
      destruct Hfin as [(Hc & _) | (Hc & _)]; congruence.
  - intros n sn H H100.
    destruct (Nat.lt_ge_cases n (List.length body)) as [Hlt | Hge].
    + rewrite nth_error_app1 in H by exact Hlt. apply nth_error_In in H.
      destruct (Hb _ H sn eq_refl) as [H99 _]. lia.
    + rewrite nth_error_app2 in H by exact Hge. rewrite length_app. cbn [List.length].
      destruct (n - List.length body)%nat as [| k] eqn:Hk; [| destruct k; discriminate H].
      apply Some_inj in H. apply WriteProgress_inj in H. subst fin.
      destruct Hfin as [(Hc & _ & Hx) | (_ & Hp)]; [| lia].
      repeat split; [lia | exact Hc | exact Hx].
Qed.

Lemma progress_monotone_but_for_resuming_and_failed_witness :
  let t := fst (main (sample_cli 3 false) (sample_world 8 (trainer_lines 3))) in
  progress_values t = [0; 5; 10; 15; 20; 25; 30; 40; 51; 62; 96; 97; 99; 100]
  /\ StronglySorted Z.le (progress_values t).
Proof.
  intros t. split; [vm_compute; reflexivity |].
  destruct (progress_monotone_but_for_resuming_and_failed (sample_cli 3 false)
              (sample_world 8 (trainer_lines 3))) as [H _].
  - intros c H. discriminate H.
  - replace (reported_iterations (w_trainer_output (sample_world 8 (trainer_lines 3))))
      with [1; 2; 3] by (vm_compute; reflexivity).
    repeat (constructor; try lia).
  - replace (reported_iterations (w_trainer_output (sample_world 8 (trainer_lines 3))))
      with [1; 2; 3] by (vm_compute; reflexivity).
    repeat (constructor; try lia).
  - exact H.
Defined.

(** C2 as stated fails on the code: a resumed run writes 5 after 10; a
    failed run ends on 0; and the values written in the training stage
    follow whatever iteration numbers the trainer prints, below zero or
    backwards included. *)
Lemma progress_not_monotone :
  let resumed :=
    fst (main (sample_cli 40 true)
           (with_checkpoint (sample_world 4 []) (Some (inr (sample_checkpoint 50 []))))) in
  let failed :=
    fst (main (sample_cli 3 false)
           (with_trainer_returncode (sample_world 8 (trainer_lines 3)) 1)) in
  let negative :=
    fst (main (sample_cli 1 false) (sample_world 4 [trainer_line (-9) "0.500"])) in
  let backwards :=
    fst (main (sample_cli 3 false)
           (sample_world 8 [trainer_line 4 "0.500"; trainer_line 2 "0.400"])) in
  map sn_progress (snapshots resumed) = [0; 5; 10; 5; 15; 20; 25; 30; 96; 97; 99; 100]
  /\ map sn_progress (snapshots failed) = [0; 5; 10; 15; 20; 25; 30; 40; 51; 62; 0]
  /\ map (fun sn => (sn_stage sn, sn_progress sn)) (snapshots negative)
     = [(Initializing, 0); (LoadingModel, 5); (PreparingData, 10); (StartingTraining, 15);
        (LoadingModel, 20); (ApplyingLora, 25); (Training, 30); (Training, -555);
        (FusingModel, 96); (ConvertingGguf, 97); (ImportingOllama, 99); (Completed, 100)]
  /\ map sn_progress (snapshots backwards)
     = [0; 5; 10; 15; 20; 25; 30; 73; 51; 96; 97; 99; 100]
  /\ ~ StronglySorted Z.le (map sn_progress (snapshots resumed))
  /\ ~ StronglySorted Z.le (map sn_progress (snapshots failed)).
Proof.
  intros resumed failed negative backwards.
  assert (H1 : map sn_progress (snapshots resumed)
               = [0; 5; 10; 5; 15; 20; 25; 30; 96; 97; 99; 100]) by (vm_compute; reflexivity).
  assert (H2 : map sn_progress (snapshots failed)
               = [0; 5; 10; 15; 20; 25; 30; 40; 51; 62; 0]) by (vm_compute; reflexivity).
  split; [exact H1 |]. split; [exact H2 |].
  split; [vm_compute; reflexivity |]. split; [vm_compute; reflexivity |].
  rewrite H1, H2. split; intros H.
  - do 2 (apply StronglySorted_inv in H; destruct H as [H _]).
    apply StronglySorted_inv in H. destruct H as [_ H].
    apply Forall_inv in H. lia.
  - apply StronglySorted_inv in H. destruct H as [H _].
    apply StronglySorted_inv in H. destruct H as [_ H].
    rewrite Forall_forall in H. specialize (H 0). cbn in H. lia.
Qed.

(** ** The phases, one by one *)

(** The in-process attempt never raises, and it leaves an empty history
    whatever the history before. *)
Lemma direct_setup_outcome (r : run_args) (w : world) (p : prepared) (s : store) :
  result (direct_setup r w p) s = inr tt
  /\ final (direct_setup r w p) s = Store [] (current_iter s) 0.
Proof.
  unfold direct_setup, run, result, final, bind, try_except, set_loss_history,
    set_current_epoch, get, put, write_progress, emit, may_raise, throw, ret.
  cbn.
  destruct (w_import_tuner w); [cbn; auto |].
  destruct (w_load_model w); [cbn; auto |].
  destruct (w_training_args w); cbn; auto.
Qed.

(** Nothing of the in-process attempt depends on the history before. *)
Lemma direct_setup_forgets (r : run_args) (w : world) (p : prepared) (s s' : store) :
  current_iter s = current_iter s' ->
  direct_setup r w p s = direct_setup r w p s'.
Proof.
  intros H.
  unfold direct_setup, run, result, final, bind, try_except, set_loss_history,
    set_current_epoch, get, put, write_progress, emit, may_raise, throw, ret.
  cbn. rewrite H. reflexivity.
Qed.

Lemma train_skipped (r : run_args) (w : world) (p : prepared) (s : store) :
  total_iters p - resume_from_iter p <= 0 ->
  train r w p s = ([WriteProgress (training_started r p)], s, inr tt).
Proof.
  intros H. unfold train, bind, write_progress, emit, ret.
  destruct (Z.leb_spec (total_iters p - resume_from_iter p) 0); [reflexivity | lia].
Qed.

Lemma fuse_outcome (r : run_args) (w : world) (p : prepared) (s : store) :
  fuse r w p s =
  ([WriteProgress (fusing_snapshot r p (loss_history s)); Launch Fuse (fuse_cmd w p)], s,
   match w_fuse w with
   | Some e => inl e
   | None => inr tt
   end).
Proof.
  unfold fuse, bind, get, write_progress, emit, may_raise, throw, ret.
  destruct (w_fuse w); reflexivity.
Qed.

(** The conversion step never raises and leaves the locals alone; when it
    fails it returns no GGUF path. *)
Lemma convert_gguf_outcome (r : run_args) (w : world) (p : prepared) (s : store) :
  exists attempt g,
    convert_gguf r w p s
    = (WriteProgress (converting_snapshot r p (loss_history s)) :: attempt, s, inr g)
    /\ snapshots attempt = []
    /\ Forall (fun e => launched Trainer e = false) attempt
    /\ (conversion_fails w = true -> g = None).
Proof.
  unfold convert_gguf, conversion_fails, bind, try_except, get, write_progress, emit,
    may_raise, lift, throw, ret.
  destruct (w_hf_export w) as [e |]; [exists [], None; cbn; auto |].
  destruct (w_convert_script_exists w); [| exists [], None; cbn; auto].
  destruct (w_convert w) as [e | rc]; [eexists _, None; cbn; repeat split; auto |].
  destruct (rc =? 0) eqn:Hrc; eexists _, _; cbn;
    (split; [reflexivity |]); repeat split; auto; try discriminate.
Qed.

Lemma import_ollama_outcome (r : run_args) (w : world) (p : prepared)
    (g : option string) (s : store) :
  import_ollama r w p g s =
  ([ WriteProgress (importing_snapshot r p (loss_history s));
     WriteModelfile
       (modelfile_content
          match g with
          | Some path => if str_truthy path && w_gguf_exists w then path
                         else path_join (output_path p) "fused"
          | None => path_join (output_path p) "fused"
          end);
     Launch Ollama (ollama_cmd r p) ], s,
   match w_ollama w with
   | inl e => inl e
   | inr rc => inr rc
   end).
Proof.
  unfold import_ollama, bind, get, write_progress, emit, lift, throw, ret.
  destruct (w_ollama w); reflexivity.
Qed.

(** The trace of the body of the [try], phase after phase. *)
Lemma pipeline_body_trace (r : run_args) (w : world) (s0 : store) :
  run (pipeline_body r w) s0 =
  run (prepare r w) s0
  ++ match result (prepare r w) s0 with
     | inl _ => []
     | inr p =>
         let s1 := final (prepare r w) s0 in
         let s2 := final (direct_setup r w p) s1 in
         let s3 := final (train r w p) s2 in
         run (direct_setup r w p) s1
         ++ run (train r w p) s2
         ++ match result (train r w p) s2 with
            | inl _ => []
            | inr _ =>
                run (fuse r w p) s3
                ++ match result (fuse r w p) s3 with
                   | inl _ => []
                   | inr _ =>
                       run (convert_gguf r w p) s3
                       ++ match result (convert_gguf r w p) s3 with
                          | inl _ => []
                          | inr g => run (import_ollama r w p g) s3
                          end
                   end
            end
     end.
Proof.
  unfold pipeline_body, upto_fuse, bind, run, result, final.
  destruct (prepare r w s0) as [[t1 s1] [e | p]]; cbn [fst snd];
    [rewrite app_nil_r; reflexivity |].
  destruct (direct_setup_outcome r w p s1) as [Hd _]. unfold result in Hd.
  destruct (direct_setup r w p s1) as [[t2 s2] [e | []]]; cbn [fst snd] in *;
    [discriminate Hd |].
  destruct (train r w p s2) as [[t3 s3] [e | []]]; cbn [fst snd];
    [rewrite ?app_nil_r, <- ?app_assoc; reflexivity |].
  rewrite (fuse_outcome r w p s3).
  destruct (w_fuse w) as [e |]; cbn [fst snd ret];
    [rewrite ?app_nil_r, <- ?app_assoc; reflexivity |].
  destruct (convert_gguf_outcome r w p s3) as (attempt & g & Hc & _).
  rewrite Hc. cbn [fst snd].
  rewrite (import_ollama_outcome r w p g s3).
  destruct (w_ollama w); cbn [fst snd ret]; rewrite ?app_nil_r, <- ?app_assoc; reflexivity.
Qed.

(** How the body of the [try] ends, and the locals it leaves. *)
Lemma pipeline_body_ends (r : run_args) (w : world) (s0 : store) :
  match result (prepare r w) s0 with
  | inl e => result (pipeline_body r w) s0 = inl e
  | inr p =>
      let s2 := final (direct_setup r w p) (final (prepare r w) s0) in
      final (pipeline_body r w) s0 = final (train r w p) s2
      /\ result (pipeline_body r w) s0 =
         match result (train r w p) s2 with
         | inl e => inl e
         | inr _ =>
             match w_fuse w with
             | Some e => inl e
             | None =>
                 match w_ollama w with
                 | inl e => inl e
                 | inr _ => inr p
                 end
             end
         end
  end.
Proof.
  unfold pipeline_body, upto_fuse, bind, run, result, final.
  destruct (prepare r w s0) as [[t1 s1] [e | p]]; cbn [fst snd]; [reflexivity |].
  destruct (direct_setup_outcome r w p s1) as [Hd _]. unfold result in Hd.
  destruct (direct_setup r w p s1) as [[t2 s2] [e | []]]; cbn [fst snd] in *;
    [discriminate Hd |].
  destruct (train r w p s2) as [[t3 s3] [e | []]]; cbn [fst snd]; [split; reflexivity |].
  rewrite (fuse_outcome r w p s3).
  destruct (w_fuse w) as [e |]; cbn [fst snd ret]; [split; reflexivity |].
  destruct (convert_gguf_outcome r w p s3) as (attempt & g & Hc & _).
  rewrite Hc. cbn [fst snd].
  rewrite (import_ollama_outcome r w p g s3).
  destruct (w_ollama w); cbn [fst snd ret]; split; reflexivity.
Qed.

Lemma static_not_trainer (r : run_args) (e : event) :
  static_event r e -> launched Trainer e = false.
Proof. destruct e as [sn | c | tr va | m | [] cmd]; cbn; auto; contradiction. Qed.

(** ** Resuming a run that is already trained *)

(** C4.  On a resumed run whose checkpoint holds a [last_iter] with
    [total_iters - last_iter <= 0], no trainer process is launched at all:
    after the snapshot that opens the training stage the next events are
    the fusing snapshot and the launch of the fuse command, and when the
    fusion succeeds the conversion and the import follow. *)
Theorem training_skipped_when_already_done
    (a m : cli_args) (w : world) (r : run_args) (c : checkpoint_json) (p : prepared) :
  load_config a w = inr m ->
  validate m = Some r ->
  resume r = true ->
  w_checkpoint w = Some (inr c) ->
  checkpoint_truthy c = true ->
  result (prepare r w) initial_store = inr p ->
  total_iters p - dict_get (cj_last_iter c) 0 <= 0 ->
  let t := fst (main a w) in
  resume_from_iter p = dict_get (cj_last_iter c) 0
  /\ Forall (fun e => launched Trainer e = false) t
  /\ exists before after,
       t = before
           ++ [ WriteProgress (training_started r p);
                WriteProgress (fusing_snapshot r p []);
                Launch Fuse (fuse_cmd w p) ]
           ++ after
       /\ (w_fuse w = None ->
           exists attempt rest,
             after = WriteProgress (converting_snapshot r p []) :: attempt
                     ++ [ WriteProgress (importing_snapshot r p []) ]
                     ++ rest
             /\ In (Launch Ollama (ollama_cmd r p)) rest).
Proof.
  intros Hload Hval Hres Hck Htr Hprep Hdone t.
  assert (Hoff : resume_from_iter p = dict_get (cj_last_iter c) 0).
  { destruct (prepare_static r w initial_store) as [_ Hpost].
    destruct (Hpost p Hprep) as (_ & _ & _ & _ & ->).
    unfold resume_offset. rewrite Hres, Hck, Htr. reflexivity. }
  split; [exact Hoff |].
  destruct (main_shape a w) as [[Hnil Hx] | (m' & r' & Hload' & Hval' & Hmain)].
  { exfalso. unfold main in Hnil, Hx. rewrite Hload, Hval in Hnil.
    destruct (pipeline_shape r w initial_store) as [].
    rewrite pipeline_shape in Hnil.
    destruct (result (pipeline_body r w) initial_store); cbn in Hnil;
      destruct (run (pipeline_body r w) initial_store); discriminate Hnil. }
  rewrite Hload in Hload'. injection Hload' as <-.
  rewrite Hval in Hval'. injection Hval' as <-.
  (* the events up to the fusion, and the store they leave *)
  set (s1 := final (prepare r w) initial_store).
  set (s2 := final (direct_setup r w p) s1).
  destruct (direct_setup_outcome r w p s1) as [_ Hs2]. fold s2 in Hs2.
  assert (Hh2 : loss_history s2 = []) by (rewrite Hs2; reflexivity).
  assert (Htrain : train r w p s2 = ([WriteProgress (training_started r p)], s2, inr tt))
    by (apply train_skipped; lia).
  assert (Ht1 : run (train r w p) s2 = [WriteProgress (training_started r p)])
    by (unfold run; rewrite Htrain; reflexivity).
  assert (Ht2 : result (train r w p) s2 = inr tt)
    by (unfold result; rewrite Htrain; reflexivity).
  assert (Ht3 : final (train r w p) s2 = s2)
    by (unfold final; rewrite Htrain; reflexivity).
  assert (Hf1 : run (fuse r w p) s2
                = [WriteProgress (fusing_snapshot r p []); Launch Fuse (fuse_cmd w p)])
    by (unfold run; rewrite fuse_outcome, Hh2; reflexivity).
  assert (Hf2 : result (fuse r w p) s2
                = match w_fuse w with Some e => inl e | None => inr tt end)
    by (unfold result; rewrite fuse_outcome; reflexivity).
  destruct (convert_gguf_outcome r w p s2) as (attempt & g & Hconv & _ & Hattempt & _).
  rewrite Hh2 in Hconv.
  assert (Hc1 : run (convert_gguf r w p) s2
                = WriteProgress (converting_snapshot r p []) :: attempt)
    by (unfold run; rewrite Hconv; reflexivity).
  assert (Hc2 : result (convert_gguf r w p) s2 = inr g)
    by (unfold result; rewrite Hconv; reflexivity).
  assert (Hi1 : exists src,
             run (import_ollama r w p g) s2
             = [ WriteProgress (importing_snapshot r p []);
                 WriteModelfile (modelfile_content src);
                 Launch Ollama (ollama_cmd r p) ])
    by (eexists; unfold run; rewrite import_ollama_outcome, Hh2; reflexivity).
  destruct Hi1 as [src Hi1].
  pose proof (pipeline_body_trace r w initial_store) as Hbody.
  rewrite Hprep in Hbody. cbn zeta in Hbody. fold s1 s2 in Hbody.
  rewrite Ht3, Ht1, Ht2, Hf1, Hf2, Hc1, Hc2, Hi1 in Hbody.
  (* the events before the training stage are static *)
  destruct (prepare_static r w initial_store) as [Hp1 _].
  destruct (direct_setup_static r w p s1) as [Hp2 _].
  assert (Hbefore : Forall (fun e => launched Trainer e = false)
                      (run (prepare r w) initial_store ++ run (direct_setup r w p) s1)).
  { apply Forall_app. split; (eapply Forall_impl; [apply static_not_trainer |]); eassumption. }
  set (before := run (prepare r w) initial_store ++ run (direct_setup r w p) s1) in *.
  set (tail := match w_fuse w with
               | Some _ => []
               | None =>
                   (WriteProgress (converting_snapshot r p []) :: attempt)
                   ++ [ WriteProgress (importing_snapshot r p []);
                        WriteModelfile (modelfile_content src);
                        Launch Ollama (ollama_cmd r p) ]
               end).
  assert (Hbody' : run (pipeline_body r w) initial_store
                   = before
                     ++ [ WriteProgress (training_started r p);
                          WriteProgress (fusing_snapshot r p []);
                          Launch Fuse (fuse_cmd w p) ]
                     ++ tail).
  { rewrite Hbody. unfold before, tail.
    destruct (w_fuse w); rewrite <- ?app_assoc; reflexivity. }
  assert (Ht : exists fin,
             t = before
                 ++ [ WriteProgress (training_started r p);
                      WriteProgress (fusing_snapshot r p []);
                      Launch Fuse (fuse_cmd w p) ]
                 ++ tail ++ [WriteProgress fin]).
  { unfold t. rewrite Hmain.
    destruct (result (pipeline_body r w) initial_store); cbn [fst]; rewrite Hbody';
      eexists; rewrite <- !app_assoc; reflexivity. }
  destruct Ht as [fin Ht]. split.
  - rewrite Ht. apply Forall_app. split; [exact Hbefore |].
    apply Forall_app. split; [repeat constructor |].
    apply Forall_app. split; [| repeat constructor].
    unfold tail. destruct (w_fuse w); [constructor |].
    apply Forall_app. split; [| repeat constructor].
    constructor; [reflexivity | exact Hattempt].
  - exists before, (tail ++ [WriteProgress fin]). split; [exact Ht |].
    intros Hfuse. unfold tail. rewrite Hfuse.
    exists attempt. eexists. split.
    + cbn [app]. rewrite <- !app_assoc. cbn [app]. reflexivity.
    + right. left. reflexivity.
Qed.

Lemma training_skipped_when_already_done_witness :
  let w := with_checkpoint (sample_world 4 []) (Some (inr (sample_checkpoint 50 []))) in
  let p := sample_prepared 4 40 50 in
  total_iters p = 40
  /\ Forall (fun e => launched Trainer e = false) (fst (main (sample_cli 40 true) w))
  /\ In (Launch Fuse (fuse_cmd w p)) (fst (main (sample_cli 40 true) w)).
Proof.
  intros w p. split; [reflexivity |].
  destruct (training_skipped_when_already_done (sample_cli 40 true) (sample_cli 40 true) w
              (sample_args 40 true) (sample_checkpoint 50 []) p)
    as (_ & Hnone & before & after & Ht & _).
  - reflexivity.
  - reflexivity.
  - reflexivity.
  - reflexivity.
  - reflexivity.
  - vm_compute. reflexivity.
  - vm_compute. discriminate.
  - split; [exact Hnone |].
    rewrite Ht. apply in_or_app. right. right. right. left. reflexivity.
Defined.

(** ** What is written of the loss history *)





(** ** A failed conversion *)

Lemma upto_fuse_ignores_conversion (r : run_args) (w : world)
    (hf : option exn) (sc : bool) (cv : exn + Z) (gg : bool) :
  upto_fuse r (with_conversion w hf sc cv gg) = upto_fuse r w.
Proof. reflexivity. Qed.

(** From the fusion on: the conversion attempt, the import, and how the
    body of the [try] ends. *)
Lemma pipeline_body_after_fuse (r : run_args) (w : world) (s0 : store) (p : prepared) :
  result (upto_fuse r w) s0 = inr p ->
  let s3 := final (upto_fuse r w) s0 in
  exists attempt g,
    pipeline_body r w s0
    = (run (upto_fuse r w) s0
       ++ (WriteProgress (converting_snapshot r p (loss_history s3)) :: attempt)
       ++ [ WriteProgress (importing_snapshot r p (loss_history s3));
            WriteModelfile
              (modelfile_content
                 match g with
                 | Some path => if str_truthy path && w_gguf_exists w then path
                                else path_join (output_path p) "fused"
                 | None => path_join (output_path p) "fused"
                 end);
            Launch Ollama (ollama_cmd r p) ],
       s3,
       match w_ollama w with
       | inl e => inl e
       | inr _ => inr p
       end)
    /\ snapshots attempt = []
    /\ (conversion_fails w = true -> g = None).
Proof.
  intros Hres s3. unfold pipeline_body, bind.
  rewrite (M_eta (upto_fuse r w) s0), Hres. fold s3.
  destruct (convert_gguf_outcome r w p s3) as (attempt & g & Hc & Hsn & _ & Hg).
  exists attempt, g. rewrite Hc, (import_ollama_outcome r w p g s3).
  split; [| split; assumption].
  destruct (w_ollama w); cbn [ret]; rewrite ?app_nil_r; reflexivity.
Qed.

(** C8 as stated fails on the code: the final snapshot of a run whose
    conversion failed is, message included, the final snapshot of the same
    run with a successful conversion. *)
Lemma degraded_conversion_not_surfaced :
  let good := sample_world 4 (trainer_lines 3) in
  let bad := with_conversion good None true (inr 1) false in
  let final_snapshot w := nth_error (rev (snapshots (fst (main (sample_cli 3 false) w)))) 0 in
  conversion_fails good = false
  /\ conversion_fails bad = true
  /\ final_snapshot bad = final_snapshot good
  /\ option_map sn_message (final_snapshot bad) = Some "Training complete! Model: luddo-v2"
  /\ option_map sn_stage (final_snapshot bad) = Some Completed.
Proof. intros good bad final_snapshot. repeat split; vm_compute; reflexivity. Qed.

(** C8, as the code has it.  When the conversion step fails in a run that
    got past the fusion, the pipeline goes on: the Modelfile names the
    fused model, [ollama create] is launched, and if that launch does not
    raise the run ends with a [Completed] snapshot and status 0.  That
    final snapshot, whose message is [Training complete! Model: <output>],
    is the one the run writes for every other outcome of the conversion:
    it does not tell the degraded outcome. *)
Theorem conversion_failure_falls_back
    (a m : cli_args) (w : world) (r : run_args) (p : prepared) (rc : Z) :
  load_config a w = inr m ->
  validate m = Some r ->
  result (upto_fuse r w) initial_store = inr p ->
  conversion_fails w = true ->
  w_ollama w = inr rc ->
  let h := loss_history (final (upto_fuse r w) initial_store) in
  (exists before,
      main a w
      = (before
         ++ [ WriteProgress (importing_snapshot r p h);
              WriteModelfile (modelfile_content (path_join (output_path p) "fused"));
              Launch Ollama (ollama_cmd r p);
              WriteProgress (completed_snapshot r p h) ],
         Exit 0))
  /\ sn_stage (completed_snapshot r p h) = Completed
  /\ sn_message (completed_snapshot r p h) = ("Training complete! Model: " ++ output r)%string
  /\ (forall hf sc cv gg,
         exists before,
           main a (with_conversion w hf sc cv gg)
           = (before ++ [WriteProgress (completed_snapshot r p h)], Exit 0)).
Proof.
  intros Hload Hval Hres Hfail Hollama h.
  assert (Hmain : forall w',
             load_config a w' = inr m -> upto_fuse r w' = upto_fuse r w ->
             w_ollama w' = inr rc ->
             exists attempt g,
               main a w'
               = (run (upto_fuse r w) initial_store
                  ++ (WriteProgress (converting_snapshot r p h) :: attempt)
                  ++ [ WriteProgress (importing_snapshot r p h);
                       WriteModelfile
                         (modelfile_content
                            match g with
                            | Some path => if str_truthy path && w_gguf_exists w' then path
                                           else path_join (output_path p) "fused"
                            | None => path_join (output_path p) "fused"
                            end);
                       Launch Ollama (ollama_cmd r p);
                       WriteProgress (completed_snapshot r p h) ],
                  Exit 0)
               /\ (conversion_fails w' = true -> g = None)).
  { intros w' Hl Hu Ho.
    assert (Hres' : result (upto_fuse r w') initial_store = inr p) by (rewrite Hu; exact Hres).
    destruct (pipeline_body_after_fuse r w' initial_store p Hres')
      as (attempt & g & Hbody & _ & Hg).
    rewrite Hu, Ho in Hbody. fold h in Hbody.
    exists attempt, g. split; [| exact Hg].
    unfold main. rewrite Hl, Hval, pipeline_shape.
    unfold result, run, final. rewrite Hbody. cbn [fst snd].
    rewrite <- ?app_assoc. cbn [app]. rewrite <- ?app_assoc. reflexivity. }
  split; [| split; [reflexivity | split; [reflexivity |]]].
  - destruct (Hmain w Hload eq_refl Hollama) as (attempt & g & Hm & Hg).
    rewrite (Hg Hfail) in Hm.
    exists (run (upto_fuse r w) initial_store
            ++ WriteProgress (converting_snapshot r p h) :: attempt).
    rewrite Hm, <- !app_assoc. reflexivity.
  - intros hf sc cv gg.
    destruct (Hmain (with_conversion w hf sc cv gg) Hload
                (upto_fuse_ignores_conversion r w hf sc cv gg) Hollama)
      as (attempt & g & Hm & _).
    exists (run (upto_fuse r w) initial_store
            ++ (WriteProgress (converting_snapshot r p h) :: attempt)
            ++ [ WriteProgress (importing_snapshot r p h);
                 WriteModelfile
                   (modelfile_content
                      match g with
                      | Some path =>
                          if str_truthy path && w_gguf_exists (with_conversion w hf sc cv gg)
                          then path
                          else path_join (output_path p) "fused"
                      | None => path_join (output_path p) "fused"
                      end);
                 Launch Ollama (ollama_cmd r p) ]).
    rewrite Hm, <- !app_assoc. reflexivity.
Qed.

Lemma conversion_failure_falls_back_witness :
  let bad := with_conversion (sample_world 4 (trainer_lines 3)) None true (inr 1) false in
  snd (main (sample_cli 3 false) bad) = Exit 0
  /\ In (WriteModelfile (modelfile_content "models/luddo-v2/fused"))
        (fst (main (sample_cli 3 false) bad)).
Proof.
  intros bad.
  destruct (conversion_failure_falls_back (sample_cli 3 false) (sample_cli 3 false) bad
              (sample_args 3 false) (sample_prepared 4 3 0) 0)
    as ((before & Hmain) & _).
  - reflexivity.
  - reflexivity.
  - vm_compute. reflexivity.
  - reflexivity.
  - reflexivity.
  - rewrite Hmain. split; [reflexivity |].
    cbn [fst]. apply in_or_app. right. right. left. reflexivity.
Defined.

(** ** The history found in the checkpoint *)

Lemma alike_bind {A B} (m m' : M A) (f f' : A -> M B) :
  alike m m' -> (forall a, alike (f a) (f' a)) -> alike (bind m f) (bind m' f').
Proof.
  intros Hm Hf s s' Hi He.
  destruct (Hm s s' Hi He) as (Ht & Hr & Hi1 & He1).
  rewrite !run_bind, !result_bind, !final_bind, map_app, map_app, Ht, <- Hr.
  destruct (result m s) as [e | a]; [repeat split; assumption |].
  destruct (Hf a _ _ Hi1 He1) as (Ht2 & Hr2 & Hi2 & He2).
  rewrite Ht2. repeat split; assumption.
Qed.

Lemma alike_ret {A} (a : A) : alike (ret a) (ret a).
Proof. intros s s' Hi He. repeat split; assumption. Qed.

Lemma alike_throw {A} (e : exn) : alike (@throw A e) (throw e).
Proof. intros s s' Hi He. repeat split; assumption. Qed.

Lemma alike_lift {A} (r : exn + A) : alike (lift r) (lift r).
Proof. destruct r; [apply alike_throw | apply alike_ret]. Qed.

Lemma alike_may_raise (r : option exn) : alike (may_raise r) (may_raise r).
Proof. destruct r; [apply alike_throw | apply alike_ret]. Qed.

Lemma alike_emit (e : event) : alike (emit e) (emit e).
Proof. intros s s' Hi He. repeat split; assumption. Qed.

Lemma alike_set_loss_history (h h' : list loss_entry) :
  alike (set_loss_history h) (set_loss_history h').
Proof. intros s s' Hi He. repeat split; assumption. Qed.

Lemma alike_convert_jsonl (w : world) :
  alike (convert_jsonl_to_mlx_format w) (convert_jsonl_to_mlx_format w).
Proof.
  unfold convert_jsonl_to_mlx_format.
  repeat first [ apply alike_bind; [| intros ?] | apply alike_lift | apply alike_emit
               | apply alike_ret ].
Qed.

Lemma check_resume_outcome (r : run_args) (w : world) (s : store) :
  check_resume r w s =
  let emptied := Store [] (current_iter s) (current_epoch s) in
  if resume r then
    match w_checkpoint w with
    | Some (inl e) => ([], emptied, inl e)
    | Some (inr c) =>
        if checkpoint_truthy c then
          let h := dict_get (cj_loss_history c) [] in
          ([WriteProgress (resuming_snapshot r c h)],
           Store h (current_iter s) (current_epoch s),
           inr (dict_get (cj_last_iter c) 0))
        else ([], emptied, inr 0)
    | None => ([], emptied, inr 0)
    end
  else ([], emptied, inr 0).
Proof.
  unfold check_resume, load_checkpoint, bind, lift, throw, ret, set_loss_history, get, put,
    write_progress, emit.
  cbn [loss_history current_iter current_epoch].
  destruct (resume r); [| reflexivity].
  destruct (w_checkpoint w) as [[e | c] |]; try reflexivity.
  destruct (checkpoint_truthy c); reflexivity.
Qed.

Lemma checkpoint_truthy_other_history (c : checkpoint_json) (h : list loss_entry) :
  checkpoint_truthy
    (CheckpointJson (cj_last_iter c) (cj_last_loss c) (cj_epoch c)
       (option_map (fun _ => h) (cj_loss_history c)) (cj_total_iters c) (cj_dataset_size c))
  = checkpoint_truthy c.
Proof. destruct c as [[|] [|] [|] [|] [|] [|]]; reflexivity. Qed.

Lemma alike_check_resume (r : run_args) (w : world) (h : list loss_entry) :
  alike (check_resume r (with_checkpoint_history w h)) (check_resume r w).
Proof.
  intros s s' Hi He. unfold run, result, final.
  rewrite !check_resume_outcome. unfold with_checkpoint_history. cbn [w_checkpoint].
  cbv zeta. rewrite Hi, He.
  destruct (resume r); [| repeat split].
  destruct (w_checkpoint w) as [[e | c] |]; [repeat split | | repeat split].
  rewrite checkpoint_truthy_other_history.
  destruct (checkpoint_truthy c); repeat split.
Qed.


Lemma alike_prepare (r : run_args) (w : world) (h : list loss_entry) :
  alike (prepare r (with_checkpoint_history w h)) (prepare r w).
Proof.
  unfold prepare.
  change (convert_jsonl_to_mlx_format (with_checkpoint_history w h))
    with (convert_jsonl_to_mlx_format w).
  change (w_mlx_installed (with_checkpoint_history w h)) with (w_mlx_installed w).
  change (w_pip_install (with_checkpoint_history w h)) with (w_pip_install w).
  change (w_import_mlx (with_checkpoint_history w h)) with (w_import_mlx w).
  change (w_python (with_checkpoint_history w h)) with (w_python w).
  apply alike_bind; [apply alike_emit | intros _].
  apply alike_bind.
  { destruct (w_mlx_installed w); [apply alike_ret |].
    repeat first [ apply alike_bind; [| intros ?] | apply alike_may_raise
                 | apply alike_emit ]. }
  intros _.
  apply alike_bind; [apply alike_may_raise | intros _].
  apply alike_bind; [apply alike_emit | intros _].
  apply alike_bind; [apply alike_emit | intros _].
  apply alike_bind; [apply alike_check_resume | intros i].
  apply alike_bind; [apply alike_convert_jsonl | intros ds].
  apply alike_bind; [apply alike_emit | intros _].
  apply alike_ret.
Qed.

(** After [prepare], nothing reads the checkpoint, and the in-process
    attempt starts by emptying the history. *)
Lemma after_prepare_same (r : run_args) (w : world) (h : list loss_entry)
    (p : prepared) (s s' : store) :
  current_iter s = current_iter s' ->
  after_prepare r (with_checkpoint_history w h) p s = after_prepare r w p s'.
Proof.
  intros Hi. change (after_prepare r (with_checkpoint_history w h) p)
    with (after_prepare r w p).
  unfold after_prepare. unfold bind at 1 6.
  rewrite (direct_setup_forgets r w p s s' Hi). reflexivity.
Qed.

(** The body of the [try], regrouped around [prepare]. *)
Lemma pipeline_body_regrouped (r : run_args) (w : world) (s : store) :
  pipeline_body r w s = bind (prepare r w) (after_prepare r w) s.
Proof.
  unfold pipeline_body, upto_fuse, after_prepare, bind.
  destruct (prepare r w s) as [[t1 s1] [e | p]]; [reflexivity |].
  destruct (direct_setup r w p s1) as [[t2 s2] [e | []]]; [reflexivity |].
  destruct (train r w p s2) as [[t3 s3] [e | []]]; [rewrite <- ?app_assoc; reflexivity |].
  destruct (fuse r w p s3) as [[t4 s4] [e | []]];
    [cbn [ret]; rewrite ?app_nil_r, <- ?app_assoc; reflexivity |].
  cbn [ret]. rewrite ?app_nil_r.
  destruct (convert_gguf r w p s4) as [[t5 s5] [e | g]];
    [rewrite <- ?app_assoc; reflexivity |].
  destruct (import_ollama r w p g s5) as [[t6 s6] [e | rc]];
    rewrite ?app_nil_r, <- ?app_assoc; reflexivity.
Qed.

Lemma pipeline_body_alike (r : run_args) (w : world) (h : list loss_entry) (s0 : store) :
  let w' := with_checkpoint_history w h in
  map forget_resumed_history (run (pipeline_body r w') s0)
  = map forget_resumed_history (run (pipeline_body r w) s0)
  /\ result (pipeline_body r w') s0 = result (pipeline_body r w) s0
  /\ (forall p, result (pipeline_body r w) s0 = inr p ->
                final (pipeline_body r w') s0 = final (pipeline_body r w) s0).
Proof.
  intros w'. subst w'.
  destruct (alike_prepare r w h s0 s0 eq_refl eq_refl) as (Ht & Hr & Hi & _).
  unfold run at 1 2, result at 1 2 3, final at 1 2.
  rewrite !pipeline_body_regrouped. unfold bind.
  rewrite (M_eta (prepare r (with_checkpoint_history w h)) s0),
    (M_eta (prepare r w) s0), Hr.
  destruct (result (prepare r w) s0) as [e | p].
  - cbn [fst snd]. split; [exact Ht |]. split; [reflexivity | intros p H; discriminate H].
  - rewrite (after_prepare_same r w h p _ _ Hi).
    destruct (after_prepare r w p (final (prepare r w) s0)) as [[t2 s2] r2]. cbn [fst snd].
    rewrite !map_app, Ht. repeat split.
Qed.

Lemma no_history_check_resume (r : run_args) (w : world) :
  emits no_history (check_resume r w) (fun _ => True).
Proof.
  intros s. unfold run, result. rewrite check_resume_outcome. cbv zeta.
  destruct (resume r); [| split; [constructor | auto]].
  destruct (w_checkpoint w) as [[e | c] |]; try (split; [constructor | auto]).
  destruct (checkpoint_truthy c); (split; [| auto]); repeat constructor.
Qed.

Lemma no_history_prepare (r : run_args) (w : world) :
  emits no_history (prepare r w) (fun _ => True).
Proof.
  unfold prepare.
  emits_step; [cbn; auto |].
  eapply emits_bind with (R := fun _ => True).
  { destruct (w_mlx_installed w); repeat emits_step; cbn; auto. }
  intros _ _. emits_step. emits_step; [cbn; auto |]. emits_step; [cbn; auto |].
  eapply emits_bind; [apply no_history_check_resume | intros i _].
  eapply emits_bind with (R := fun _ => True).
  { unfold convert_jsonl_to_mlx_format. repeat emits_step; cbn; auto. }
  intros ds _. emits_step; [cbn; auto |].
  apply emits_ret. exact I.
Qed.

Lemma no_history_direct_setup (r : run_args) (w : world) (p : prepared) :
  emits no_history (direct_setup r w p) (fun _ => True).
Proof. unfold direct_setup. repeat emits_step; cbn; auto. Qed.

Lemma no_history_from_this_run (entries : list loss_entry) (e : event) :
  no_history e -> from_this_run entries e.
Proof.
  destruct e as [sn | c | tr va | m | pr cmd]; cbn; auto; [| intros []].
  intros [H | H]; [left; exact H | right].
  intros h Hh. rewrite H in Hh. discriminate Hh.
Qed.

Lemma incl_last_n {A} (n : nat) (l : list A) : incl (last_n n l) l.
Proof.
  unfold last_n. intros x Hx.
  rewrite <- (firstn_skipn (List.length l - n) l). apply in_or_app. right. exact Hx.
Qed.

(** The histories the read loop writes are made of what the run had
    recorded before and of the entries of its own lines. *)
Lemma read_loop_from_this_run (r : run_args) (p : prepared) (lines : list string) (s : store) :
  Forall (from_this_run (loss_history s ++ recorded_entries r p lines))
    (run (read_loop r p lines) s).
Proof.
  revert s. induction lines as [| line rest IH]; intros s; [constructor |].
  cbn [read_loop]. rewrite run_bind.
  destruct (handle_line_summary r p line s) as (-> & -> & Hfin).
  specialize (IH (final (handle_line r p line) s)). rewrite Hfin in IH.
  cbn [recorded_entries flat_map].
  fold (recorded_entries r p rest).
  destruct (line_record r p line) as [[[[cur x] ep] k] |].
  - rewrite <- app_assoc in IH. apply Forall_app. split; [| exact IH].
    apply Forall_record_events.
    + right. intros h Hh. cbn in Hh. injection Hh as <-.
      intros e He. apply incl_last_n in He.
      rewrite app_assoc. apply in_or_app. left. exact He.
    + cbn [from_this_run ck_loss_history].
      intros e He. apply incl_last_n in He.
      rewrite app_assoc. apply in_or_app. left. exact He.
  - rewrite app_nil_r in IH. exact IH.
Qed.

(** The training phase, started on an empty history. *)
Lemma train_from_this_run (r : run_args) (w : world) (p : prepared) (s : store) :
  loss_history s = [] ->
  let entries := recorded_entries r p (w_trainer_output w) in
  Forall (from_this_run entries) (run (train r w p) s)
  /\ incl (loss_history (final (train r w p) s)) entries.
Proof.
  intros Hs entries. unfold train.
  rewrite run_bind, final_bind.
  change (result (write_progress (training_started r p)) s) with (@inr exn unit tt).
  change (final (write_progress (training_started r p)) s) with s.
  change (run (write_progress (training_started r p)) s)
    with [WriteProgress (training_started r p)].
  destruct (total_iters p - resume_from_iter p <=? 0).
  - split.
    + apply Forall_cons; [right; intros h Hh; discriminate Hh |].
      cbn [app]. apply Forall_nil.
    + change (final (ret tt) s) with s. rewrite Hs. intros e [].
  - rewrite run_bind, final_bind.
    change (result (emit (Launch Trainer
              (trainer_cmd w p (total_iters p - resume_from_iter p)))) s)
      with (@inr exn unit tt).
    change (final (emit (Launch Trainer
              (trainer_cmd w p (total_iters p - resume_from_iter p)))) s) with s.
    rewrite run_bind, final_bind.
    set (s1 := Store (loss_history s) (resume_from_iter p) (current_epoch s)).
    change (result (set_current_iter (resume_from_iter p)) s) with (@inr exn unit tt).
    change (final (set_current_iter (resume_from_iter p)) s) with s1.
    change (run (set_current_iter (resume_from_iter p)) s) with (@nil event).
    rewrite run_bind, final_bind, read_loop_result.
    pose proof (read_loop_from_this_run r p (w_trainer_output w) s1) as Hloop.
    pose proof (read_loop_history r p (w_trainer_output w) s1) as Hhist.
    change (loss_history s1) with (loss_history s) in Hloop, Hhist.
    rewrite Hs in Hloop, Hhist. cbn [app] in Hloop, Hhist.
    set (s2 := final (read_loop r p (w_trainer_output w)) s1) in *.
    split.
    + apply Forall_cons; [right; intros h Hh; discriminate Hh |].
      apply Forall_cons; [exact I |]. cbn [app].
      apply Forall_app. split; [exact Hloop |].
      destruct (w_trainer_returncode w =? 0); constructor.
    + assert (Hend : loss_history
                       (final (if w_trainer_returncode w =? 0 then ret tt
                               else raise PlainException
                                      ("Training failed with exit code "
                                       ++ str_of_int (w_trainer_returncode w))) s2)
                     = loss_history s2)
        by (destruct (w_trainer_returncode w =? 0); reflexivity).
      rewrite Hend, Hhist. apply incl_refl.
Qed.

Lemma snapshot_from_this_run (entries h : list loss_entry) (sn : snapshot) :
  sn_loss_history sn = Some h -> incl h entries ->
  from_this_run entries (WriteProgress sn).
Proof.
  intros Hh Hi. right. intros h' Hh'. rewrite Hh in Hh'. injection Hh' as <-. exact Hi.
Qed.

Lemma post_processing_from_this_run (r : run_args) (w : world) (p : prepared)
    (s : store) (entries : list loss_entry) :
  incl (loss_history s) entries ->
  Forall (from_this_run entries) (run (fuse r w p) s)
  /\ Forall (from_this_run entries) (run (convert_gguf r w p) s)
  /\ forall g, Forall (from_this_run entries) (run (import_ollama r w p g) s).
Proof.
  intros Hi.
  assert (Hsn : forall sn, sn_loss_history sn = Some (loss_history s) ->
                           from_this_run entries (WriteProgress sn))
    by (intros sn Hsn; apply (snapshot_from_this_run entries (loss_history s)); assumption).
  split; [| split].
  - unfold run. rewrite fuse_outcome. cbn [fst].
    apply Forall_cons; [apply Hsn; reflexivity |].
    apply Forall_cons; [exact I | apply Forall_nil].
  - unfold convert_gguf, run, bind, try_except, get, write_progress, emit,
      may_raise, lift, throw, ret.
    destruct (w_hf_export w) as [e |]; cbn [fst snd app];
      [apply Forall_cons; [apply Hsn; reflexivity | apply Forall_nil] |].
    destruct (w_convert_script_exists w); cbn [fst snd app];
      [| apply Forall_cons; [apply Hsn; reflexivity | apply Forall_nil]].
    destruct (w_convert w) as [e | rc]; cbn [fst snd app];
      [apply Forall_cons; [apply Hsn; reflexivity |];
       apply Forall_cons; [exact I | apply Forall_nil] |].
    destruct (rc =? 0); cbn [fst snd app];
      (apply Forall_cons; [apply Hsn; reflexivity |]);
      (apply Forall_cons; [exact I | apply Forall_nil]).
  - intros g. unfold run. rewrite import_ollama_outcome. cbn [fst].
    apply Forall_cons; [apply Hsn; reflexivity |].
    apply Forall_cons; [exact I |]. apply Forall_cons; [exact I | apply Forall_nil].
Qed.

(** In a whole run, the [Resuming] snapshot apart, every loss entry
    written is one the read loop of this run recorded. *)
Lemma main_from_this_run (a : cli_args) (w : world) :
  exists entries,
    (entries = [] \/ exists r p, entries = recorded_entries r p (w_trainer_output w))
    /\ Forall (from_this_run entries) (fst (main a w)).
Proof.
  destruct (main_shape a w) as [[Hnil _] | (m & r & _ & _ & Hmain)].
  { exists []. split; [left; reflexivity | rewrite Hnil; constructor]. }
  pose proof (pipeline_body_trace r w initial_store) as Htrace.
  pose proof (pipeline_body_ends r w initial_store) as Hends.
  destruct (no_history_prepare r w initial_store) as [Hprep _].
  destruct (result (prepare r w) initial_store) as [e | p].
  - exists []. split; [left; reflexivity |].
    rewrite Hmain, Hends. cbn [fst]. rewrite Htrace, app_nil_r.
    apply Forall_app. split.
    + eapply Forall_impl; [apply no_history_from_this_run | exact Hprep].
    + apply Forall_cons; [right; intros h Hh; discriminate Hh | apply Forall_nil].
  - cbv zeta in Htrace, Hends. destruct Hends as [Hfin Hres].
    set (s1 := final (prepare r w) initial_store) in *.
    set (s2 := final (direct_setup r w p) s1) in *.
    set (s3 := final (train r w p) s2) in *.
    set (entries := recorded_entries r p (w_trainer_output w)).
    exists entries. split; [right; exists r, p; reflexivity |].
    destruct (no_history_direct_setup r w p s1) as [Hdirect _].
    assert (Hs2 : loss_history s2 = []).
    { unfold s2. destruct (direct_setup_outcome r w p s1) as [_ ->]. reflexivity. }
    destruct (train_from_this_run r w p s2 Hs2) as [Htrain Hs3].
    fold entries s3 in Htrain, Hs3.
    destruct (post_processing_from_this_run r w p s3 entries Hs3) as (Hf & Hc & Hi).
    assert (Hbody : Forall (from_this_run entries) (run (pipeline_body r w) initial_store)).
    { rewrite Htrace.
      apply Forall_app. split;
        [eapply Forall_impl; [apply no_history_from_this_run | exact Hprep] |].
      apply Forall_app. split;
        [eapply Forall_impl; [apply no_history_from_this_run | exact Hdirect] |].
      apply Forall_app. split; [exact Htrain |].
      destruct (result (train r w p) s2); [constructor |].
      apply Forall_app. split; [exact Hf |].
      destruct (result (fuse r w p) s3); [constructor |].
      apply Forall_app. split; [exact Hc |].
      destruct (result (convert_gguf r w p) s3); [constructor | apply Hi]. }
    rewrite Hmain.
    destruct (result (pipeline_body r w) initial_store) as [e | p']; cbn [fst];
      (apply Forall_app; split; [exact Hbody |]);
      (apply Forall_cons; [| apply Forall_nil]).
    + right. intros h Hh. discriminate Hh.
    + apply (snapshot_from_this_run entries
               (loss_history (final (pipeline_body r w) initial_store)));
        [reflexivity | rewrite Hfin; exact Hs3].
Qed.

(** C10.  The history read from the checkpoint is dropped before the read
    loop: the in-process attempt that precedes the loop leaves an empty
    [loss_history] whatever it finds, and a run is the same, event for
    event and in its exit status, whatever entries the checkpoint file
    holds under [loss_history] — but for the [loss_history] key of the
    [Resuming] snapshot itself.  That snapshot apart, every loss entry
    in a snapshot or a checkpoint of the run is one the read loop of this
    run recorded from the trainer's output. *)
Theorem resumed_history_is_discarded (a : cli_args) (w : world) (h : list loss_entry) :
  (forall r p s, loss_history (final (direct_setup r w p) s) = [])
  /\ (exists entries,
        (entries = []
         \/ exists r p, entries = recorded_entries r p (w_trainer_output w))
        /\ Forall (from_this_run entries) (fst (main a w)))
  /\ map forget_resumed_history (fst (main a (with_checkpoint_history w h)))
     = map forget_resumed_history (fst (main a w))
  /\ snd (main a (with_checkpoint_history w h)) = snd (main a w).
Proof.
  split.
  { intros r p s. destruct (direct_setup_outcome r w p s) as [_ ->]. reflexivity. }
  split; [apply main_from_this_run |].
  unfold main.
  change (load_config a (with_checkpoint_history w h)) with (load_config a w).
  destruct (load_config a w) as [e | m]; [split; reflexivity |].
  destruct (validate m) as [r |]; [| split; reflexivity].
  rewrite !pipeline_shape.
  destruct (pipeline_body_alike r w h initial_store) as (Ht & Hr & Hf).
  rewrite Hr.
  destruct (result (pipeline_body r w) initial_store) as [e | p]; cbn [fst snd].
  - rewrite !map_app, Ht. split; reflexivity.
  - rewrite (Hf p eq_refl), !map_app, Ht. split; reflexivity.
Qed.
(** * Further properties of the driver *)

From Stdlib Require DecimalPos.

(** ** The model resolver *)

Lemma lookup_in (key : string) (table : list (string * string)) (v : string) :
  lookup key table = Some v -> In (key, v) table.
Proof.
  induction table as [| [k v'] rest IH]; cbn [lookup]; [discriminate |].
  destruct (String.eqb k key) eqn:E.
  - intros H. injection H as <-. apply String.eqb_eq in E. subst k. left. reflexivity.
  - intros H. right. apply IH. exact H.
Qed.

(** X1.  A base model whose name contains [luddo], [expert] or [finetuned],
    in any letter case, is trained on the Llama 3.2 3B checkpoint. *)
Theorem custom_names_resolve_to_llama (base : string) :
  contains "luddo" (lower base) || contains "expert" (lower base)
  || contains "finetuned" (lower base) = true ->
  resolve_hf_model base = "mlx-community/Llama-3.2-3B-Instruct-4bit".
Proof.
  intros H. unfold resolve_hf_model.
  destruct (lookup base custom_model_bases) as [b |] eqn:Hc.
  - apply lookup_in in Hc.
    destruct Hc as [Hc | [Hc | [Hc | []]]]; injection Hc as <- <-; reflexivity.
  - cbn [dict_get].
    destruct (lookup base model_mapping) as [hf |] eqn:Hm.
    + apply lookup_in in Hm.
      destruct Hm as [Hm | [Hm | [Hm | [Hm | [Hm | [Hm | []]]]]]];
        injection Hm as <- <-; vm_compute in H; discriminate H.
    + rewrite H. reflexivity.
Qed.

Lemma custom_names_resolve_to_llama_witness :
  resolve_hf_model "My-LUDDO-Expert:v7" = "mlx-community/Llama-3.2-3B-Instruct-4bit".
Proof. apply custom_names_resolve_to_llama. vm_compute. reflexivity. Defined.

(** X2.  Whatever the base model name, the model handed to the trainer is
    a 4-bit repository of the [mlx-community] namespace. *)
Theorem resolved_model_is_mlx_community_4bit (base : string) :
  exists name, resolve_hf_model base = ("mlx-community/" ++ name ++ "-4bit")%string.
Proof.
  unfold resolve_hf_model.
  destruct (lookup (dict_get (lookup base custom_model_bases) base) model_mapping)
    as [hf |] eqn:Hm.
  - apply lookup_in in Hm.
    destruct Hm as [Hm | [Hm | [Hm | [Hm | [Hm | [Hm | []]]]]]];
      injection Hm as _ <-.
    + exists "Llama-3.2-3B-Instruct". reflexivity.
    + exists "Llama-3.2-1B-Instruct". reflexivity.
    + exists "Meta-Llama-3.1-8B-Instruct". reflexivity.
    + exists "Mistral-7B-Instruct-v0.3". reflexivity.
    + exists "Qwen2.5-3B-Instruct". reflexivity.
    + exists "Qwen2.5-7B-Instruct". reflexivity.
  - destruct (contains "luddo" (lower base) || contains "expert" (lower base)
              || contains "finetuned" (lower base)).
    + exists "Llama-3.2-3B-Instruct". reflexivity.
    + eexists. reflexivity.
Qed.

(** ** The phases, as functions of the world *)

Lemma main_validated (a m : cli_args) (w : world) (r : run_args) :
  load_config a w = inr m ->
  validate m = Some r ->
  main a w =
  match result (pipeline_body r w) initial_store with
  | inr p =>
      (run (pipeline_body r w) initial_store
         ++ [WriteProgress
               (completed_snapshot r p
                  (loss_history (final (pipeline_body r w) initial_store)))],
       Exit 0)
  | inl e =>
      (run (pipeline_body r w) initial_store ++ [WriteProgress (failed_snapshot r e)],
       Exit 1)
  end.
Proof.
  intros Hl Hv. unfold main. rewrite Hl, Hv, pipeline_shape.
  destruct (result (pipeline_body r w) initial_store); reflexivity.
Qed.

Lemma convert_jsonl_outcome (w : world) (s : store) :
  convert_jsonl_to_mlx_format w s =
  match w_dataset w with
  | inl e => ([], s, inl e)
  | inr lines =>
      match read_examples (w_json_loads w) lines with
      | inl e => ([], s, inl e)
      | inr examples =>
          let n := Z.of_nat (List.length examples) in
          match split_index n with
          | inl e => ([], s, inl e)
          | inr split_idx =>
              ([WriteDataset (firstn (Z.to_nat split_idx) examples)
                  (if split_idx <? n then skipn (Z.to_nat split_idx) examples
                   else last_n 1 examples)], s, inr n)
          end
      end
  end.
Proof.
  unfold convert_jsonl_to_mlx_format, bind, lift, throw, ret, emit.
  destruct (w_dataset w) as [e | lines]; [reflexivity |].
  destruct (read_examples (w_json_loads w) lines) as [e | examples]; [reflexivity |].
  cbv zeta.
  destruct (split_index (Z.of_nat (List.length examples))) as [e | k]; reflexivity.
Qed.

Lemma prepare_outcome (r : run_args) (w : world) (s : store) :
  prepare r w s =
  let pre := WriteProgress (initializing_snapshot r)
             :: (if w_mlx_installed w then []
                 else [WriteProgress (installing_snapshot r); Launch Pip (pip_cmd w)]) in
  match (if w_mlx_installed w then None else w_pip_install w) with
  | Some e => (pre, s, inl e)
  | None =>
      match w_import_mlx w with
      | Some e => (pre, s, inl e)
      | None =>
          let pre2 := pre ++ [WriteProgress (setting_up_snapshot r);
                              WriteProgress (preparing_snapshot r)] in
          match check_resume r w s with
          | (t1, s1, inl e) => (pre2 ++ t1, s1, inl e)
          | (t1, s1, inr resume_iter) =>
              match convert_jsonl_to_mlx_format w s1 with
              | (t2, s2, inl e) => (pre2 ++ t1 ++ t2, s2, inl e)
              | (t2, s2, inr ds) =>
                  (pre2 ++ t1 ++ t2 ++ [WriteProgress (starting_snapshot r ds)], s2,
                   inr (prepared_for r resume_iter ds))
              end
          end
      end
  end.
Proof.
  unfold prepare, bind, write_progress, emit, may_raise, throw, ret.
  fold (initializing_snapshot r) (installing_snapshot r) (setting_up_snapshot r)
    (preparing_snapshot r) (pip_cmd w).
  destruct (w_mlx_installed w).
  - destruct (w_import_mlx w) as [e |]; [reflexivity |].
    destruct (check_resume r w s) as [[t1 s1] [e | it]]; [reflexivity |].
    destruct (convert_jsonl_to_mlx_format w s1) as [[t2 s2] [e | ds]];
      cbn [app]; rewrite ?app_nil_r; reflexivity.
  - destruct (w_pip_install w) as [e |]; [reflexivity |].
    destruct (w_import_mlx w) as [e |]; [reflexivity |].
    destruct (check_resume r w s) as [[t1 s1] [e | it]]; [reflexivity |].
    destruct (convert_jsonl_to_mlx_format w s1) as [[t2 s2] [e | ds]];
      cbn [app]; rewrite ?app_nil_r; reflexivity.
Qed.

Lemma train_outcome (r : run_args) (w : world) (p : prepared) (s : store) :
  train r w p s =
  let remaining_iters := total_iters p - resume_from_iter p in
  if remaining_iters <=? 0 then ([WriteProgress (training_started r p)], s, inr tt)
  else
    let s1 := Store (loss_history s) (resume_from_iter p) (current_epoch s) in
    (WriteProgress (training_started r p)
       :: Launch Trainer (trainer_cmd w p remaining_iters)
       :: run (read_loop r p (w_trainer_output w)) s1,
     final (read_loop r p (w_trainer_output w)) s1,
     if w_trainer_returncode w =? 0 then inr tt
     else inl (trainer_failure (w_trainer_returncode w))).
Proof.
  cbv zeta. unfold train, set_current_iter.
  unfold bind, write_progress, emit, get, put, ret, raise.
  destruct (total_iters p - resume_from_iter p <=? 0); [reflexivity |].
  cbv beta iota.
  set (s1 := Store (loss_history s) (resume_from_iter p) (current_epoch s)).
  pose proof (read_loop_result r p (w_trainer_output w) s1) as Hr.
  rewrite (M_eta (read_loop r p (w_trainer_output w)) s1), Hr.
  destruct (w_trainer_returncode w =? 0); cbn [app]; rewrite ?app_nil_r; reflexivity.
Qed.

(** ** How a run ends *)

(** The stages that end a run. *)
Lemma body_is_not_terminal (r : run_args) (w : world) :
  emits (fun e => forall sn, e = WriteProgress sn ->
                   sn_stage sn <> Completed /\ sn_stage sn <> Failed)
    (pipeline_body r w) (prepare_post r w).
Proof.
  assert (Hstatic : forall e, static_event r e ->
            forall sn, e = WriteProgress sn ->
                       sn_stage sn <> Completed /\ sn_stage sn <> Failed).
  { intros e He sn ->. destruct He as (_ & _ & Hp).
    destruct (sn_stage sn); try contradiction; split; discriminate. }
  apply emits_pipeline_body; [exact Hstatic |].
  intros p _. apply emits_train; [exact Hstatic |].
  intros _. split; [intros sn H; discriminate H |].
  intros line [[[cur x] ep] k] h0 _ _.
  apply Forall_record_events; intros sn H; [| discriminate H].
  apply WriteProgress_inj in H. subst sn. split; discriminate.
Qed.

(** X3.  A run stops before the [try] only when the config file cannot be
    loaded (the exception escapes) or a required argument is missing (the
    parser's error, status 2), and then nothing is written.  Every other
    run ends by writing one terminal snapshot: [Completed] at progress 100
    with status 0, or [Failed] at progress 0 with status 1, carrying the
    text of the exception in its [error] and [message] keys; no snapshot
    before the last one has a terminal stage, and no exception escapes. *)
Theorem every_run_ends_in_one_terminal_snapshot (a : cli_args) (w : world) :
  match load_config a w with
  | inl e => main a w = ([], Uncaught e)
  | inr m =>
      match validate m with
      | None => main a w = ([], Exit 2)
      | Some r =>
          exists body sn,
            fst (main a w) = body ++ [WriteProgress sn]
            /\ Forall (fun e => forall sn', e = WriteProgress sn' ->
                         sn_stage sn' <> Completed /\ sn_stage sn' <> Failed) body
            /\ (snd (main a w) = Exit 0
                /\ sn_stage sn = Completed /\ sn_progress sn = 100
                /\ sn_ollama_model sn = Some (output r)
                \/ snd (main a w) = Exit 1
                   /\ sn_stage sn = Failed /\ sn_progress sn = 0
                   /\ exists e, sn_error sn = Some (exn_text e)
                                /\ sn_message sn
                                   = ("Training failed: " ++ exn_text e)%string)
      end
  end.
Proof.
  destruct (load_config a w) as [e | m] eqn:Hl.
  { unfold main. rewrite Hl. reflexivity. }
  destruct (validate m) as [r |] eqn:Hv.
  2: { unfold main. rewrite Hl, Hv. reflexivity. }
  rewrite (main_validated a m w r Hl Hv).
  destruct (body_is_not_terminal r w initial_store) as [Hbody _].
  exists (run (pipeline_body r w) initial_store).
  destruct (result (pipeline_body r w) initial_store) as [e | p]; cbn [fst snd].
  - exists (failed_snapshot r e). split; [reflexivity |]. split; [exact Hbody |].
    right. repeat split. exists e. split; reflexivity.
  - eexists. split; [reflexivity |]. split; [exact Hbody |].
    left. repeat split.
Qed.

(** X4.  Whatever the trainer prints, no snapshot of a run has a progress
    above 100, only a [Completed] snapshot has progress 100, and the
    snapshots of the training stage stay at or below 95. *)
Theorem progress_never_overshoots (a : cli_args) (w : world) (sn : snapshot) :
  In (WriteProgress sn) (fst (main a w)) ->
  sn_progress sn <= 100
  /\ (sn_progress sn = 100 -> sn_stage sn = Completed)
  /\ (sn_stage sn = Training -> sn_progress sn <= 95).
Proof.
  intros Hin.
  destruct (main_shape a w) as [[Hnil _] | (m & r & _ & _ & Hmain)];
    [rewrite Hnil in Hin; destruct Hin |].
  destruct (pipeline_body_bounded r w initial_store) as [Hb _].
  rewrite Forall_forall in Hb.
  rewrite Hmain in Hin.
  assert (Hcases : In (WriteProgress sn) (run (pipeline_body r w) initial_store)
                   \/ sn_stage sn = Completed /\ sn_progress sn = 100
                   \/ sn_stage sn = Failed /\ sn_progress sn = 0).
  { destruct (result (pipeline_body r w) initial_store) as [e | p]; cbn [fst] in Hin;
      apply in_app_or in Hin; destruct Hin as [Hin | [Hin | []]];
      try (left; exact Hin); apply WriteProgress_inj in Hin; subst sn;
      right; [right | left]; split; reflexivity. }
  destruct Hcases as [Hbody | [[Hst Hp] | [Hst Hp]]].
  - destruct (Hb _ Hbody sn eq_refl) as [H99 H95].
    split; [lia |]. split; [intros H; lia | exact H95].
  - rewrite Hst, Hp. split; [lia |]. split; [reflexivity | discriminate].
  - rewrite Hst, Hp. split; [lia |]. split; [discriminate | discriminate].
Qed.

Lemma progress_never_overshoots_witness :
  let t := fst (main (sample_cli 1 false) (sample_world 4 [trainer_line 900 "0.500"])) in
  exists sn, In (WriteProgress sn) t /\ sn_step sn = Some 900 /\ sn_progress sn <= 95.
Proof.
  intros t.
  assert (H : exists sn, nth_error t 9 = Some (WriteProgress sn) /\ sn_step sn = Some 900).
  { eexists. split; vm_compute; reflexivity. }
  destruct H as (sn & Hn & Hs). exists sn.
  assert (Hin : In (WriteProgress sn) t) by (eapply nth_error_In; exact Hn).
  split; [exact Hin |]. split; [exact Hs |].
  destruct (progress_never_overshoots (sample_cli 1 false)
              (sample_world 4 [trainer_line 900 "0.500"]) sn Hin) as (_ & _ & H95).
  apply H95.
  assert (Hst : option_map (fun e => match e with WriteProgress s => sn_stage s | _ => Failed end)
                  (nth_error t 9) = Some Training) by (vm_compute; reflexivity).
  rewrite Hn in Hst. cbn in Hst. injection Hst as Hst. exact Hst.
Defined.

(** ** Subprocesses *)

Lemma launches_app (t1 t2 : list event) : launches (t1 ++ t2) = launches t1 ++ launches t2.
Proof. apply filter_app. Qed.

Lemma launches_none (t : list event) :
  Forall (fun e => is_launch e = false) t -> launches t = [].
Proof.
  induction 1 as [| e t He _ IH]; [reflexivity |].
  unfold launches in *. cbn [filter]. rewrite He. exact IH.
Qed.

Lemma launches_check_resume (r : run_args) (w : world) (s : store) :
  launches (run (check_resume r w) s) = [].
Proof.
  unfold run. rewrite check_resume_outcome. cbv zeta.
  destruct (resume r); [| reflexivity].
  destruct (w_checkpoint w) as [[e | c] |]; try reflexivity.
  destruct (checkpoint_truthy c); reflexivity.
Qed.

Lemma launches_convert_jsonl (w : world) (s : store) :
  launches (run (convert_jsonl_to_mlx_format w) s) = [].
Proof.
  unfold run. rewrite convert_jsonl_outcome.
  destruct (w_dataset w) as [e | lines]; [reflexivity |].
  destruct (read_examples (w_json_loads w) lines) as [e | examples]; [reflexivity |].
  cbv zeta. destruct (split_index (Z.of_nat (List.length examples))); reflexivity.
Qed.

Lemma launches_prepare (r : run_args) (w : world) (s : store) :
  launches (run (prepare r w) s)
  = if w_mlx_installed w then [] else [Launch Pip (pip_cmd w)].
Proof.
  unfold run. rewrite prepare_outcome. cbv zeta.
  pose proof (launches_check_resume r w s) as H1. unfold run in H1.
  destruct (w_mlx_installed w); cbn [app].
  - destruct (w_import_mlx w) as [e |]; [reflexivity |].
    destruct (check_resume r w s) as [[t1 s1] [e | it]]; cbn [fst] in *.
    + change (launches (WriteProgress (initializing_snapshot r)
                          :: WriteProgress (setting_up_snapshot r)
                          :: WriteProgress (preparing_snapshot r) :: t1) = []).
      unfold launches in *. cbn [filter is_launch]. exact H1.
    + pose proof (launches_convert_jsonl w s1) as H2. unfold run in H2.
      destruct (convert_jsonl_to_mlx_format w s1) as [[t2 s2] [e | ds]]; cbn [fst] in *;
        unfold launches in *; cbn [filter is_launch]; rewrite !filter_app, H1, H2;
        reflexivity.
  - destruct (w_pip_install w) as [e |]; [reflexivity |].
    destruct (w_import_mlx w) as [e |]; [reflexivity |].
    destruct (check_resume r w s) as [[t1 s1] [e | it]]; cbn [fst] in *.
    + unfold launches in *. cbn [filter is_launch]. rewrite H1. reflexivity.
    + pose proof (launches_convert_jsonl w s1) as H2. unfold run in H2.
      destruct (convert_jsonl_to_mlx_format w s1) as [[t2 s2] [e | ds]]; cbn [fst] in *;
        unfold launches in *; cbn [filter is_launch]; rewrite !filter_app, H1, H2;
        reflexivity.
Qed.

Lemma launches_direct_setup (r : run_args) (w : world) (p : prepared) (s : store) :
  launches (run (direct_setup r w p) s) = [].
Proof.
  apply launches_none.
  assert (H : emits (fun e => is_launch e = false) (direct_setup r w p) (fun _ => True))
    by (unfold direct_setup; repeat emits_step; cbn; auto).
  apply H.
Qed.

Lemma launches_read_loop (r : run_args) (p : prepared) (lines : list string) (s : store) :
  launches (run (read_loop r p lines) s) = [].
Proof.
  apply launches_none.
  assert (H : emits (fun e => is_launch e = false) (read_loop r p lines) (fun _ => True)).
  { apply emits_read_loop. intros line [[[cur x] ep] k] h0 _ _.
    apply Forall_record_events; reflexivity. }
  apply H.
Qed.

Lemma train_result (r : run_args) (w : world) (p : prepared) (s : store) :
  result (train r w p) s
  = if training_succeeds w p then inr tt
    else inl (trainer_failure (w_trainer_returncode w)).
Proof.
  unfold result, training_succeeds, remaining_iters. rewrite train_outcome. cbv zeta.
  destruct (total_iters p - resume_from_iter p <=? 0); [reflexivity |].
  cbn [snd orb]. destruct (w_trainer_returncode w =? 0); reflexivity.
Qed.

Lemma launches_train (r : run_args) (w : world) (p : prepared) (s : store) :
  launches (run (train r w p) s)
  = if remaining_iters p <=? 0 then []
    else [Launch Trainer (trainer_cmd w p (remaining_iters p))].
Proof.
  unfold run, remaining_iters. rewrite train_outcome. cbv zeta.
  destruct (total_iters p - resume_from_iter p <=? 0); [reflexivity |].
  cbn [fst]. unfold launches. cbn [filter is_launch].
  fold (launches (run (read_loop r p (w_trainer_output w))
                    (Store (loss_history s) (resume_from_iter p) (current_epoch s)))).
  rewrite launches_read_loop. reflexivity.
Qed.

Lemma convert_gguf_exact (r : run_args) (w : world) (p : prepared) (s : store) :
  convert_gguf r w p s =
  (WriteProgress (converting_snapshot r p (loss_history s))
     :: (if conversion_attempted w then [Launch ConvertScript (convert_cmd r w p)] else []),
   s, inr (if conversion_fails w then None else Some (gguf_path r p))).
Proof.
  unfold convert_gguf, conversion_attempted, conversion_fails, convert_cmd, gguf_path.
  unfold bind, try_except, get, write_progress, emit, may_raise, lift, throw, ret.
  destruct (w_hf_export w) as [e |]; [reflexivity |].
  destruct (w_convert_script_exists w); [| reflexivity].
  destruct (w_convert w) as [e | rc]; [reflexivity |].
  cbv beta iota. destruct (rc =? 0); reflexivity.
Qed.

(** The launches of the body of the [try], as the world decides them. *)
Lemma launches_pipeline_body (r : run_args) (w : world) (s0 : store) :
  launches (run (pipeline_body r w) s0) =
  (if w_mlx_installed w then [] else [Launch Pip (pip_cmd w)])
  ++ match result (prepare r w) s0 with
     | inl _ => []
     | inr p =>
         (if remaining_iters p <=? 0 then []
          else [Launch Trainer (trainer_cmd w p (remaining_iters p))])
         ++ if training_succeeds w p then
              Launch Fuse (fuse_cmd w p)
              :: match w_fuse w with
                 | Some _ => []
                 | None =>
                     (if conversion_attempted w
                      then [Launch ConvertScript (convert_cmd r w p)] else [])
                     ++ [Launch Ollama (ollama_cmd r p)]
                 end
            else []
     end.
Proof.
  rewrite pipeline_body_trace, launches_app, launches_prepare.
  f_equal.
  destruct (result (prepare r w) s0) as [e | p]; [reflexivity |].
  cbv zeta.
  set (s1 := final (prepare r w) s0).
  set (s2 := final (direct_setup r w p) s1).
  set (s3 := final (train r w p) s2).
  rewrite !launches_app, launches_direct_setup, launches_train, train_result.
  cbn [app]. f_equal.
  destruct (training_succeeds w p); [| reflexivity].
  rewrite launches_app. unfold run, result.
  rewrite fuse_outcome. cbn [fst snd].
  destruct (w_fuse w) as [e |]; [reflexivity |].
  rewrite convert_gguf_exact. cbn [fst snd].
  rewrite import_ollama_outcome. cbn [fst].
  unfold launches. cbn [filter is_launch app].
  destruct (conversion_attempted w); reflexivity.
Qed.

Lemma launches_main (a m : cli_args) (w : world) (r : run_args) :
  load_config a w = inr m ->
  validate m = Some r ->
  launches (fst (main a w)) = launches (run (pipeline_body r w) initial_store).
Proof.
  intros Hl Hv. rewrite (main_validated a m w r Hl Hv).
  destruct (result (pipeline_body r w) initial_store); cbn [fst];
    rewrite launches_app; unfold launches at 2; cbn [filter is_launch];
    apply app_nil_r.
Qed.

Lemma launched_programs_launches (t : list event) :
  launched_programs t = launched_programs (launches t).
Proof.
  induction t as [| e t IH]; [reflexivity |].
  unfold launches in *. destruct e; cbn [launched_programs flat_map filter is_launch app];
    fold (launched_programs t); fold (launched_programs (filter is_launch t));
    rewrite <- ?IH; reflexivity.
Qed.

(** X5.  The subprocesses of a run are started in the order pip, trainer,
    fuse, convert script, ollama, and none of them twice. *)
Theorem subprocesses_start_in_order (a : cli_args) (w : world) :
  StronglySorted Z.lt (map program_rank (launched_programs (fst (main a w)))).
Proof.
  destruct (main_shape a w) as [[Hnil _] | (m & r & Hl & Hv & _)];
    [rewrite Hnil; constructor |].
  rewrite launched_programs_launches, (launches_main a m w r Hl Hv),
    launches_pipeline_body.
  destruct (w_mlx_installed w);
    (destruct (result (prepare r w) initial_store) as [e | p];
     [cbn; repeat constructor |]);
    destruct (remaining_iters p <=? 0); destruct (training_succeeds w p);
    try destruct (w_fuse w); try destruct (conversion_attempted w);
    cbn; repeat (constructor; try lia).
Qed.

Lemma in_launches (e : event) (t : list event) :
  is_launch e = true -> (In e t <-> In e (launches t)).
Proof.
  intros He. unfold launches. rewrite filter_In. tauto.
Qed.

(** X6.  The trainer is started exactly when the preparation went through
    and iterations remain ([total_iters - resume_from_iter > 0]); its
    command is then the one of lines 372-388, asking for the remaining
    iterations. *)
Theorem trainer_started_iff_iterations_remain
    (a m : cli_args) (w : world) (r : run_args) (cmd : list string) :
  load_config a w = inr m ->
  validate m = Some r ->
  (In (Launch Trainer cmd) (fst (main a w))
   <-> exists p,
         result (prepare r w) initial_store = inr p
         /\ 0 < total_iters p - resume_from_iter p
         /\ cmd = trainer_cmd w p (total_iters p - resume_from_iter p)).
Proof.
  intros Hl Hv.
  rewrite (in_launches (Launch Trainer cmd) _ eq_refl), (launches_main a m w r Hl Hv),
    launches_pipeline_body.
  unfold remaining_iters.
  assert (Hpip : ~ In (Launch Trainer cmd)
                     (if w_mlx_installed w then [] else [Launch Pip (pip_cmd w)])).
  { destruct (w_mlx_installed w); [intros [] | intros [H | []]; discriminate H]. }
  split.
  - intros Hin. apply in_app_or in Hin. destruct Hin as [Hin | Hin]; [contradiction |].
    destruct (result (prepare r w) initial_store) as [e | p]; [destruct Hin |].
    exists p. split; [reflexivity |].
    apply in_app_or in Hin. destruct Hin as [Hin | Hin].
    + destruct (Z.leb_spec (total_iters p - resume_from_iter p) 0) as [Hle | Hgt];
        [destruct Hin |].
      destruct Hin as [H | []]. injection H as <-. split; [exact Hgt | reflexivity].
    + exfalso. destruct (training_succeeds w p); [| destruct Hin].
      destruct Hin as [H | Hin]; [discriminate H |].
      destruct (w_fuse w); [destruct Hin |].
      apply in_app_or in Hin. destruct Hin as [Hin | [H | []]]; [| discriminate H].
      destruct (conversion_attempted w); [destruct Hin as [H | []]; discriminate H |].
      destruct Hin.
  - intros (p & Hp & Hrem & ->). rewrite Hp. apply in_or_app. right.
    apply in_or_app. left.
    destruct (Z.leb_spec (total_iters p - resume_from_iter p) 0) as [Hle | Hgt]; [lia |].
    left. reflexivity.
Qed.

Lemma trainer_started_iff_iterations_remain_witness :
  let w := sample_world 8 (trainer_lines 3) in
  In (Launch Trainer (trainer_cmd w (sample_prepared 8 3 0) 6))
     (fst (main (sample_cli 3 false) w)).
Proof.
  intros w.
  destruct (trainer_started_iff_iterations_remain (sample_cli 3 false) (sample_cli 3 false)
              w (sample_args 3 false) (trainer_cmd w (sample_prepared 8 3 0) 6)
              eq_refl eq_refl) as [_ H].
  apply H. exists (sample_prepared 8 3 0).
  split; [vm_compute; reflexivity |]. split; [vm_compute; reflexivity | reflexivity].
Defined.

(** ** Failures before training *)

Lemma main_prepare_fails (a m : cli_args) (w : world) (r : run_args) (e : exn) :
  load_config a w = inr m ->
  validate m = Some r ->
  result (prepare r w) initial_store = inl e ->
  main a w = (run (prepare r w) initial_store ++ [WriteProgress (failed_snapshot r e)],
              Exit 1).
Proof.
  intros Hl Hv He. rewrite (main_validated a m w r Hl Hv).
  pose proof (pipeline_body_ends r w initial_store) as Hends.
  pose proof (pipeline_body_trace r w initial_store) as Htrace.
  rewrite He in Hends, Htrace. rewrite Hends, Htrace, app_nil_r. reflexivity.
Qed.

(** X7.  [pip install mlx-lm] is started exactly when MLX is not installed.
    When that installation or the import of [mlx_lm] fails, the run fails
    on the spot: the failed snapshot follows the dependency check directly,
    so no checkpoint or dataset is read, no file is written and nothing
    else is started. *)
Theorem dependency_failure_stops_the_run
    (a m : cli_args) (w : world) (r : run_args) :
  load_config a w = inr m ->
  validate m = Some r ->
  (forall cmd, In (Launch Pip cmd) (fst (main a w))
               <-> w_mlx_installed w = false /\ cmd = pip_cmd w)
  /\ (forall e,
        dependency_error w = Some e ->
        main a w
        = (WriteProgress (initializing_snapshot r)
             :: (if w_mlx_installed w then []
                 else [WriteProgress (installing_snapshot r); Launch Pip (pip_cmd w)])
             ++ [WriteProgress (failed_snapshot r e)],
           Exit 1)).
Proof.
  intros Hl Hv. split.
  - intros cmd.
    rewrite (in_launches (Launch Pip cmd) _ eq_refl), (launches_main a m w r Hl Hv),
      launches_pipeline_body.
    assert (Hrest : ~ In (Launch Pip cmd)
              match result (prepare r w) initial_store with
              | inl _ => []
              | inr p =>
                  (if remaining_iters p <=? 0 then []
                   else [Launch Trainer (trainer_cmd w p (remaining_iters p))])
                  ++ (if training_succeeds w p
                      then
                        Launch Fuse (fuse_cmd w p)
                        :: match w_fuse w with
                           | Some _ => []
                           | None =>
                               (if conversion_attempted w
                                then [Launch ConvertScript (convert_cmd r w p)]
                                else [])
                               ++ [Launch Ollama (ollama_cmd r p)]
                           end
                      else [])
              end).
    { destruct (result (prepare r w) initial_store) as [e | p]; [intros [] |].
      intros Hin. apply in_app_or in Hin. destruct Hin as [Hin | Hin].
      - destruct (remaining_iters p <=? 0); [destruct Hin |].
        destruct Hin as [H | []]; discriminate H.
      - destruct (training_succeeds w p); [| destruct Hin].
        destruct Hin as [H | Hin]; [discriminate H |].
        destruct (w_fuse w); [destruct Hin |].
        apply in_app_or in Hin. destruct Hin as [Hin | [H | []]]; [| discriminate H].
        destruct (conversion_attempted w); [destruct Hin as [H | []]; discriminate H |].
        destruct Hin. }
    split.
    + intros Hin. apply in_app_or in Hin. destruct Hin as [Hin | Hin]; [| contradiction].
      destruct (w_mlx_installed w); [destruct Hin |].
      destruct Hin as [H | []]. injection H as <-. split; reflexivity.
    + intros [Hm ->]. apply in_or_app. left. rewrite Hm. left. reflexivity.
  - intros e He.
    assert (Hp : prepare r w initial_store
                 = (WriteProgress (initializing_snapshot r)
                      :: (if w_mlx_installed w then []
                          else [WriteProgress (installing_snapshot r);
                                Launch Pip (pip_cmd w)]),
                    initial_store, inl e)).
    { rewrite prepare_outcome. cbv zeta. unfold dependency_error in He.
      destruct (if w_mlx_installed w then None else w_pip_install w) as [e' |].
      - injection He as ->. reflexivity.
      - rewrite He. reflexivity. }
    rewrite (main_prepare_fails a m w r e Hl Hv); unfold result, run; rewrite Hp;
      reflexivity.
Qed.

Lemma dependency_failure_stops_the_run_witness :
  let w := World "python3" (inl (Exn OSError "no config file")) false
             (Some (Exn CalledProcessError "pip exited with status 1")) None None
             (inr (sample_dataset 4)) sample_loads None None None false
             [] 0 None None true (inr 0) true (inr 0) in
  List.length (fst (main (sample_cli 3 false) w)) = 4%nat
  /\ snd (main (sample_cli 3 false) w) = Exit 1.
Proof.
  intros w.
  destruct (dependency_failure_stops_the_run (sample_cli 3 false) (sample_cli 3 false) w
              (sample_args 3 false) eq_refl eq_refl) as [_ H].
  rewrite (H (Exn CalledProcessError "pip exited with status 1") eq_refl).
  split; reflexivity.
Defined.

(** ** Failures of the trainer and of the fusion *)

(** The run once [prepare] has returned. *)
Lemma main_prepared (a m : cli_args) (w : world) (r : run_args) (p : prepared) :
  load_config a w = inr m ->
  validate m = Some r ->
  result (prepare r w) initial_store = inr p ->
    run (pipeline_body r w) initial_store
    = (run (prepare r w) initial_store
       ++ run (direct_setup r w p) (final (prepare r w) initial_store))
      ++ run (train r w p) (Store [] (current_iter (final (prepare r w) initial_store)) 0)
      ++ (if training_succeeds w p then
            [WriteProgress
               (fusing_snapshot r p
                  (loss_history
                     (final (train r w p)
                        (Store [] (current_iter (final (prepare r w) initial_store)) 0))));
             Launch Fuse (fuse_cmd w p)]
            ++ match w_fuse w with
               | Some _ => []
               | None =>
                   let s3 := final (train r w p)
                               (Store [] (current_iter (final (prepare r w) initial_store)) 0) in
                   run (convert_gguf r w p) s3
                   ++ run (import_ollama r w p
                             (if conversion_fails w then None else Some (gguf_path r p))) s3
               end
          else [])
    /\ final (pipeline_body r w) initial_store
       = final (train r w p) (Store [] (current_iter (final (prepare r w) initial_store)) 0)
    /\ result (pipeline_body r w) initial_store
       = if training_succeeds w p then
           match w_fuse w with
           | Some e => inl e
           | None =>
               match w_ollama w with
               | inl e => inl e
               | inr _ => inr p
               end
           end
         else inl (trainer_failure (w_trainer_returncode w)).
Proof.
  intros Hl Hv Hp.
  pose proof (pipeline_body_ends r w initial_store) as Hends.
  pose proof (pipeline_body_trace r w initial_store) as Htrace.
  rewrite Hp in Hends, Htrace. cbv zeta in Hends, Htrace.
  destruct (direct_setup_outcome r w p (final (prepare r w) initial_store)) as [_ Hd].
  rewrite Hd in Hends, Htrace. destruct Hends as [Hfin Hres].
  set (s2 := Store [] (current_iter (final (prepare r w) initial_store)) 0) in *.
  rewrite train_result in Hres, Htrace.
  split; [| split].
  - rewrite Htrace, <- app_assoc. f_equal. f_equal. f_equal.
    destruct (training_succeeds w p); [| reflexivity].
    unfold run at 1. unfold result at 1. rewrite fuse_outcome. cbn [fst snd].
    cbn [app]. f_equal. f_equal.
    destruct (w_fuse w) as [e |]; [reflexivity |].
    unfold result. rewrite convert_gguf_exact. cbn [snd]. reflexivity.
  - exact Hfin.
  - rewrite Hres. destruct (training_succeeds w p); reflexivity.
Qed.

Lemma loop_start_after_setup (r : run_args) (w : world) (p : prepared) (i : Z) :
  0 < total_iters p - resume_from_iter p ->
  run (train r w p) (Store [] i 0)
  = [WriteProgress (training_started r p);
     Launch Trainer (trainer_cmd w p (total_iters p - resume_from_iter p))]
    ++ run (read_loop r p (w_trainer_output w)) (loop_start p)
  /\ final (train r w p) (Store [] i 0)
     = final (read_loop r p (w_trainer_output w)) (loop_start p).
Proof.
  intros Hrem. unfold run at 1. unfold final at 1. rewrite train_outcome. cbv zeta.
  destruct (Z.leb_spec (total_iters p - resume_from_iter p) 0) as [Hle | Hgt]; [lia |].
  split; reflexivity.
Qed.

(** X8.  When the trainer exits with a non-zero status, the run fails with
    [Training failed with exit code N], but only after the whole of the
    trainer's output has been processed: the snapshots and checkpoints of
    the read loop are written first, and then nothing is fused, converted
    or imported. *)
Theorem trainer_failure_fails_the_run
    (a m : cli_args) (w : world) (r : run_args) (p : prepared) :
  load_config a w = inr m ->
  validate m = Some r ->
  result (prepare r w) initial_store = inr p ->
  0 < total_iters p - resume_from_iter p ->
  w_trainer_returncode w <> 0 ->
  let failure := failed_snapshot r (trainer_failure (w_trainer_returncode w)) in
  (exists before,
      main a w
      = (before
         ++ Launch Trainer (trainer_cmd w p (total_iters p - resume_from_iter p))
            :: run (read_loop r p (w_trainer_output w)) (loop_start p)
         ++ [WriteProgress failure],
         Exit 1))
  /\ sn_message failure
     = ("Training failed: Training failed with exit code "
        ++ str_of_int (w_trainer_returncode w))%string.
Proof.
  intros Hl Hv Hp Hrem Hrc failure. split; [| reflexivity].
  destruct (main_prepared a m w r p Hl Hv Hp) as (Htrace & _ & Hres).
  set (before := run (prepare r w) initial_store
                 ++ run (direct_setup r w p) (final (prepare r w) initial_store)) in *.
  assert (Hfail : training_succeeds w p = false).
  { unfold training_succeeds, remaining_iters.
    destruct (Z.leb_spec (total_iters p - resume_from_iter p) 0) as [Hle | Hgt]; [lia |].
    destruct (Z.eqb_spec (w_trainer_returncode w) 0) as [H0 | Hn]; [contradiction |].
    reflexivity. }
  rewrite Hfail in Htrace, Hres.
  destruct (loop_start_after_setup r w p
              (current_iter (final (prepare r w) initial_store)) Hrem) as [Hrun _].
  rewrite Hrun, app_nil_r in Htrace.
  rewrite (main_validated a m w r Hl Hv), Hres, Htrace.
  exists (before ++ [WriteProgress (training_started r p)]).
  rewrite <- !app_assoc. reflexivity.
Qed.

Lemma trainer_failure_fails_the_run_witness :
  let w := with_trainer_returncode (sample_world 8 (trainer_lines 3)) 1 in
  exists before,
    main (sample_cli 3 false) w
    = (before
       ++ Launch Trainer (trainer_cmd w (sample_prepared 8 3 0) 6)
          :: run (read_loop (sample_args 3 false) (sample_prepared 8 3 0) (trainer_lines 3))
               (loop_start (sample_prepared 8 3 0))
       ++ [WriteProgress (failed_snapshot (sample_args 3 false) (trainer_failure 1))],
       Exit 1).
Proof.
  intros w.
  destruct (trainer_failure_fails_the_run (sample_cli 3 false) (sample_cli 3 false) w
              (sample_args 3 false) (sample_prepared 8 3 0)) as [H _].
  - reflexivity.
  - reflexivity.
  - vm_compute. reflexivity.
  - vm_compute. reflexivity.
  - vm_compute. discriminate.
  - exact H.
Defined.

(** X9.  A failure of the fuse command ends the run: the failed snapshot
    follows the launch directly, so the model is neither converted nor
    imported. *)
Theorem fuse_failure_fails_the_run
    (a m : cli_args) (w : world) (r : run_args) (p : prepared) (e : exn) :
  load_config a w = inr m ->
  validate m = Some r ->
  result (prepare r w) initial_store = inr p ->
  training_succeeds w p = true ->
  w_fuse w = Some e ->
  exists before h,
    main a w
    = (before
       ++ [ WriteProgress (fusing_snapshot r p h);
            Launch Fuse (fuse_cmd w p);
            WriteProgress (failed_snapshot r e) ],
       Exit 1).
Proof.
  intros Hl Hv Hp Hok Hfuse.
  destruct (main_prepared a m w r p Hl Hv Hp) as (Htrace & _ & Hres).
  set (before := run (prepare r w) initial_store
                 ++ run (direct_setup r w p) (final (prepare r w) initial_store)) in *.
  rewrite Hok, Hfuse in Htrace, Hres.
  rewrite (main_validated a m w r Hl Hv), Hres, Htrace.
  set (s2 := Store [] (current_iter (final (prepare r w) initial_store)) 0).
  exists (before ++ run (train r w p) s2), (loss_history (final (train r w p) s2)).
  rewrite app_nil_r, <- !app_assoc. reflexivity.
Qed.

Lemma fuse_failure_fails_the_run_witness :
  let w := World "python3" (inl (Exn OSError "no config file")) true None None None
             (inr (sample_dataset 4)) sample_loads None None None false
             (trainer_lines 3) 0 (Some (Exn CalledProcessError "fuse exited with status 1"))
             None true (inr 0) true (inr 0) in
  snd (main (sample_cli 3 false) w) = Exit 1
  /\ launched_programs (fst (main (sample_cli 3 false) w)) = [Trainer; Fuse].
Proof.
  intros w.
  destruct (fuse_failure_fails_the_run (sample_cli 3 false) (sample_cli 3 false) w
              (sample_args 3 false) (sample_prepared 4 3 0)
              (Exn CalledProcessError "fuse exited with status 1"))
    as (before & h & H).
  - reflexivity.
  - reflexivity.
  - vm_compute. reflexivity.
  - vm_compute. reflexivity.
  - reflexivity.
  - split; [rewrite H; reflexivity | vm_compute; reflexivity].
Defined.

(** ** The import *)

(** X10.  Once the model is fused, the exit status of [ollama create] does
    not matter: whatever it is, the run ends [Completed] with status 0.
    Only when [ollama] cannot be run at all does the run fail. *)
Theorem ollama_exit_status_is_ignored
    (a m : cli_args) (w : world) (r : run_args) (p : prepared) :
  load_config a w = inr m ->
  validate m = Some r ->
  result (prepare r w) initial_store = inr p ->
  training_succeeds w p = true ->
  w_fuse w = None ->
  (forall rc, w_ollama w = inr rc ->
     exists before h,
       main a w
       = (before ++ [Launch Ollama (ollama_cmd r p);
                     WriteProgress (completed_snapshot r p h)], Exit 0))
  /\ (forall e, w_ollama w = inl e ->
        exists before,
          main a w
          = (before ++ [Launch Ollama (ollama_cmd r p);
                        WriteProgress (failed_snapshot r e)], Exit 1)).
Proof.
  intros Hl Hv Hp Hok Hfuse.
  destruct (main_prepared a m w r p Hl Hv Hp) as (Htrace & Hfin & Hres).
  rewrite Hok, Hfuse in Htrace, Hres. cbv zeta in Htrace.
  set (s2 := Store [] (current_iter (final (prepare r w) initial_store)) 0) in *.
  set (s3 := final (train r w p) s2) in *.
  set (g := if conversion_fails w then None else Some (gguf_path r p)) in *.
  set (source := modelfile_content
                   match g with
                   | Some path => if str_truthy path && w_gguf_exists w then path
                                  else path_join (output_path p) "fused"
                   | None => path_join (output_path p) "fused"
                   end).
  assert (Hi : run (import_ollama r w p g) s3
               = [WriteProgress (importing_snapshot r p (loss_history s3));
                  WriteModelfile source; Launch Ollama (ollama_cmd r p)])
    by (unfold run; rewrite import_ollama_outcome; reflexivity).
  rewrite Hi in Htrace.
  set (upto := (run (prepare r w) initial_store
                ++ run (direct_setup r w p) (final (prepare r w) initial_store))
               ++ run (train r w p) s2
               ++ [WriteProgress (fusing_snapshot r p (loss_history s3));
                   Launch Fuse (fuse_cmd w p)]
               ++ run (convert_gguf r w p) s3
               ++ [WriteProgress (importing_snapshot r p (loss_history s3));
                   WriteModelfile source]).
  assert (Hrun : run (pipeline_body r w) initial_store
                 = upto ++ [Launch Ollama (ollama_cmd r p)]).
  { rewrite Htrace. unfold upto. rewrite <- !app_assoc. reflexivity. }
  rewrite (main_validated a m w r Hl Hv), Hres, Hrun.
  split.
  - intros rc Hrc. rewrite Hrc. exists upto. eexists. rewrite <- app_assoc. reflexivity.
  - intros e He. rewrite He. exists upto. rewrite <- app_assoc. reflexivity.
Qed.

Lemma ollama_exit_status_is_ignored_witness :
  let w := World "python3" (inl (Exn OSError "no config file")) true None None None
             (inr (sample_dataset 4)) sample_loads None None None false
             (trainer_lines 3) 0 None None true (inr 0) true (inr 1) in
  snd (main (sample_cli 3 false) w) = Exit 0.
Proof.
  intros w.
  destruct (ollama_exit_status_is_ignored (sample_cli 3 false) (sample_cli 3 false) w
              (sample_args 3 false) (sample_prepared 4 3 0)) as [H _].
  - reflexivity.
  - reflexivity.
  - vm_compute. reflexivity.
  - vm_compute. reflexivity.
  - reflexivity.
  - destruct (H 1 eq_refl) as (before & h & Hmain). rewrite Hmain. reflexivity.
Defined.

Lemma modelfiles_app (t1 t2 : list event) :
  modelfiles (t1 ++ t2) = modelfiles t1 ++ modelfiles t2.
Proof. apply flat_map_app. Qed.

Lemma modelfiles_none (t : list event) :
  Forall (fun e => is_modelfile e = false) t -> modelfiles t = [].
Proof.
  induction 1 as [| e t He _ IH]; [reflexivity |].
  unfold modelfiles in *. cbn [flat_map]. rewrite IH.
  destruct e; [reflexivity | reflexivity | reflexivity | discriminate He | reflexivity].
Qed.

(** What the phases before the conversion emit: snapshots, the dataset,
    launches, and the checkpoints of the read loop. *)
Lemma emits_before_fuse (phi : event -> Prop) (r : run_args) (w : world) :
  (forall sn, phi (WriteProgress sn)) ->
  (forall c, phi (SaveCheckpoint c)) ->
  (forall tr va, phi (WriteDataset tr va)) ->
  (forall pr cmd, phi (Launch pr cmd)) ->
  emits phi (prepare r w) (fun _ => True)
  /\ (forall p, emits phi (direct_setup r w p) (fun _ => True))
  /\ (forall p, emits phi (train r w p) (fun _ => True)).
Proof.
  intros Hsn Hck Hds Hl. split; [| split].
  - unfold prepare.
    emits_step; [apply Hsn |].
    eapply emits_bind with (R := fun _ => True).
    { destruct (w_mlx_installed w); repeat emits_step; auto. }
    intros _ _. emits_step. emits_step; [apply Hsn |]. emits_step; [apply Hsn |].
    eapply emits_bind with (R := fun _ => True).
    { intros s. unfold run, result. rewrite check_resume_outcome. cbv zeta.
      destruct (resume r); [| split; [constructor | auto]].
      destruct (w_checkpoint w) as [[e | c] |]; try (split; [constructor | auto]).
      destruct (checkpoint_truthy c); [| split; [constructor | auto]].
      split; [| auto]. apply Forall_cons; [apply Hsn | apply Forall_nil]. }
    intros i _.
    eapply emits_bind with (R := fun _ => True).
    { unfold convert_jsonl_to_mlx_format. repeat emits_step; auto. }
    intros ds _. emits_step; [apply Hsn |]. apply emits_ret. exact I.
  - intros p. unfold direct_setup. repeat emits_step; auto.
  - intros p s. unfold run, result. rewrite train_outcome. cbv zeta.
    destruct (total_iters p - resume_from_iter p <=? 0); cbn [fst snd].
    + split; [| auto]. apply Forall_cons; [apply Hsn | apply Forall_nil].
    + split; [| auto].
      apply Forall_cons; [apply Hsn |]. apply Forall_cons; [apply Hl |].
      assert (H : emits phi (read_loop r p (w_trainer_output w)) (fun _ => True)).
      { apply emits_read_loop. intros line [[[cur x] ep] k] h0 _ _.
        apply Forall_record_events; [apply Hsn | apply Hck]. }
      apply H.
Qed.

(** The [str] of a path is never empty. *)
Lemma path_parts_nonempty (s : string) :
  Forall (fun c => c <> EmptyString) (path_parts s).
Proof.
  apply Forall_forall. intros c Hc. unfold path_parts in Hc.
  apply filter_In in Hc. destruct Hc as [_ Hc]. intros ->. discriminate Hc.
Qed.

Lemma path_str_truthy (root : string) (parts : list string) :
  Forall (fun c => c <> EmptyString) parts -> str_truthy (path_str root parts) = true.
Proof.
  intros Hparts. unfold path_str.
  destruct root as [| c root]; [| reflexivity].
  destruct Hparts as [| x l Hx _]; [reflexivity |].
  destruct x as [| c x]; [contradiction |].
  destruct l; reflexivity.
Qed.

Lemma path_join_truthy (a b : string) : str_truthy (path_join a b) = true.
Proof.
  unfold path_join. destruct (prefix "/" b); apply path_str_truthy.
  - apply path_parts_nonempty.
  - apply Forall_app. split; apply path_parts_nonempty.
Qed.

Lemma gguf_path_truthy (r : run_args) (p : prepared) : str_truthy (gguf_path r p) = true.
Proof. apply path_join_truthy. Qed.

(** X11.  A run that gets to the import writes one Modelfile.  Its [FROM]
    line names the GGUF file only when the conversion produced it (the
    script ran and exited with status 0) and the file is there; in every
    other case it names the fused model. *)
Theorem modelfile_names_gguf_only_when_converted
    (a m : cli_args) (w : world) (r : run_args) (p : prepared) :
  load_config a w = inr m ->
  validate m = Some r ->
  result (prepare r w) initial_store = inr p ->
  training_succeeds w p = true ->
  w_fuse w = None ->
  modelfiles (fst (main a w))
  = [modelfile_content
       (if negb (conversion_fails w) && w_gguf_exists w then gguf_path r p
        else fused_path p)].
Proof.
  intros Hl Hv Hp Hok Hfuse.
  destruct (main_prepared a m w r p Hl Hv Hp) as (Htrace & _ & _).
  rewrite Hok, Hfuse in Htrace. cbv zeta in Htrace.
  set (s2 := Store [] (current_iter (final (prepare r w) initial_store)) 0) in *.
  set (s3 := final (train r w p) s2) in *.
  destruct (emits_before_fuse (fun e => is_modelfile e = false) r w)
    as (Hprep & Hdirect & Htrain); try (intros; reflexivity).
  assert (Hmain : modelfiles (fst (main a w))
                  = modelfiles (run (pipeline_body r w) initial_store)).
  { rewrite (main_validated a m w r Hl Hv).
    destruct (result (pipeline_body r w) initial_store); cbn [fst];
      rewrite modelfiles_app; apply app_nil_r. }
  rewrite Hmain, Htrace, !modelfiles_app.
  rewrite (modelfiles_none _ (proj1 (Hprep initial_store))).
  rewrite (modelfiles_none _ (proj1 (Hdirect p (final (prepare r w) initial_store)))).
  rewrite (modelfiles_none _ (proj1 (Htrain p s2))).
  unfold run. rewrite convert_gguf_exact, import_ollama_outcome. cbn [fst app].
  assert (Hc : modelfiles
                 (WriteProgress (converting_snapshot r p (loss_history s3))
                    :: (if conversion_attempted w
                        then [Launch ConvertScript (convert_cmd r w p)] else [])) = [])
    by (destruct (conversion_attempted w); reflexivity).
  rewrite Hc. cbn [modelfiles flat_map app]. f_equal. f_equal.
  unfold fused_path.
  destruct (conversion_fails w); [reflexivity |].
  rewrite gguf_path_truthy. reflexivity.
Qed.

Lemma modelfile_names_gguf_only_when_converted_witness :
  let w := sample_world 4 (trainer_lines 3) in
  modelfiles (fst (main (sample_cli 3 false) w))
  = [modelfile_content "models/luddo-v2/luddo-v2.gguf"].
Proof.
  intros w.
  rewrite (modelfile_names_gguf_only_when_converted (sample_cli 3 false) (sample_cli 3 false)
             w (sample_args 3 false) (sample_prepared 4 3 0)).
  - reflexivity.
  - reflexivity.
  - reflexivity.
  - vm_compute. reflexivity.
  - vm_compute. reflexivity.
  - reflexivity.
Defined.

(** ** The checkpoint file *)

Lemma with_checkpoint_self (w : world) : with_checkpoint w (w_checkpoint w) = w.
Proof. destruct w; reflexivity. Qed.

(** Only [check_resume] reads the checkpoint file. *)
Lemma main_with_checkpoint (a : cli_args) (w : world)
    (c1 c2 : option (exn + checkpoint_json)) :
  (forall m r, load_config a w = inr m -> validate m = Some r ->
               forall s, check_resume r (with_checkpoint w c1) s
                         = check_resume r (with_checkpoint w c2) s) ->
  main a (with_checkpoint w c1) = main a (with_checkpoint w c2).
Proof.
  intros H. unfold main.
  change (load_config a (with_checkpoint w c1)) with (load_config a w).
  change (load_config a (with_checkpoint w c2)) with (load_config a w).
  destruct (load_config a w) as [e | m] eqn:Hl; [reflexivity |].
  destruct (validate m) as [r |] eqn:Hv; [| reflexivity].
  assert (Hprep : forall s, prepare r (with_checkpoint w c1) s
                            = prepare r (with_checkpoint w c2) s).
  { intros s. rewrite !prepare_outcome. cbv zeta.
    change (w_mlx_installed (with_checkpoint w c1)) with (w_mlx_installed w).
    change (w_mlx_installed (with_checkpoint w c2)) with (w_mlx_installed w).
    change (w_pip_install (with_checkpoint w c1)) with (w_pip_install w).
    change (w_pip_install (with_checkpoint w c2)) with (w_pip_install w).
    change (w_import_mlx (with_checkpoint w c1)) with (w_import_mlx w).
    change (w_import_mlx (with_checkpoint w c2)) with (w_import_mlx w).
    change (pip_cmd (with_checkpoint w c1)) with (pip_cmd w).
    change (pip_cmd (with_checkpoint w c2)) with (pip_cmd w).
    change (convert_jsonl_to_mlx_format (with_checkpoint w c1))
      with (convert_jsonl_to_mlx_format w).
    change (convert_jsonl_to_mlx_format (with_checkpoint w c2))
      with (convert_jsonl_to_mlx_format w).
    rewrite (H m r eq_refl Hv s). reflexivity. }
  assert (Hbody : pipeline_body r (with_checkpoint w c1) initial_store
                  = pipeline_body r (with_checkpoint w c2) initial_store).
  { rewrite !pipeline_body_regrouped.
    change (after_prepare r (with_checkpoint w c1)) with (after_prepare r w).
    change (after_prepare r (with_checkpoint w c2)) with (after_prepare r w).
    unfold bind. rewrite Hprep. reflexivity. }
  rewrite !pipeline_shape. unfold run, result, final. rewrite Hbody. reflexivity.
Qed.

(** X12.  Without [--resume] the checkpoint file is not read: the run is
    the same whatever the file holds, or whether it exists at all. *)
Theorem checkpoint_is_not_read_without_resume
    (a m : cli_args) (w : world) (r : run_args) (c : option (exn + checkpoint_json)) :
  load_config a w = inr m ->
  validate m = Some r ->
  resume r = false ->
  main a (with_checkpoint w c) = main a w.
Proof.
  intros Hl Hv Hres.
  rewrite <- (with_checkpoint_self w) at 2.
  apply main_with_checkpoint. intros m' r' Hl' Hv' s.
  assert (Hr : r' = r) by congruence. subst r'.
  rewrite !check_resume_outcome. rewrite Hres. reflexivity.
Qed.

Lemma checkpoint_is_not_read_without_resume_witness :
  main (sample_cli 3 false)
    (with_checkpoint (sample_world 4 (trainer_lines 3))
       (Some (inl (Exn JSONDecodeError "Expecting value"))))
  = main (sample_cli 3 false) (sample_world 4 (trainer_lines 3)).
Proof.
  apply (checkpoint_is_not_read_without_resume (sample_cli 3 false) (sample_cli 3 false)
           (sample_world 4 (trainer_lines 3)) (sample_args 3 false));
    reflexivity.
Defined.

(** X13.  A checkpoint file holding the empty JSON object counts as no
    checkpoint: the run is the one of a missing file, [--resume] or not. *)
Theorem empty_checkpoint_counts_as_none (a : cli_args) (w : world) :
  main a (with_checkpoint w (Some (inr empty_checkpoint)))
  = main a (with_checkpoint w None).
Proof.
  apply main_with_checkpoint. intros m r _ _ s.
  rewrite !check_resume_outcome. reflexivity.
Qed.

(** X14.  With [--resume], a checkpoint file that cannot be read or decoded
    is fatal: the run fails with that exception right after the
    [preparing_data] snapshot, before the dataset is touched. *)
Theorem unreadable_checkpoint_fails_the_run
    (a m : cli_args) (w : world) (r : run_args) (e : exn) :
  load_config a w = inr m ->
  validate m = Some r ->
  resume r = true ->
  w_checkpoint w = Some (inl e) ->
  dependency_error w = None ->
  main a w
  = (WriteProgress (initializing_snapshot r)
       :: (if w_mlx_installed w then []
           else [WriteProgress (installing_snapshot r); Launch Pip (pip_cmd w)])
       ++ [ WriteProgress (setting_up_snapshot r);
            WriteProgress (preparing_snapshot r);
            WriteProgress (failed_snapshot r e) ],
     Exit 1).
Proof.
  intros Hl Hv Hres Hck Hdep.
  assert (Hp : prepare r w initial_store
               = (WriteProgress (initializing_snapshot r)
                    :: (if w_mlx_installed w then []
                        else [WriteProgress (installing_snapshot r);
                              Launch Pip (pip_cmd w)])
                    ++ [ WriteProgress (setting_up_snapshot r);
                         WriteProgress (preparing_snapshot r) ],
                  initial_store, inl e)).
  { rewrite prepare_outcome. cbv zeta. unfold dependency_error in Hdep.
    destruct (if w_mlx_installed w then None else w_pip_install w) as [e' |];
      [discriminate Hdep |].
    rewrite Hdep, check_resume_outcome, Hres, Hck. cbv zeta.
    cbn [app]. rewrite app_nil_r. reflexivity. }
  rewrite (main_prepare_fails a m w r e Hl Hv); unfold result, run; rewrite Hp;
    [| reflexivity].
  cbn [fst app]. rewrite <- app_assoc. reflexivity.
Qed.

Lemma unreadable_checkpoint_fails_the_run_witness :
  let w := with_checkpoint (sample_world 4 (trainer_lines 3))
             (Some (inl (Exn JSONDecodeError "Expecting value"))) in
  List.length (fst (main (sample_cli 3 true) w)) = 4%nat
  /\ snd (main (sample_cli 3 true) w) = Exit 1.
Proof.
  intros w.
  rewrite (unreadable_checkpoint_fails_the_run (sample_cli 3 true) (sample_cli 3 true) w
             (sample_args 3 true) (Exn JSONDecodeError "Expecting value")
             eq_refl eq_refl eq_refl eq_refl eq_refl).
  split; reflexivity.
Defined.

Lemma reported_in (line : string) (lines : list string) (rel : Z) :
  In line lines -> reported_iteration line = Some rel ->
  In rel (reported_iterations lines).
Proof.
  intros Hin Hrep. unfold reported_iterations. apply in_flat_map.
  exists line. split; [exact Hin | rewrite Hrep; left; reflexivity].
Qed.

(** X15.  Resuming from the file a checkpoint was saved to: the run starts
    from the saved iteration, announces it in a [Resuming] snapshot that
    carries the saved epoch, loss and the last 50 saved entries, and counts
    on from there: every step it records is the saved iteration plus an
    iteration number the trainer reported. *)
Theorem resume_continues_from_checkpoint
    (a m : cli_args) (w : world) (r : run_args) (c : checkpoint) (p : prepared) :
  load_config a w = inr m ->
  validate m = Some r ->
  resume r = true ->
  w_checkpoint w = Some (inr (stored_checkpoint c)) ->
  result (prepare r w) initial_store = inr p ->
  let announced := resuming_snapshot r (stored_checkpoint c) (ck_loss_history c) in
  resume_from_iter p = ck_last_iter c
  /\ In (WriteProgress announced) (fst (main a w))
  /\ sn_epoch announced = ck_epoch c
  /\ sn_loss announced = Some (ck_last_loss c)
  /\ sn_loss_history announced = Some (last_n 50 (ck_loss_history c))
  /\ sn_message announced
     = ("Resuming training from iteration " ++ str_of_int (ck_last_iter c) ++ "...")%string
  /\ (forall sn i,
        In (WriteProgress sn) (fst (main a w)) -> sn_step sn = Some i ->
        exists rel, In rel (reported_iterations (w_trainer_output w))
                    /\ i = ck_last_iter c + rel).
Proof.
  intros Hl Hv Hres Hck Hp announced.
  assert (Hoff : resume_offset r w = ck_last_iter c).
  { unfold resume_offset. rewrite Hres, Hck. reflexivity. }
  destruct (prepare_static r w initial_store) as [_ Hpost].
  destruct (Hpost p Hp) as (_ & _ & _ & _ & Hfrom).
  split; [congruence |].
  split.
  { rewrite (main_validated a m w r Hl Hv).
    assert (Hin : In (WriteProgress announced) (run (pipeline_body r w) initial_store)).
    { rewrite pipeline_body_trace. apply in_or_app. left.
      unfold run. rewrite prepare_outcome. cbv zeta.
      unfold result in Hp. rewrite prepare_outcome in Hp. cbv zeta in Hp.
      destruct (if w_mlx_installed w then None else w_pip_install w);
        [discriminate Hp |].
      destruct (w_import_mlx w); [discriminate Hp |].
      rewrite check_resume_outcome, Hres, Hck in *. cbv zeta in *.
      change (checkpoint_truthy (stored_checkpoint c)) with true in *.
      cbv iota in *.
      change (dict_get (cj_loss_history (stored_checkpoint c)) [])
        with (ck_loss_history c) in *.
      fold announced in Hp |- *.
      destruct (convert_jsonl_to_mlx_format w
                  (Store (ck_loss_history c) (current_iter initial_store)
                     (current_epoch initial_store))) as [[t2 s2] [e | ds]];
        cbn [fst]; apply in_or_app; right; left; reflexivity. }
    destruct (result (pipeline_body r w) initial_store); cbn [fst];
      apply in_or_app; left; exact Hin. }
  split; [reflexivity |]. split; [reflexivity |]. split; [reflexivity |].
  split; [reflexivity |].
  intros sn i Hin Hstep.
  set (phi := fun e : event =>
    forall sn0 i0, e = WriteProgress sn0 -> sn_step sn0 = Some i0 ->
    exists rel, In rel (reported_iterations (w_trainer_output w))
                /\ i0 = ck_last_iter c + rel).
  assert (Hstatic : forall e, static_event r e -> phi e).
  { intros e He sn0 i0 -> Hs. destruct He as [Hnone _]. congruence. }
  assert (Hbody : emits phi (pipeline_body r w) (prepare_post r w)).
  { apply emits_pipeline_body; [exact Hstatic |].
    intros p' (_ & _ & _ & _ & Hfrom'). apply emits_train; [exact Hstatic |].
    intros _. split; [intros sn0 i0 H; discriminate H |].
    intros line [[[cur x] ep] k] h0 Hline Hrec.
    destruct (line_record_reported r p' line cur x ep k Hrec) as (rel & Hrep & -> & _).
    apply Forall_record_events; intros sn0 i0 H Hs; [| discriminate H].
    apply WriteProgress_inj in H. subst sn0. cbn [sn_step training_snapshot] in Hs.
    injection Hs as <-. exists rel.
    split; [exact (reported_in line _ rel Hline Hrep) | congruence]. }
  destruct (Hbody initial_store) as [Hall _]. rewrite Forall_forall in Hall.
  rewrite (main_validated a m w r Hl Hv) in Hin.
  destruct (result (pipeline_body r w) initial_store) as [e | p'']; cbn [fst] in Hin;
    apply in_app_or in Hin; destruct Hin as [Hin | [Hin | []]];
    try exact (Hall _ Hin sn i eq_refl Hstep);
    apply WriteProgress_inj in Hin; subst sn; discriminate Hstep.
Qed.

Lemma resume_continues_from_checkpoint_witness :
  let c := Checkpoint 100 (Fin (1 # 4)) 2 [LossEntry 100 (Fin (1 # 4)) 2] 300 400 in
  let w := with_checkpoint (sample_world 4 [trainer_line 1 "0.200"])
             (Some (inr (stored_checkpoint c))) in
  map sn_step (filter (fun sn => match sn_step sn with Some _ => true | None => false end)
                 (snapshots (fst (main (sample_cli 300 true) w))))
  = [Some 101]
  /\ exists rel, In rel (reported_iterations (w_trainer_output w)) /\ 101 = 100 + rel.
Proof.
  intros c w.
  assert (Hsteps : map sn_step
                     (filter (fun sn => match sn_step sn with Some _ => true | None => false end)
                        (snapshots (fst (main (sample_cli 300 true) w)))) = [Some 101])
    by (vm_compute; reflexivity).
  split; [exact Hsteps |].
  assert (Hsn : exists sn, nth_error (fst (main (sample_cli 300 true) w)) 10
                           = Some (WriteProgress sn) /\ sn_step sn = Some 101).
  { eexists. split; vm_compute; reflexivity. }
  destruct Hsn as (sn & Hn & Hs).
  destruct (resume_continues_from_checkpoint (sample_cli 300 true) (sample_cli 300 true) w
              (sample_args 300 true) c (sample_prepared 4 300 100))
    as (_ & _ & _ & _ & _ & _ & H).
  - reflexivity.
  - reflexivity.
  - reflexivity.
  - reflexivity.
  - vm_compute. reflexivity.
  - exact (H sn 101 (nth_error_In _ _ Hn) Hs).
Defined.

(** ** The dataset transformer at its edges *)

Lemma read_examples_first_failure (loads : string -> exn + record_json)
    (good : list string) (bad : string) (rest : list string) (e : exn) :
  (forall line, In line good -> non_blank line = true -> exists d, loads line = inr d) ->
  non_blank bad = true ->
  loads bad = inl e ->
  read_examples loads (good ++ bad :: rest) = inl e.
Proof.
  intros Hgood Hnb Hbad. induction good as [| line good IH]; cbn [app read_examples].
  - rewrite Hnb, Hbad. reflexivity.
  - assert (IH' : read_examples loads (good ++ bad :: rest) = inl e)
      by (apply IH; intros l Hl; apply Hgood; right; exact Hl).
    destruct (non_blank line) eqn:Hline; [| exact IH'].
    destruct (Hgood line (or_introl eq_refl) Hline) as [d ->].
    rewrite IH'. reflexivity.
Qed.

(** X16.  The first dataset line [json.loads] rejects fails the conversion
    with that error, and nothing is written: neither partition file gets
    the examples read before it. *)
Theorem undecodable_line_fails_the_conversion
    (w : world) (good : list string) (bad : string) (rest : list string)
    (e : exn) (s : store) :
  w_dataset w = inr (good ++ bad :: rest) ->
  (forall line, In line good -> non_blank line = true ->
                exists d, w_json_loads w line = inr d) ->
  non_blank bad = true ->
  w_json_loads w bad = inl e ->
  convert_jsonl_to_mlx_format w s = ([], s, inl e).
Proof.
  intros Hds Hgood Hnb Hbad.
  rewrite convert_jsonl_outcome, Hds.
  rewrite (read_examples_first_failure _ good bad rest e Hgood Hnb Hbad). reflexivity.
Qed.

Lemma undecodable_line_fails_the_conversion_witness :
  let loads := fun line : string =>
                 if String.eqb line "not json" then inl (Exn JSONDecodeError "Expecting value")
                 else sample_loads line in
  let w := World "python3" (inl (Exn OSError "no config file")) true None None None
             (inr [sample_line 1; nl; "not json"; sample_line 2]) loads
             None None None false [] 0 None None true (inr 0) true (inr 0) in
  convert_jsonl_to_mlx_format w initial_store
  = ([], initial_store, inl (Exn JSONDecodeError "Expecting value")).
Proof.
  intros loads w.
  apply (undecodable_line_fails_the_conversion w [sample_line 1; nl] "not json"
           [sample_line 2]).
  - reflexivity.
  - intros line [<- | [<- | []]] _; eexists; reflexivity.
  - reflexivity.
  - reflexivity.
Defined.

Lemma read_examples_blank (loads : string -> exn + record_json) (lines : list string) :
  Forall (fun line => non_blank line = false) lines ->
  read_examples loads lines = inr [].
Proof.
  induction 1 as [| line lines Hline _ IH]; [reflexivity |].
  cbn [read_examples]. rewrite Hline. exact IH.
Qed.

(** X17.  A dataset without a non-blank line is no error: both partition
    files are written empty and the size returned is 0, from which [main]
    derives one iteration per epoch. *)
Theorem blank_dataset_gives_empty_partitions (w : world) (lines : list string) (s : store) :
  w_dataset w = inr lines ->
  Forall (fun line => non_blank line = false) lines ->
  convert_jsonl_to_mlx_format w s = ([WriteDataset [] []], s, inr 0)
  /\ forall r resume_iter,
       iters_per_epoch (prepared_for r resume_iter 0) = 1
       /\ total_iters (prepared_for r resume_iter 0) = epochs r.
Proof.
  intros Hds Hblank. split.
  - rewrite convert_jsonl_outcome, Hds, (read_examples_blank _ lines Hblank).
    cbv zeta. cbn [List.length Z.of_nat].
    assert (Hk : split_index 0 = inr 1) by (vm_compute; reflexivity).
    rewrite Hk. reflexivity.
  - intros r resume_iter. unfold prepared_for. cbn [iters_per_epoch total_iters].
    change (Z.max 1 (0 / 4)) with 1. split; [reflexivity | lia].
Qed.

Lemma blank_dataset_gives_empty_partitions_witness :
  let w := World "python3" (inl (Exn OSError "no config file")) true None None None
             (inr [nl; "   "; nl]) sample_loads
             None None None false [] 0 None None true (inr 0) true (inr 0) in
  convert_jsonl_to_mlx_format w initial_store = ([WriteDataset [] []], initial_store, inr 0).
Proof.
  intros w.
  destruct (blank_dataset_gives_empty_partitions w [nl; "   "; nl] initial_store) as [H _].
  - reflexivity.
  - repeat (apply Forall_cons; [reflexivity |]). apply Forall_nil.
  - exact H.
Defined.

(** X18.  For a dataset of two examples or more (and fewer than [2^49])
    the two partitions, one after the other, are the examples in their
    order: none is lost and none is in both.  For a single example the
    validation partition is the training partition. *)
Theorem split_keeps_every_example
    (w : world) (lines : list string) (examples : list example) (s : store) :
  w_dataset w = inr lines ->
  read_examples (w_json_loads w) lines = inr examples ->
  let N := Z.of_nat (List.length examples) in
  1 <= N < 2 ^ 49 ->
  exists train valid,
    convert_jsonl_to_mlx_format w s = ([WriteDataset train valid], s, inr N)
    /\ (2 <= N -> train ++ valid = examples)
    /\ (N = 1 -> train = examples /\ valid = examples).
Proof.
  intros Hds Hre N HN.
  rewrite convert_jsonl_outcome, Hds, Hre. cbv zeta. fold N.
  rewrite (split_index_correct N ltac:(lia)).
  assert (Hk : 1 <= Z.max 1 (9 * N / 10) <= N).
  { pose proof (Z.div_le_upper_bound (9 * N) 10 N ltac:(lia) ltac:(lia)). lia. }
  eexists. eexists. split; [reflexivity |]. split.
  - intros H2.
    assert (Hlt : Z.max 1 (9 * N / 10) < N).
    { pose proof (Z.div_lt_upper_bound (9 * N) 10 N ltac:(lia) ltac:(lia)). lia. }
    destruct (Z.ltb_spec (Z.max 1 (9 * N / 10)) N) as [_ | Hge]; [| lia].
    apply firstn_skipn.
  - intros H1. rewrite H1. change (Z.max 1 (9 * 1 / 10)) with 1.
    change (1 <? 1) with false. cbv iota.
    destruct examples as [| x [| y rest]]; cbn [List.length] in N; try (unfold N in H1; lia).
    split; reflexivity.
Qed.

Lemma split_keeps_every_example_witness :
  exists train valid,
    convert_jsonl_to_mlx_format (sample_world 1 []) initial_store
    = ([WriteDataset train valid], initial_store, inr 1)
    /\ train = valid.
Proof.
  assert (Hre : exists examples,
             read_examples sample_loads (sample_dataset 1) = inr examples
             /\ List.length examples = 1%nat).
  { eexists. split; vm_compute; reflexivity. }
  destruct Hre as (examples & Hre & Hlen).
  destruct (split_keeps_every_example (sample_world 1 []) (sample_dataset 1) examples
              initial_store eq_refl Hre) as (train & valid & Hc & _ & H1).
  - rewrite Hlen. split; [lia | reflexivity].
  - rewrite Hlen in Hc, H1. exists train, valid. split; [exact Hc |].
    destruct (H1 eq_refl) as [-> ->]. reflexivity.
Defined.

Lemma concat_empty_cons (x : string) (l : list string) :
  String.concat EmptyString (x :: l) = (x ++ String.concat EmptyString l)%string.
Proof.
  destruct l as [| y l]; cbn [String.concat].
  - induction x as [| c x IH]; [reflexivity |]. cbn [append]. rewrite <- IH. reflexivity.
  - reflexivity.
Qed.

Lemma concat_empty_app (l1 l2 : list string) :
  String.concat EmptyString (l1 ++ l2)
  = (String.concat EmptyString l1 ++ String.concat EmptyString l2)%string.
Proof.
  induction l1 as [| x l1 IH]; [reflexivity |].
  cbn [app]. rewrite !concat_empty_cons, IH.
  induction x as [| c x IHx]; [reflexivity |]. cbn [append]. rewrite IHx. reflexivity.
Qed.

(** X19.  A message whose role is not [system], [user] or [assistant]
    leaves no trace in the example: the text is the one of the record
    without that message. *)
Theorem unknown_roles_are_dropped (before after : list message) (m : message) :
  let role := dict_get (msg_role m) "user" in
  role <> "system" -> role <> "user" -> role <> "assistant" ->
  render_record (RecordJson (Some (before ++ m :: after)))
  = render_record (RecordJson (Some (before ++ after))).
Proof.
  intros role Hs Hu Ha.
  assert (Hm : render_message m = EmptyString).
  { unfold render_message. fold role.
    destruct (String.eqb_spec role "system") as [H | _]; [contradiction |].
    destruct (String.eqb_spec role "user") as [H | _]; [contradiction |].
    destruct (String.eqb_spec role "assistant") as [H | _]; [contradiction |].
    reflexivity. }
  unfold render_record. cbn [rec_messages dict_get]. f_equal.
  rewrite !map_app, !concat_empty_app. cbn [map].
  rewrite concat_empty_cons, Hm. reflexivity.
Qed.

Lemma unknown_roles_are_dropped_witness :
  render_record (RecordJson (Some [Message (Some "user") (Some "move?");
                                   Message (Some "tool") (Some "dice=6");
                                   Message (Some "assistant") (Some "TOKEN: 2")]))
  = render_record (RecordJson (Some [Message (Some "user") (Some "move?");
                                     Message (Some "assistant") (Some "TOKEN: 2")])).
Proof.
  apply (unknown_roles_are_dropped [Message (Some "user") (Some "move?")]
           [Message (Some "assistant") (Some "TOKEN: 2")]
           (Message (Some "tool") (Some "dice=6"))); discriminate.
Defined.

(** ** Checkpoints and history *)

Lemma length_last_n {A} (n : nat) (l : list A) : (List.length (last_n n l) <= n)%nat.
Proof. unfold last_n. rewrite length_skipn. lia. Qed.

Lemma last_entry_snoc (h : list loss_entry) (e : loss_entry) :
  last_entry (h ++ [e]) = Some e.
Proof. unfold last_entry. rewrite rev_app_distr. reflexivity. Qed.

Lemma line_record_truthy (r : run_args) (p : prepared) (line : string)
    (cur : Z) (x : pyfloat) (ep k : Z) :
  line_record r p line = Some (cur, x, ep, k) -> float_truthy x = true.
Proof.
  unfold line_record.
  destruct (is_progress_line line); [| discriminate].
  destruct (index (split "," line) 0) as [e | part]; [discriminate |].
  destruct (parse_iteration part) as [e | rel]; [discriminate |].
  destruct (parse_train_loss part) as [e | l]; [discriminate |].
  unfold loss_truthy. destruct l as [y |]; [| discriminate].
  destruct (float_truthy y) eqn:Hy; [| discriminate].
  destruct (fraction65 (resume_from_iter p + rel) (total_iters p)); [discriminate |].
  intros H. injection H as _ <- _ _. exact Hy.
Qed.

(** X20.  Every checkpoint a run saves is taken at an iteration that is a
    multiple of 100 and is consistent in itself: its history is not empty,
    holds at most 100 entries and ends with the entry made of the
    checkpoint's own [last_iter], [last_loss] and [epoch]; the loss is not
    zero; and [total_iters] is [max(1, dataset_size // 4)] times the
    epochs of the run. *)
Theorem checkpoints_are_consistent (a : cli_args) (w : world) (c : checkpoint) :
  In (SaveCheckpoint c) (fst (main a w)) ->
  ck_last_iter c mod 100 = 0
  /\ last_entry (ck_loss_history c)
     = Some (LossEntry (ck_last_iter c) (ck_last_loss c) (ck_epoch c))
  /\ (List.length (ck_loss_history c) <= 100)%nat
  /\ float_truthy (ck_last_loss c) = true
  /\ exists m r,
       load_config a w = inr m /\ validate m = Some r
       /\ ck_total_iters c = Z.max 1 (ck_dataset_size c / 4) * epochs r.
Proof.
  intros Hin.
  destruct (main_shape a w) as [[Hnil _] | (m & r & Hl & Hv & Hmain)];
    [rewrite Hnil in Hin; destruct Hin |].
  set (phi := fun e : event =>
    forall c0, e = SaveCheckpoint c0 ->
    ck_last_iter c0 mod 100 = 0
    /\ last_entry (ck_loss_history c0)
       = Some (LossEntry (ck_last_iter c0) (ck_last_loss c0) (ck_epoch c0))
    /\ (List.length (ck_loss_history c0) <= 100)%nat
    /\ float_truthy (ck_last_loss c0) = true
    /\ ck_total_iters c0 = Z.max 1 (ck_dataset_size c0 / 4) * epochs r).
  assert (Hstatic : forall e, static_event r e -> phi e).
  { intros e He c0 ->. destruct He. }
  assert (Hbody : emits phi (pipeline_body r w) (prepare_post r w)).
  { apply emits_pipeline_body; [exact Hstatic |].
    intros p (_ & _ & Hipe & Htot & _). apply emits_train; [exact Hstatic |].
    intros _. split; [intros c0 H; discriminate H |].
    intros line [[[cur x] ep] k] h0 _ Hrec.
    unfold record_events. cbn [record_entry].
    apply Forall_cons; [intros c0 H; discriminate H |].
    destruct (Z.eqb_spec (cur mod 100) 0) as [Hmod | _]; [| apply Forall_nil].
    apply Forall_cons; [| apply Forall_nil].
    intros c0 H. injection H as <-.
    cbn [ck_last_iter ck_last_loss ck_epoch ck_loss_history ck_total_iters ck_dataset_size].
    split; [exact Hmod |]. split.
    { destruct (last_n_snoc 99 h0 (LossEntry cur x ep)) as [init ->].
      apply last_entry_snoc. }
    split; [apply length_last_n |].
    split; [exact (line_record_truthy r p line cur x ep k Hrec) |].
    rewrite Htot, Hipe. reflexivity. }
  destruct (Hbody initial_store) as [Hall _]. rewrite Forall_forall in Hall.
  rewrite Hmain in Hin.
  assert (Hin' : In (SaveCheckpoint c) (run (pipeline_body r w) initial_store)).
  { destruct (result (pipeline_body r w) initial_store); cbn [fst] in Hin;
      apply in_app_or in Hin; destruct Hin as [Hin | [Hin | []]];
      try exact Hin; discriminate Hin. }
  destruct (Hall _ Hin' c eq_refl) as (H1 & H2 & H3 & H4 & H5).
  split; [exact H1 |]. split; [exact H2 |]. split; [exact H3 |]. split; [exact H4 |].
  exists m, r. split; [exact Hl |]. split; [exact Hv | exact H5].
Qed.

Lemma checkpoints_are_consistent_witness :
  let t := fst (main (sample_cli 100 false) (sample_world 4 [trainer_line 100 "0.500"])) in
  exists c, In (SaveCheckpoint c) t /\ ck_last_iter c = 100
            /\ (List.length (ck_loss_history c) <= 100)%nat.
Proof.
  intros t.
  assert (H : exists c, nth_error t 10 = Some (SaveCheckpoint c) /\ ck_last_iter c = 100).
  { eexists. split; vm_compute; reflexivity. }
  destruct H as (c & Hc & Hi). exists c.
  assert (Hin : In (SaveCheckpoint c) t) by exact (nth_error_In _ _ Hc).
  split; [exact Hin |]. split; [exact Hi |].
  destruct (checkpoints_are_consistent (sample_cli 100 false)
              (sample_world 4 [trainer_line 100 "0.500"]) c Hin) as (_ & _ & H & _).
  exact H.
Defined.

Lemma recorded_steps_app (t1 t2 : list event) :
  recorded_steps (t1 ++ t2) = recorded_steps t1 ++ recorded_steps t2.
Proof. apply flat_map_app. Qed.

Lemma recorded_steps_static (r : run_args) (t : list event) :
  Forall (static_event r) t -> recorded_steps t = [].
Proof.
  induction 1 as [| e t He _ IH]; [reflexivity |].
  unfold recorded_steps in *. cbn [flat_map]. rewrite IH, app_nil_r.
  destruct e as [sn | c | tr va | mf | pr cmd]; try reflexivity.
  destruct He as [Hnone _]. rewrite Hnone. reflexivity.
Qed.

Lemma recorded_steps_read_loop (r : run_args) (p : prepared) (lines : list string)
    (s : store) :
  recorded_steps (run (read_loop r p lines) s)
  = map entry_fields (recorded_entries r p lines).
Proof.
  revert s. induction lines as [| line rest IH]; intros s; [reflexivity |].
  cbn [read_loop]. rewrite run_bind, recorded_steps_app.
  destruct (handle_line_summary r p line s) as (Hres & Hrun & _).
  rewrite Hres, Hrun, IH.
  unfold recorded_entries. cbn [flat_map]. rewrite map_app.
  fold (recorded_entries r p rest). f_equal.
  destruct (line_record r p line) as [[[[cur x] ep] k] |]; [| reflexivity].
  unfold record_events, record_entry.
  destruct (cur mod 100 =? 0); reflexivity.
Qed.

Lemma train_recorded (r : run_args) (w : world) (p : prepared) (s : store) :
  recorded_steps (run (train r w p) s)
  = (if total_iters p - resume_from_iter p <=? 0 then []
     else map entry_fields (recorded_entries r p (w_trainer_output w)))
  /\ loss_history (final (train r w p) s)
     = loss_history s
       ++ (if total_iters p - resume_from_iter p <=? 0 then []
           else recorded_entries r p (w_trainer_output w)).
Proof.
  unfold run, final. rewrite train_outcome. cbv zeta.
  destruct (total_iters p - resume_from_iter p <=? 0); cbn [fst snd].
  - split; [reflexivity | rewrite app_nil_r; reflexivity].
  - set (s1 := Store (loss_history s) (resume_from_iter p) (current_epoch s)).
    split.
    + change (recorded_steps (run (read_loop r p (w_trainer_output w)) s1)
              = map entry_fields (recorded_entries r p (w_trainer_output w))).
      apply recorded_steps_read_loop.
    + exact (read_loop_history r p (w_trainer_output w) s1).
Qed.

(** X21.  When a run completes, the loss history of its final snapshot
    lists, entry for entry and in order, the step, loss and epoch of the
    snapshots the read loop wrote: nothing the monitor saw during training
    is missing from the final history, and nothing else is in it. *)
Theorem final_history_lists_the_recorded_steps
    (a : cli_args) (w : world) (before : list event) (sn : snapshot) :
  fst (main a w) = before ++ [WriteProgress sn] ->
  sn_stage sn = Completed ->
  exists h,
    sn_loss_history sn = Some h
    /\ map entry_fields h = recorded_steps (fst (main a w))
    /\ sn_loss sn = last_loss h
    /\ sn_final_loss sn = Some (last_loss h).
Proof.
  intros Hlast Hstage.
  destruct (main_shape a w) as [[Hnil _] | (m & r & Hl & Hv & Hmain)].
  { rewrite Hnil in Hlast. destruct before; discriminate Hlast. }
  rewrite Hmain in Hlast |- *.
  destruct (result (prepare r w) initial_store) as [e | p] eqn:Hp.
  { pose proof (pipeline_body_ends r w initial_store) as Hends. rewrite Hp in Hends.
    rewrite Hends in Hlast. cbn [fst] in Hlast.
    apply app_inj_tail in Hlast. destruct Hlast as [_ H].
    apply WriteProgress_inj in H. subst sn. discriminate Hstage. }
  destruct (main_prepared a m w r p Hl Hv Hp) as (Htrace & Hfin & Hres).
  set (s2 := Store [] (current_iter (final (prepare r w) initial_store)) 0) in *.
  destruct (result (pipeline_body r w) initial_store) as [e | p'] eqn:Hbody.
  { cbn [fst] in Hlast. apply app_inj_tail in Hlast. destruct Hlast as [_ H].
    apply WriteProgress_inj in H. subst sn. discriminate Hstage. }
  cbn [fst] in Hlast |- *. apply app_inj_tail in Hlast. destruct Hlast as [_ H].
  apply WriteProgress_inj in H. subst sn.
  exists (loss_history (final (pipeline_body r w) initial_store)).
  split; [reflexivity |]. split; [| split; reflexivity].
  destruct (training_succeeds w p) eqn:Hok; [| discriminate Hres].
  destruct (w_fuse w) as [e |] eqn:Hfuse; [discriminate Hres |].
  rewrite recorded_steps_app. cbn [recorded_steps flat_map sn_step completed_snapshot].
  rewrite app_nil_r, Htrace, Hfin. cbv zeta.
  rewrite !recorded_steps_app.
  destruct (prepare_static r w initial_store) as [Hs1 _].
  destruct (direct_setup_static r w p (final (prepare r w) initial_store)) as [Hs2 _].
  destruct (convert_gguf_static r w p (final (train r w p) s2)) as [Hs3 _].
  destruct (import_ollama_static r w p
              (if conversion_fails w then None else Some (gguf_path r p))
              (final (train r w p) s2)) as [Hs4 _].
  rewrite (recorded_steps_static r _ Hs1), (recorded_steps_static r _ Hs2),
    (recorded_steps_static r _ Hs3), (recorded_steps_static r _ Hs4).
  cbn [app recorded_steps flat_map sn_step fusing_snapshot snap_hist].
  rewrite app_nil_r.
  destruct (train_recorded r w p s2) as [-> ->].
  destruct (total_iters p - resume_from_iter p <=? 0); reflexivity.
Qed.

Lemma final_history_lists_the_recorded_steps_witness :
  let t := fst (main (sample_cli 3 false) (sample_world 8 (trainer_lines 3))) in
  recorded_steps t
  = [(1, Some (Fin (1 # 2)), 1); (2, Some (Fin (1 # 2)), 2); (3, Some (Fin (1 # 2)), 2)]
  /\ exists sn h, nth_error t 19 = Some (WriteProgress sn)
                  /\ sn_loss_history sn = Some h
                  /\ map entry_fields h = recorded_steps t.
Proof.
  intros t. split; [vm_compute; reflexivity |].
  assert (H : exists before sn, t = before ++ [WriteProgress sn]
                                /\ sn_stage sn = Completed
                                /\ nth_error t 19 = Some (WriteProgress sn)).
  { eexists (firstn 19 t). eexists. split; [vm_compute; reflexivity |].
    split; vm_compute; reflexivity. }
  destruct H as (before & sn & Ht & Hst & Hn).
  destruct (final_history_lists_the_recorded_steps (sample_cli 3 false)
              (sample_world 8 (trainer_lines 3)) before sn Ht Hst) as (h & Hh & Hm & _).
  exists sn, h. split; [exact Hn |]. split; [exact Hh | exact Hm].
Defined.

(** X22.  A run without [--resume] and with no epoch to train
    ([epochs <= 0]) never starts the trainer, and still goes on to fuse
    whatever adapters it finds once the preparation went through. *)
Theorem no_epochs_no_training (a m : cli_args) (w : world) (r : run_args) :
  load_config a w = inr m ->
  validate m = Some r ->
  resume r = false ->
  epochs r <= 0 ->
  ~ In Trainer (launched_programs (fst (main a w)))
  /\ (forall p, result (prepare r w) initial_store = inr p ->
                In (Launch Fuse (fuse_cmd w p)) (fst (main a w))).
Proof.
  intros Hl Hv Hres Hep.
  assert (Hrem : forall p, result (prepare r w) initial_store = inr p ->
                           (remaining_iters p <=? 0) = true).
  { intros p Hp. destruct (prepare_static r w initial_store) as [_ Hpost].
    destruct (Hpost p Hp) as (_ & _ & Hipe & Htot & Hfrom).
    unfold resume_offset in Hfrom. rewrite Hres in Hfrom.
    unfold remaining_iters. apply Z.leb_le. nia. }
  split.
  - rewrite launched_programs_launches, (launches_main a m w r Hl Hv),
      launches_pipeline_body.
    destruct (result (prepare r w) initial_store) as [e | p] eqn:Hp.
    + destruct (w_mlx_installed w); cbn; intuition discriminate.
    + unfold training_succeeds. rewrite (Hrem p eq_refl). cbn [orb app].
      destruct (w_mlx_installed w); destruct (w_fuse w);
        try destruct (conversion_attempted w); cbn; intuition discriminate.
  - intros p Hp.
    rewrite (in_launches (Launch Fuse (fuse_cmd w p)) _ eq_refl),
      (launches_main a m w r Hl Hv), launches_pipeline_body, Hp.
    unfold training_succeeds. rewrite (Hrem p Hp). cbn [orb app].
    apply in_or_app. right. left. reflexivity.
Qed.

Lemma no_epochs_no_training_witness :
  launched_programs (fst (main (sample_cli 0 false) (sample_world 4 (trainer_lines 3))))
  = [Fuse; ConvertScript; Ollama]
  /\ ~ In Trainer
         (launched_programs
            (fst (main (sample_cli 0 false) (sample_world 4 (trainer_lines 3))))).
Proof.
  split; [vm_compute; reflexivity |].
  destruct (no_epochs_no_training (sample_cli 0 false) (sample_cli 0 false)
              (sample_world 4 (trainer_lines 3)) (sample_args 0 false)) as [H _].
  - reflexivity.
  - reflexivity.
  - reflexivity.
  - vm_compute. discriminate.
  - exact H.
Defined.

(** ** Reading the trainer's lines *)

(** X23.  A progress line whose first part parses and whose loss is not
    zero is recorded: one entry is appended, holding the absolute iteration
    (the resume offset plus the reported one), the loss and the epoch, and
    the training snapshot carries the history so extended; the checkpoint
    follows when the iteration is a multiple of 100.  A loss that is not a
    number ([nan], [inf]) is not zero, so it is recorded like any other. *)
Theorem nonzero_loss_is_recorded
    (r : run_args) (p : prepared) (line part : string) (rel : Z) (x : pyfloat) (k : Z)
    (s : store) :
  is_progress_line line = true ->
  index (split "," line) 0 = inr part ->
  parse_iteration part = inr rel ->
  parse_train_loss part = inr (Some x) ->
  float_truthy x = true ->
  fraction65 (resume_from_iter p + rel) (total_iters p) = inr k ->
  let cur := resume_from_iter p + rel in
  let ep := Z.min (epochs r) (cur / iters_per_epoch p + 1) in
  let h := loss_history s ++ [LossEntry cur x ep] in
  loss_history (final (handle_line r p line) s) = h
  /\ run (handle_line r p line) s
     = WriteProgress (training_snapshot r p cur ep x (30 + k) h)
       :: (if cur mod 100 =? 0
           then [SaveCheckpoint
                   (Checkpoint cur x ep (last_n 100 h) (total_iters p) (dataset_size p))]
           else []).
Proof.
  intros Hline Hpart Hrel Hloss Htruthy Hk cur ep h.
  assert (Hrec : line_record r p line = Some (cur, x, ep, k)).
  { unfold line_record. rewrite Hline, Hpart, Hrel, Hloss. unfold loss_truthy.
    rewrite Htruthy, Hk. reflexivity. }
  destruct (handle_line_summary r p line s) as (_ & Hrun & Hfin).
  rewrite Hrec in Hrun, Hfin. split; [exact Hfin | exact Hrun].
Qed.

Lemma nonzero_loss_is_recorded_witness :
  let r := sample_args 3 false in
  let p := sample_prepared 8 3 0 in
  loss_history (final (handle_line r p (trainer_line 3 "nan")) initial_store)
  = [LossEntry 3 NaN 2].
Proof.
  intros r p.
  destruct (nonzero_loss_is_recorded r p (trainer_line 3 "nan") "Iter 3: Train loss nan"
              3 NaN 32 initial_store) as [H _].
  - reflexivity.
  - reflexivity.
  - reflexivity.
  - reflexivity.
  - reflexivity.
  - vm_compute. reflexivity.
  - exact H.
Defined.

(** *** Strings *)

Lemma append_empty (s : string) : (s ++ EmptyString)%string = s.
Proof. induction s as [| c s IH]; [reflexivity |]. cbn [append]. rewrite IH. reflexivity. Qed.

Lemma append_associative (s t u : string) : ((s ++ t) ++ u)%string = (s ++ (t ++ u))%string.
Proof. induction s as [| c s IH]; [reflexivity |]. cbn [append]. rewrite IH. reflexivity. Qed.

Lemma rev_string_acc (acc s : string) :
  rev_string acc s = (rev_string EmptyString s ++ acc)%string.
Proof.
  revert acc. induction s as [| c s IH]; intros acc; [reflexivity |].
  cbn [rev_string]. rewrite (IH (String c acc)), (IH (String c EmptyString)).
  rewrite append_associative. reflexivity.
Qed.

Lemma rev_string_involutive_acc (acc s : string) :
  rev_string EmptyString (rev_string acc s) = (rev_string EmptyString acc ++ s)%string.
Proof.
  revert acc. induction s as [| c s IH]; intros acc.
  - cbn [rev_string]. rewrite append_empty. reflexivity.
  - cbn [rev_string]. rewrite IH. cbn [rev_string].
    rewrite (rev_string_acc (String c EmptyString) acc), append_associative. reflexivity.
Qed.

Lemma rev_string_involutive (s : string) :
  rev_string EmptyString (rev_string EmptyString s) = s.
Proof. apply (rev_string_involutive_acc EmptyString s). Qed.

Lemma none_of_append (f : ascii -> bool) (s t : string) :
  none_of f (s ++ t) = none_of f s && none_of f t.
Proof.
  induction s as [| c s IH]; [reflexivity |].
  cbn [append none_of]. rewrite IH, andb_assoc. reflexivity.
Qed.

Lemma none_of_rev (f : ascii -> bool) (s : string) :
  none_of f (rev_string EmptyString s) = none_of f s.
Proof.
  induction s as [| c s IH]; [reflexivity |].
  cbn [rev_string]. rewrite rev_string_acc, none_of_append, IH.
  cbn [none_of]. rewrite andb_true_r. apply andb_comm.
Qed.

Lemma none_of_weaken (f g : ascii -> bool) (s : string) :
  (forall c, g c = true -> f c = true) -> none_of f s = true -> none_of g s = true.
Proof.
  intros Hfg. induction s as [| c s IH]; [reflexivity |].
  cbn [none_of]. intros H. apply andb_true_iff in H. destruct H as [Hc Hs].
  rewrite (IH Hs), andb_true_r.
  destruct (g c) eqn:Hg; [| reflexivity].
  rewrite (Hfg c Hg) in Hc. discriminate Hc.
Qed.

Lemma lstrip_none (s : string) : none_of is_space s = true -> lstrip s = s.
Proof.
  destruct s as [| c s]; [reflexivity |].
  cbn [none_of lstrip]. intros H. apply andb_true_iff in H. destruct H as [Hc _].
  destruct (is_space c); [discriminate Hc | reflexivity].
Qed.

Lemma strip_none (s : string) : none_of is_space s = true -> strip s = s.
Proof.
  intros H. unfold strip. rewrite (lstrip_none s H).
  rewrite lstrip_none by (rewrite none_of_rev; exact H).
  apply rev_string_involutive.
Qed.

Lemma before_char_append (c : ascii) (s t : string) :
  none_of (fun d => Ascii.eqb d c) s = true ->
  before_char c (s ++ t) = (s ++ before_char c t)%string.
Proof.
  induction s as [| d s IH]; [reflexivity |].
  cbn [none_of append before_char]. intros H. apply andb_true_iff in H.
  destruct H as [Hd Hs]. destruct (Ascii.eqb d c); [discriminate Hd |].
  rewrite (IH Hs). reflexivity.
Qed.

Lemma split_first (c : ascii) (cur s : string) :
  nth_error (split_from (String c EmptyString) O cur s) 0
  = Some (rev_string EmptyString cur ++ before_char c s)%string.
Proof.
  revert cur. induction s as [| d s IH]; intros cur.
  - cbn. rewrite append_empty. reflexivity.
  - cbn [split_from prefix before_char].
    destruct (ascii_dec c d) as [Heq | Hne].
    + subst d. rewrite Ascii.eqb_refl.
      assert (Hp : prefix EmptyString s = true) by (destruct s; reflexivity).
      rewrite Hp. cbn [nth_error]. rewrite append_empty. reflexivity.
    + destruct (Ascii.eqb_spec d c) as [Heq | _]; [congruence |].
      rewrite IH. cbn [rev_string].
      rewrite (rev_string_acc (String d EmptyString) cur), append_associative.
      reflexivity.
Qed.

Lemma index_split_first (c : ascii) (s : string) :
  index (split (String c EmptyString) s) 0 = inr (before_char c s).
Proof. unfold index, split. rewrite split_first. reflexivity. Qed.

Lemma split_ws_word (cur s : string) :
  none_of is_space s = true -> s <> EmptyString ->
  split_ws_from cur s = [rev_string EmptyString (rev_string cur s)].
Proof.
  revert cur. induction s as [| c s IH]; intros cur Hs Hne; [contradiction |].
  cbn [none_of] in Hs. apply andb_true_iff in Hs. destruct Hs as [Hc Hs].
  cbn [split_ws_from rev_string]. destruct (is_space c); [discriminate Hc |].
  destruct s as [| d s]; [reflexivity |].
  apply IH; [exact Hs | discriminate].
Qed.

(** *** Decimal numerals *)

Lemma digits_not_delimiters (f : ascii -> bool) (d : Decimal.uint) :
  (forall c, is_digit c = true -> f c = false) ->
  none_of f (NilEmpty.string_of_uint d) = true.
Proof.
  intros Hf. induction d as [| d IH | d IH | d IH | d IH | d IH | d IH | d IH | d IH
                            | d IH | d IH]; [reflexivity | ..];
    cbn [NilEmpty.string_of_uint none_of]; rewrite IH, andb_true_r;
    rewrite Hf; reflexivity.
Qed.

Lemma digitpart_tail_acc (d : Decimal.uint) (acc : positive) (cnt : Z) :
  exists cnt',
    digitpart_tail (Zpos acc) cnt (NilEmpty.string_of_uint d)
    = (Zpos (Pos.of_uint_acc d acc), cnt', EmptyString).
Proof.
  revert acc cnt.
  induction d as [| d IH | d IH | d IH | d IH | d IH | d IH | d IH | d IH | d IH | d IH];
    intros acc cnt; [eexists; reflexivity | ..];
    cbn [NilEmpty.string_of_uint digitpart_tail Pos.of_uint_acc];
    match goal with
    | |- context [is_digit ?c] => change (is_digit c) with true; cbv iota
    end;
    match goal with
    | |- context [digitpart_tail ?v ?n _] =>
        match goal with
        | |- context [Pos.of_uint_acc d ?a] =>
            replace v with (Zpos a)
              by (unfold digit_value; cbn [code N_of_ascii N_of_digits Z.of_N]; lia)
        end
    end;
    apply IH.
Qed.

Lemma digitpart_tail_zero (d : Decimal.uint) (cnt : Z) :
  exists cnt',
    digitpart_tail 0 cnt (NilEmpty.string_of_uint d)
    = (Z.of_N (Pos.of_uint d), cnt', EmptyString).
Proof.
  revert cnt.
  induction d as [| d IH | d IH | d IH | d IH | d IH | d IH | d IH | d IH | d IH | d IH];
    intros cnt; [eexists; reflexivity | ..];
    cbn [NilEmpty.string_of_uint digitpart_tail Pos.of_uint];
    match goal with
    | |- context [is_digit ?c] => change (is_digit c) with true; cbv iota
    end;
    [ change (0 * 10 + digit_value "0") with 0; apply IH
    | change (0 * 10 + digit_value "1") with (Zpos 1)
    | change (0 * 10 + digit_value "2") with (Zpos 2)
    | change (0 * 10 + digit_value "3") with (Zpos 3)
    | change (0 * 10 + digit_value "4") with (Zpos 4)
    | change (0 * 10 + digit_value "5") with (Zpos 5)
    | change (0 * 10 + digit_value "6") with (Zpos 6)
    | change (0 * 10 + digit_value "7") with (Zpos 7)
    | change (0 * 10 + digit_value "8") with (Zpos 8)
    | change (0 * 10 + digit_value "9") with (Zpos 9) ];
    cbn [Z.of_N]; apply digitpart_tail_acc.
Qed.

Lemma digitpart_numeral (d : Decimal.uint) :
  d <> Decimal.Nil ->
  exists cnt,
    digitpart (NilEmpty.string_of_uint d) = Some (Z.of_N (Pos.of_uint d), cnt, EmptyString).
Proof.
  intros Hd.
  destruct d as [| d | d | d | d | d | d | d | d | d | d]; [contradiction | ..];
    cbn [NilEmpty.string_of_uint digitpart Pos.of_uint];
    match goal with
    | |- context [is_digit ?c] => change (is_digit c) with true; cbv iota
    end.
  - change (digit_value "0") with 0.
    destruct (digitpart_tail_zero d 1) as [cnt H]. exists cnt. rewrite H. reflexivity.
  - change (digit_value "1") with (Zpos 1).
    destruct (digitpart_tail_acc d 1 1) as [cnt H]. exists cnt. rewrite H. reflexivity.
  - change (digit_value "2") with (Zpos 2).
    destruct (digitpart_tail_acc d 2 1) as [cnt H]. exists cnt. rewrite H. reflexivity.
  - change (digit_value "3") with (Zpos 3).
    destruct (digitpart_tail_acc d 3 1) as [cnt H]. exists cnt. rewrite H. reflexivity.
  - change (digit_value "4") with (Zpos 4).
    destruct (digitpart_tail_acc d 4 1) as [cnt H]. exists cnt. rewrite H. reflexivity.
  - change (digit_value "5") with (Zpos 5).
    destruct (digitpart_tail_acc d 5 1) as [cnt H]. exists cnt. rewrite H. reflexivity.
  - change (digit_value "6") with (Zpos 6).
    destruct (digitpart_tail_acc d 6 1) as [cnt H]. exists cnt. rewrite H. reflexivity.
  - change (digit_value "7") with (Zpos 7).
    destruct (digitpart_tail_acc d 7 1) as [cnt H]. exists cnt. rewrite H. reflexivity.
  - change (digit_value "8") with (Zpos 8).
    destruct (digitpart_tail_acc d 8 1) as [cnt H]. exists cnt. rewrite H. reflexivity.
  - change (digit_value "9") with (Zpos 9).
    destruct (digitpart_tail_acc d 9 1) as [cnt H]. exists cnt. rewrite H. reflexivity.
Qed.

Lemma nonnil_numeral (d : Decimal.uint) :
  d <> Decimal.Nil ->
  NilZero.string_of_uint d = NilEmpty.string_of_uint d
  /\ sign_of (NilEmpty.string_of_uint d) = (false, NilEmpty.string_of_uint d)
  /\ NilEmpty.string_of_uint d <> EmptyString.
Proof.
  intros Hd. destruct d; [contradiction | ..]; repeat split; discriminate.
Qed.

Lemma digit_is_no_delimiter (c : ascii) : is_digit c = true -> is_delimiter c = false.
Proof.
  destruct c as [[] [] [] [] [] [] [] []]; intros H; try discriminate H; reflexivity.
Qed.

Lemma delimiter_cases (c : ascii) :
  (is_space c = true -> is_delimiter c = true)
  /\ (Ascii.eqb c ":" = true -> is_delimiter c = true)
  /\ (Ascii.eqb c "," = true -> is_delimiter c = true).
Proof.
  unfold is_delimiter. repeat split; intros ->; rewrite ?orb_true_r; reflexivity.
Qed.

(** [str(i)] holds no white space, colon or comma, and is not empty. *)
Lemma str_of_int_plain (i : Z) :
  none_of is_delimiter (str_of_int i) = true /\ str_of_int i <> EmptyString.
Proof.
  unfold str_of_int.
  destruct i as [| q | q]; [split; [reflexivity | discriminate] | |];
    cbn [Z.to_int NilZero.string_of_int];
    destruct (nonnil_numeral (Pos.to_uint q) (DecimalPos.Unsigned.to_uint_nonnil q)) as (-> & _ & Hne).
  - split; [| exact Hne]. apply digits_not_delimiters. exact digit_is_no_delimiter.
  - split; [| discriminate]. cbn [none_of].
    rewrite (digits_not_delimiters is_delimiter _ digit_is_no_delimiter). reflexivity.
Qed.

(** [int(str(i))] is [i]. *)
Lemma int_of_str_of_int (i : Z) : int_of_str (str_of_int i) = Some i.
Proof.
  assert (Hsp : none_of is_space (str_of_int i) = true).
  { apply (none_of_weaken is_delimiter); [| apply str_of_int_plain].
    intros c Hc. exact (proj1 (delimiter_cases c) Hc). }
  unfold int_of_str. rewrite (strip_none _ Hsp). unfold str_of_int.
  destruct i as [| q | q]; [reflexivity | |];
    cbn [Z.to_int NilZero.string_of_int];
    destruct (nonnil_numeral (Pos.to_uint q) (DecimalPos.Unsigned.to_uint_nonnil q)) as (-> & Hsign & _);
    destruct (digitpart_numeral (Pos.to_uint q) (DecimalPos.Unsigned.to_uint_nonnil q)) as [cnt Hd].
  - rewrite Hsign, Hd, DecimalPos.Unsigned.of_to. reflexivity.
  - cbn [sign_of]. rewrite Hd, DecimalPos.Unsigned.of_to. reflexivity.
Qed.

(** X24.  A line that starts with [Iter], the decimal numeral of an
    integer [i] and a colon, and that mentions [Train loss], is read back
    as iteration [i], whatever follows the colon; a step recorded for it is
    the resume offset plus [i]. *)
Theorem iteration_is_read_back (i : Z) (tail : string) :
  let line := ("Iter " ++ str_of_int i ++ ":" ++ tail)%string in
  contains "Train loss" line = true ->
  reported_iteration line = Some i
  /\ forall r p cur x ep k,
       line_record r p line = Some (cur, x, ep, k) -> cur = resume_from_iter p + i.
Proof.
  intros line Hloss.
  assert (Hrep : reported_iteration line = Some i).
  { destruct (str_of_int_plain i) as [Hplain Hne].
    pose proof (int_of_str_of_int i) as Hint.
    unfold line in *. clear line. set (dg := str_of_int i) in *.
    assert (Hcomma : none_of (fun d => Ascii.eqb d ",") dg = true).
    { apply (none_of_weaken is_delimiter); [| exact Hplain].
      intros c Hc. exact (proj2 (proj2 (delimiter_cases c)) Hc). }
    assert (Hcolon : none_of (fun d => Ascii.eqb d ":") dg = true).
    { apply (none_of_weaken is_delimiter); [| exact Hplain].
      intros c Hc. exact (proj1 (proj2 (delimiter_cases c)) Hc). }
    assert (Hspace : none_of is_space dg = true).
    { apply (none_of_weaken is_delimiter); [| exact Hplain].
      intros c Hc. exact (proj1 (delimiter_cases c) Hc). }
    unfold reported_iteration, is_progress_line. rewrite Hloss.
    assert (Hiter : contains "Iter" ("Iter " ++ dg ++ ":" ++ tail) = true) by reflexivity.
    rewrite Hiter. cbn [andb].
    rewrite index_split_first.
    assert (Hpart : before_char "," ("Iter " ++ dg ++ ":" ++ tail)
                    = (("Iter " ++ dg) ++ ":" ++ before_char "," tail)%string).
    { rewrite <- (append_associative "Iter " dg (":" ++ tail)).
      rewrite before_char_append
        by (rewrite none_of_append, Hcomma; reflexivity).
      reflexivity. }
    rewrite Hpart. unfold parse_iteration. rewrite index_split_first.
    rewrite before_char_append by (rewrite none_of_append, Hcolon; reflexivity).
    cbn [append before_char and_then]. rewrite Ascii.eqb_refl, append_empty.
    change (split_ws (String "I" (String "t" (String "e" (String "r" (String " " dg))))))
      with ("Iter" :: split_ws_from EmptyString dg).
    rewrite (split_ws_word EmptyString dg Hspace Hne). cbn [rev_string].
    rewrite rev_string_involutive.
    unfold index. cbn [nth_error of_option and_then]. rewrite Hint. reflexivity. }
  split; [exact Hrep |].
  intros r p cur x ep k Hrec.
  destruct (line_record_reported r p line cur x ep k Hrec) as (rel & Hrel & -> & _).
  congruence.
Qed.

Lemma iteration_is_read_back_witness :
  reported_iteration
    "Iter 350: Train loss 0.158, Learning Rate 1.000e-05, It/sec 0.512"
  = Some 350.
Proof.
  destruct (iteration_is_read_back 350
              " Train loss 0.158, Learning Rate 1.000e-05, It/sec 0.512") as [H _].
  - vm_compute. reflexivity.
  - exact H.
Defined.

(** ** An invariant of the snapshots *)

(** X25.  Every snapshot of a run, the failed one included, carries the
    same [total_epochs]: the epochs the run was validated with; and the
    [epoch] it shows never exceeds it once training has an epoch to run. *)
Theorem snapshots_carry_the_epochs_of_the_run
    (a m : cli_args) (w : world) (r : run_args) (sn : snapshot) :
  load_config a w = inr m ->
  validate m = Some r ->
  In (WriteProgress sn) (fst (main a w)) ->
  sn_total_epochs sn = epochs r
  /\ (sn_stage sn = Training -> 1 <= epochs r -> sn_epoch sn <= epochs r).
Proof.
  intros Hl Hv Hin.
  set (phi := fun e : event =>
    forall sn0, e = WriteProgress sn0 ->
    sn_total_epochs sn0 = epochs r
    /\ (sn_stage sn0 = Training -> 1 <= epochs r -> sn_epoch sn0 <= epochs r)).
  assert (Hbody : emits phi (pipeline_body r w) (fun _ => True)).
  { assert (Hother : forall sn0,
              sn_stage sn0 <> Training -> sn_total_epochs sn0 = epochs r ->
              phi (WriteProgress sn0)).
    { intros sn0 Hst Htot sn1 Hw. apply WriteProgress_inj in Hw. subst sn1.
      split; [exact Htot | contradiction]. }
    assert (Hno : forall e, (forall sn0, e <> WriteProgress sn0) -> phi e).
    { intros e He sn0 H. destruct (He sn0 H). }
    unfold pipeline_body, upto_fuse.
    eapply emits_bind with (R := fun _ => True).
    { eapply emits_bind with (R := fun _ => True).
      - unfold prepare.
        emits_step; [apply Hother; [cbn; discriminate | reflexivity] |].
        eapply emits_bind with (R := fun _ => True).
        { destruct (w_mlx_installed w); repeat emits_step; auto;
        first [apply Hother; [cbn; discriminate | reflexivity]
              | apply Hno; intros sn0 Hd; discriminate Hd]. }
        intros _ _. emits_step.
        emits_step; [apply Hother; [cbn; discriminate | reflexivity] |].
        emits_step; [apply Hother; [cbn; discriminate | reflexivity] |].
        eapply emits_bind with (R := fun _ => True).
        { intros s. unfold run, result. rewrite check_resume_outcome. cbv zeta.
          destruct (resume r); [| split; [constructor | auto]].
          destruct (w_checkpoint w) as [[e | c] |]; try (split; [constructor | auto]).
          destruct (checkpoint_truthy c); [| split; [constructor | auto]].
          split; [| auto]. apply Forall_cons; [| apply Forall_nil].
          intros sn0 Hw. apply WriteProgress_inj in Hw. subst sn0.
          split; [reflexivity | discriminate]. }
        intros i _.
        eapply emits_bind with (R := fun _ => True).
        { unfold convert_jsonl_to_mlx_format. repeat emits_step; auto;
            apply Hno; intros sn0 Hd; discriminate Hd. }
        intros ds _.
        emits_step; [apply Hother; [cbn; discriminate | reflexivity] |].
        apply emits_ret. exact I.
      - intros p _.
        eapply emits_bind with (R := fun _ => True).
        { unfold direct_setup. repeat emits_step; auto;
            (apply Hother; [cbn; discriminate | reflexivity]). }
        intros _ _.
        eapply emits_bind with (R := fun _ => True).
        { intros s. unfold run, result. rewrite train_outcome. cbv zeta.
          assert (Hstart : phi (WriteProgress (training_started r p))).
          { intros sn0 Hw. apply WriteProgress_inj in Hw. subst sn0.
            split; [reflexivity |]. intros _ He. exact He. }
          destruct (total_iters p - resume_from_iter p <=? 0); cbn [fst snd].
          - split; [| auto]. apply Forall_cons; [exact Hstart | apply Forall_nil].
          - split; [| auto]. apply Forall_cons; [exact Hstart |].
            apply Forall_cons; [apply Hno; intros sn0 Hd; discriminate Hd |].
            assert (Hloop : emits phi (read_loop r p (w_trainer_output w)) (fun _ => True)).
            { apply emits_read_loop. intros line [[[cur x] ep] k] h0 _ Hrec.
              destruct (line_record_reported r p line cur x ep k Hrec)
                as (rel & _ & _ & _ & ->).
              apply Forall_record_events; [| apply Hno; intros sn0 Hd; discriminate Hd].
              intros sn0 Hw. apply WriteProgress_inj in Hw. subst sn0.
              cbn [sn_total_epochs sn_epoch training_snapshot].
              split; [reflexivity |]. intros _ _. apply Z.le_min_l. }
            apply Hloop. }
        intros _ _.
        eapply emits_bind with (R := fun _ => True).
        { unfold fuse. repeat emits_step; auto;
        first [apply Hother; [cbn; discriminate | reflexivity]
              | apply Hno; intros sn0 Hd; discriminate Hd]. }
        intros _ _. apply emits_ret. exact I. }
    intros p _.
    eapply emits_bind with (R := fun _ => True).
    { unfold convert_gguf. repeat emits_step; auto;
        first [apply Hother; [cbn; discriminate | reflexivity]
              | apply Hno; intros sn0 Hd; discriminate Hd]. }
    intros g _.
    eapply emits_bind with (R := fun _ => True).
    { unfold import_ollama. repeat emits_step; auto;
        first [apply Hother; [cbn; discriminate | reflexivity]
              | apply Hno; intros sn0 Hd; discriminate Hd]. }
    intros _ _. apply emits_ret. exact I. }
  destruct (Hbody initial_store) as [Hall _]. rewrite Forall_forall in Hall.
  rewrite (main_validated a m w r Hl Hv) in Hin.
  destruct (result (pipeline_body r w) initial_store) as [e | p]; cbn [fst] in Hin;
    apply in_app_or in Hin; destruct Hin as [Hin | [Hin | []]];
    try exact (Hall _ Hin sn eq_refl);
    apply WriteProgress_inj in Hin; subst sn; (split; [reflexivity | discriminate]).
Qed.

Lemma snapshots_carry_the_epochs_of_the_run_witness :
  Forall (fun sn => sn_total_epochs sn = 3)
    (snapshots (fst (main (sample_cli 3 false) (sample_world 8 (trainer_lines 3)))))
  /\ exists sn,
       In (WriteProgress sn) (fst (main (sample_cli 3 false) (sample_world 8 (trainer_lines 3))))
       /\ sn_total_epochs sn = epochs (sample_args 3 false).
Proof.
  split; [vm_compute; repeat constructor |].
  assert (H : exists sn, nth_error (fst (main (sample_cli 3 false)
                                            (sample_world 8 (trainer_lines 3)))) 9
                         = Some (WriteProgress sn)).
  { eexists. vm_compute. reflexivity. }
  destruct H as (sn & Hn). exists sn.
  assert (Hin := nth_error_In _ _ Hn). split; [exact Hin |].
  destruct (snapshots_carry_the_epochs_of_the_run (sample_cli 3 false) (sample_cli 3 false)
              (sample_world 8 (trainer_lines 3)) (sample_args 3 false) sn
              eq_refl eq_refl Hin) as [H _].
  exact H.
Defined.

(** * The GGUF converter *)

Ltac converter_unfold :=
  unfold ConvertToGguf.steps, ConvertToGguf.install_conversion_deps,
    ConvertToGguf.convert_mlx_to_hf, ConvertToGguf.convert_hf_to_gguf,
    ConvertToGguf.create_ollama_model, ConvertToGguf.cbind, ConvertToGguf.cemit,
    ConvertToGguf.cmay_raise, ConvertToGguf.clift, ConvertToGguf.cthrow,
    ConvertToGguf.cret.

(** The body of the [try], step by step. *)
Lemma converter_steps (e : ConvertToGguf.env) (mlx name wd : string) :
  let hf := path_join wd "hf_model" in
  let gguf := path_join wd (name ++ ".gguf") in
  let modelfile := path_join (ConvertToGguf.parent gguf) "Modelfile.gguf" in
  let t1 := [ConvertToGguf.Run (ConvertToGguf.pip_cmd e)] in
  let t2 := t1 ++ (if ConvertToGguf.e_hf_exists e then [ConvertToGguf.RemoveTree hf] else []) in
  let t3 := t2 ++ [ConvertToGguf.CopyTree mlx hf] in
  let t4 := t3 ++ (if ConvertToGguf.e_script_exists e then []
                   else [ConvertToGguf.Download ConvertToGguf.script_url
                           (ConvertToGguf.convert_script e)]) in
  let t5 := t4 ++ [ConvertToGguf.Run (ConvertToGguf.convert_cmd e hf gguf)] in
  let t6 := t5 ++ [ConvertToGguf.WriteFile modelfile (ConvertToGguf.modelfile_content gguf)] in
  let t7 := t6 ++ [ConvertToGguf.Run (ConvertToGguf.ollama_cmd name modelfile)] in
  let t8 := t7 ++ (if ConvertToGguf.e_hf_left e then [ConvertToGguf.RemoveTree hf] else []) in
  ConvertToGguf.steps e mlx name wd =
  match ConvertToGguf.e_pip e with
  | Some x => (t1, inl x)
  | None =>
  match (if ConvertToGguf.e_hf_exists e then ConvertToGguf.e_rmtree e else None) with
  | Some x => (t2, inl x)
  | None =>
  match ConvertToGguf.e_copytree e with
  | Some x => (t3, inl x)
  | None =>
  match (if ConvertToGguf.e_script_exists e then None else ConvertToGguf.e_download e) with
  | Some x => (t4, inl x)
  | None =>
  match ConvertToGguf.e_convert e with
  | inl x => (t5, inl x)
  | inr converted =>
  if negb (ConvertToGguf.returncode converted =? 0)
  then (t5, inl (ConvertToGguf.conversion_failure converted))
  else
  match ConvertToGguf.e_write_modelfile e with
  | Some x => (t6, inl x)
  | None =>
  match ConvertToGguf.e_ollama e with
  | inl x => (t7, inl x)
  | inr created =>
  if negb (ConvertToGguf.returncode created =? 0)
  then (t7, inl (ConvertToGguf.ollama_failure created))
  else
  match (if ConvertToGguf.e_hf_left e then ConvertToGguf.e_cleanup e else None) with
  | Some x => (t8, inl x)
  | None => (t8, inr tt)
  end end end end end end end end.
Proof.
  cbv zeta. converter_unfold.
  destruct (ConvertToGguf.e_pip e); [reflexivity |].
  destruct (ConvertToGguf.e_hf_exists e);
    (destruct (ConvertToGguf.e_rmtree e); try reflexivity);
    (destruct (ConvertToGguf.e_copytree e); [reflexivity |]);
    (destruct (ConvertToGguf.e_script_exists e);
     (destruct (ConvertToGguf.e_download e); try reflexivity);
     (destruct (ConvertToGguf.e_convert e) as [x | converted]; [reflexivity |]);
     (destruct (negb (ConvertToGguf.returncode converted =? 0)); [reflexivity |]);
     (destruct (ConvertToGguf.e_write_modelfile e); [reflexivity |]);
     (destruct (ConvertToGguf.e_ollama e) as [x | created]; [reflexivity |]);
     (destruct (negb (ConvertToGguf.returncode created =? 0)); [reflexivity |]);
     (destruct (ConvertToGguf.e_hf_left e);
      (destruct (ConvertToGguf.e_cleanup e); reflexivity))).
Qed.

Lemma converter_success_facts (c : ConvertToGguf.cli) (e : ConvertToGguf.env) :
  snd (ConvertToGguf.main c e) = Exit 0 ->
      (exists mlx name,
          ConvertToGguf.c_mlx_path c = Some mlx
          /\ ConvertToGguf.c_output_name c = Some name)
      /\ ConvertToGguf.e_mkdir e = None
      /\ ConvertToGguf.e_pip e = None
      /\ (ConvertToGguf.e_hf_exists e = true -> ConvertToGguf.e_rmtree e = None)
      /\ ConvertToGguf.e_copytree e = None
      /\ (ConvertToGguf.e_script_exists e = false -> ConvertToGguf.e_download e = None)
      /\ (exists err, ConvertToGguf.e_convert e = inr (ConvertToGguf.Completed 0 err))
      /\ ConvertToGguf.e_write_modelfile e = None
      /\ (exists err, ConvertToGguf.e_ollama e = inr (ConvertToGguf.Completed 0 err))
      /\ (ConvertToGguf.e_hf_left e = true -> ConvertToGguf.e_cleanup e = None).
Proof.
  unfold ConvertToGguf.main. intros H.
  destruct (ConvertToGguf.c_mlx_path c) as [mlx |]; [| discriminate H].
  destruct (ConvertToGguf.c_output_name c) as [name |]; [| discriminate H].
  destruct (ConvertToGguf.e_mkdir e) as [x |]; [discriminate H |].
  rewrite converter_steps in H. cbv zeta in H.
  destruct (ConvertToGguf.e_pip e); [discriminate H |].
  destruct (ConvertToGguf.e_hf_exists e) eqn:Hhf;
    (destruct (ConvertToGguf.e_rmtree e) eqn:Hrm; try discriminate H);
    (destruct (ConvertToGguf.e_copytree e); [discriminate H |]);
    (destruct (ConvertToGguf.e_script_exists e) eqn:Hsc;
     (destruct (ConvertToGguf.e_download e) eqn:Hdl; try discriminate H);
     (destruct (ConvertToGguf.e_convert e) as [x | [rc1 err1]]; [discriminate H |]);
     cbn [ConvertToGguf.returncode] in H;
     (destruct (Z.eqb_spec rc1 0) as [-> | _]; [| discriminate H]);
     cbn [negb] in H;
     (destruct (ConvertToGguf.e_write_modelfile e); [discriminate H |]);
     (destruct (ConvertToGguf.e_ollama e) as [x | [rc2 err2]]; [discriminate H |]);
     cbn [ConvertToGguf.returncode] in H;
     (destruct (Z.eqb_spec rc2 0) as [-> | _]; [| discriminate H]);
     cbn [negb] in H;
     (destruct (ConvertToGguf.e_hf_left e) eqn:Hleft;
      (destruct (ConvertToGguf.e_cleanup e) eqn:Hcl; try discriminate H);
      (split; [exists mlx, name; split; reflexivity |]);
      repeat split; try reflexivity; try congruence;
      eexists; reflexivity)).
Qed.

(** X26.  The converter ends with status 0 exactly when both required
    arguments are given and every step goes through: the working directory
    is made, the dependencies install, the old copy (if any) is removed and
    the model copied, the convert script is there or downloads, the script
    and [ollama create] both exit with status 0, the Modelfile is written,
    and the copy (if still there) is removed.  Unlike the trainer, a
    non-zero exit status of either tool is a failure. *)
Theorem gguf_conversion_succeeds_iff (c : ConvertToGguf.cli) (e : ConvertToGguf.env) :
  snd (ConvertToGguf.main c e) = Exit 0
  <->
      (exists mlx name,
          ConvertToGguf.c_mlx_path c = Some mlx
          /\ ConvertToGguf.c_output_name c = Some name)
      /\ ConvertToGguf.e_mkdir e = None
      /\ ConvertToGguf.e_pip e = None
      /\ (ConvertToGguf.e_hf_exists e = true -> ConvertToGguf.e_rmtree e = None)
      /\ ConvertToGguf.e_copytree e = None
      /\ (ConvertToGguf.e_script_exists e = false -> ConvertToGguf.e_download e = None)
      /\ (exists err, ConvertToGguf.e_convert e = inr (ConvertToGguf.Completed 0 err))
      /\ ConvertToGguf.e_write_modelfile e = None
      /\ (exists err, ConvertToGguf.e_ollama e = inr (ConvertToGguf.Completed 0 err))
      /\ (ConvertToGguf.e_hf_left e = true -> ConvertToGguf.e_cleanup e = None).
Proof.
  split; [apply converter_success_facts |]. unfold ConvertToGguf.main.
  - intros ((mlx & name & -> & ->) & -> & Hpip & Hrm & Hcp & Hdl & (err1 & Hcv) & Hw
            & (err2 & Hol) & Hcl).
    rewrite converter_steps. cbv zeta. rewrite Hpip, Hcp, Hcv, Hw, Hol.
    cbn [ConvertToGguf.returncode Z.eqb negb].
    destruct (ConvertToGguf.e_hf_exists e); [rewrite (Hrm eq_refl) |];
      (destruct (ConvertToGguf.e_script_exists e); [| rewrite (Hdl eq_refl)]);
      (destruct (ConvertToGguf.e_hf_left e); [rewrite (Hcl eq_refl) |]);
      reflexivity.
Qed.

(** X27.  When the convert script is reached and exits with a non-zero
    status, the converter stops there with status 1: the script's launch
    is its last effect, so no Modelfile is written and [ollama] is not
    started; the exception caught is [GGUF conversion failed: <stderr>]. *)
Theorem convert_script_failure_stops_the_converter
    (c : ConvertToGguf.cli) (e : ConvertToGguf.env) (mlx name : string)
    (result : ConvertToGguf.completed) :
  ConvertToGguf.c_mlx_path c = Some mlx ->
  ConvertToGguf.c_output_name c = Some name ->
  ConvertToGguf.e_mkdir e = None ->
  ConvertToGguf.e_pip e = None ->
  (ConvertToGguf.e_hf_exists e = true -> ConvertToGguf.e_rmtree e = None) ->
  ConvertToGguf.e_copytree e = None ->
  (ConvertToGguf.e_script_exists e = false -> ConvertToGguf.e_download e = None) ->
  ConvertToGguf.e_convert e = inr result ->
  ConvertToGguf.returncode result <> 0 ->
  let wd := dict_get (ConvertToGguf.c_work_dir c) "/tmp/luddo-convert" in
  let hf := path_join wd "hf_model" in
  let gguf := path_join wd (name ++ ".gguf") in
  ConvertToGguf.main c e
  = (ConvertToGguf.MakeDirs wd
       :: ConvertToGguf.Run (ConvertToGguf.pip_cmd e)
       :: (if ConvertToGguf.e_hf_exists e then [ConvertToGguf.RemoveTree hf] else [])
       ++ ConvertToGguf.CopyTree mlx hf
       :: (if ConvertToGguf.e_script_exists e then []
           else [ConvertToGguf.Download ConvertToGguf.script_url
                   (ConvertToGguf.convert_script e)])
       ++ [ConvertToGguf.Run (ConvertToGguf.convert_cmd e hf gguf)],
     Exit 1)
  /\ ConvertToGguf.failure c e = Some (ConvertToGguf.conversion_failure result).
Proof.
  intros Hm Hn Hmk Hpip Hrm Hcp Hdl Hcv Hrc wd hf gguf.
  assert (Hneg : negb (ConvertToGguf.returncode result =? 0) = true).
  { destruct (Z.eqb_spec (ConvertToGguf.returncode result) 0); [contradiction | reflexivity]. }
  unfold ConvertToGguf.main, ConvertToGguf.failure. rewrite Hm, Hn, Hmk.
  fold wd. rewrite converter_steps. cbv zeta. fold hf gguf.
  rewrite Hpip, Hcp, Hcv, Hneg.
  destruct (ConvertToGguf.e_hf_exists e); [rewrite (Hrm eq_refl) |];
    (destruct (ConvertToGguf.e_script_exists e); [| rewrite (Hdl eq_refl)]);
    split; reflexivity.
Qed.

Lemma convert_script_failure_stops_the_converter_witness :
  let e := ConvertToGguf.Env "python3" "/opt/luddo/training" None None false None None
             true None (inr (ConvertToGguf.Completed 1 "unsupported architecture"))
             None (inr (ConvertToGguf.Completed 0 EmptyString)) true None in
  snd (ConvertToGguf.main ConvertToGguf.sample_cli e) = Exit 1
  /\ ConvertToGguf.failure ConvertToGguf.sample_cli e
     = Some (Exn PlainException "GGUF conversion failed: unsupported architecture").
Proof.
  intros e.
  destruct (convert_script_failure_stops_the_converter ConvertToGguf.sample_cli e
              "models/luddo-v2/fused" "luddo-v2"
              (ConvertToGguf.Completed 1 "unsupported architecture")) as [Hmain Hfail].
  - reflexivity.
  - reflexivity.
  - reflexivity.
  - reflexivity.
  - intros _. reflexivity.
  - reflexivity.
  - intros H. discriminate H.
  - reflexivity.
  - discriminate.
  - split; [rewrite Hmain; reflexivity | exact Hfail].
Defined.

(** X28.  When [ollama create] is reached and exits with a non-zero status,
    the converter stops there with status 1, after the Modelfile was
    written: the launch is its last effect, so the copied model is not
    cleaned up; the exception caught is [Ollama create failed: <stderr>]. *)
Theorem ollama_failure_stops_the_converter
    (c : ConvertToGguf.cli) (e : ConvertToGguf.env) (mlx name err : string)
    (result : ConvertToGguf.completed) :
  ConvertToGguf.c_mlx_path c = Some mlx ->
  ConvertToGguf.c_output_name c = Some name ->
  ConvertToGguf.e_mkdir e = None ->
  ConvertToGguf.e_pip e = None ->
  (ConvertToGguf.e_hf_exists e = true -> ConvertToGguf.e_rmtree e = None) ->
  ConvertToGguf.e_copytree e = None ->
  (ConvertToGguf.e_script_exists e = false -> ConvertToGguf.e_download e = None) ->
  ConvertToGguf.e_convert e = inr (ConvertToGguf.Completed 0 err) ->
  ConvertToGguf.e_write_modelfile e = None ->
  ConvertToGguf.e_ollama e = inr result ->
  ConvertToGguf.returncode result <> 0 ->
  let wd := dict_get (ConvertToGguf.c_work_dir c) "/tmp/luddo-convert" in
  let gguf := path_join wd (name ++ ".gguf") in
  let modelfile := path_join (ConvertToGguf.parent gguf) "Modelfile.gguf" in
  (exists before,
      ConvertToGguf.main c e
      = (before
         ++ [ ConvertToGguf.WriteFile modelfile (ConvertToGguf.modelfile_content gguf);
              ConvertToGguf.Run (ConvertToGguf.ollama_cmd name modelfile) ],
         Exit 1))
  /\ ConvertToGguf.failure c e = Some (ConvertToGguf.ollama_failure result).
Proof.
  intros Hm Hn Hmk Hpip Hrm Hcp Hdl Hcv Hw Hol Hrc wd gguf modelfile.
  assert (Hneg : negb (ConvertToGguf.returncode result =? 0) = true).
  { destruct (Z.eqb_spec (ConvertToGguf.returncode result) 0); [contradiction | reflexivity]. }
  unfold ConvertToGguf.main, ConvertToGguf.failure. rewrite Hm, Hn, Hmk.
  fold wd. rewrite converter_steps. cbv zeta. fold gguf modelfile.
  rewrite Hpip, Hcp, Hcv, Hw, Hol, Hneg.
  cbn [ConvertToGguf.returncode Z.eqb negb].
  set (hf := path_join wd "hf_model").
  set (t5 := ((([ConvertToGguf.Run (ConvertToGguf.pip_cmd e)]
                ++ (if ConvertToGguf.e_hf_exists e then [ConvertToGguf.RemoveTree hf] else []))
               ++ [ConvertToGguf.CopyTree mlx hf])
              ++ (if ConvertToGguf.e_script_exists e then []
                  else [ConvertToGguf.Download ConvertToGguf.script_url
                          (ConvertToGguf.convert_script e)]))
             ++ [ConvertToGguf.Run (ConvertToGguf.convert_cmd e hf gguf)]).
  split.
  - exists (ConvertToGguf.MakeDirs wd :: t5).
    destruct (ConvertToGguf.e_hf_exists e); [rewrite (Hrm eq_refl) |];
      (destruct (ConvertToGguf.e_script_exists e); [| rewrite (Hdl eq_refl)]);
      cbn [app]; rewrite <- app_assoc; reflexivity.
  - destruct (ConvertToGguf.e_hf_exists e); [rewrite (Hrm eq_refl) |];
      (destruct (ConvertToGguf.e_script_exists e); [| rewrite (Hdl eq_refl)]);
      reflexivity.
Qed.

Lemma ollama_failure_stops_the_converter_witness :
  let e := ConvertToGguf.Env "python3" "/opt/luddo/training" None None false None None
             true None (inr (ConvertToGguf.Completed 0 EmptyString))
             None (inr (ConvertToGguf.Completed 1 "connection refused")) true None in
  snd (ConvertToGguf.main ConvertToGguf.sample_cli e) = Exit 1
  /\ ConvertToGguf.failure ConvertToGguf.sample_cli e
     = Some (Exn PlainException "Ollama create failed: connection refused").
Proof.
  intros e.
  destruct (ollama_failure_stops_the_converter ConvertToGguf.sample_cli e
              "models/luddo-v2/fused" "luddo-v2" EmptyString
              (ConvertToGguf.Completed 1 "connection refused"))
    as [(before & Hmain) Hfail].
  - reflexivity.
  - reflexivity.
  - reflexivity.
  - reflexivity.
  - intros _. reflexivity.
  - reflexivity.
  - intros H. discriminate H.
  - reflexivity.
  - reflexivity.
  - reflexivity.
  - discriminate.
  - split; [rewrite Hmain; reflexivity | exact Hfail].
Defined.

(** ** Paths: a joined path read back *)

Lemma split_slash_piece (x rest cur : string) :
  none_of (fun d => Ascii.eqb d "/") x = true ->
  split_from "/" O cur (x ++ String "/" rest)
  = (rev_string EmptyString cur ++ x)%string :: split_from "/" O EmptyString rest.
Proof.
  revert cur. induction x as [| d x IH]; intros cur Hx.
  - cbn [append split_from prefix String.length Nat.pred].
    destruct (ascii_dec "/" "/") as [_ | Hne]; [| contradiction].
    assert (Hp : prefix EmptyString rest = true) by (destruct rest; reflexivity).
    rewrite Hp, append_empty. reflexivity.
  - cbn [none_of] in Hx. apply andb_true_iff in Hx. destruct Hx as [Hd Hx].
    cbn [append split_from prefix].
    destruct (ascii_dec "/" d) as [<- | _]; [discriminate Hd |].
    rewrite (IH (String d cur) Hx). cbn [rev_string].
    rewrite (rev_string_acc (String d EmptyString) cur), append_associative.
    reflexivity.
Qed.

Lemma split_slash_last (x cur : string) :
  none_of (fun d => Ascii.eqb d "/") x = true ->
  split_from "/" O cur x = [(rev_string EmptyString cur ++ x)%string].
Proof.
  revert cur. induction x as [| d x IH]; intros cur Hx.
  - cbn [split_from]. rewrite append_empty. reflexivity.
  - cbn [none_of] in Hx. apply andb_true_iff in Hx. destruct Hx as [Hd Hx].
    cbn [split_from prefix].
    destruct (ascii_dec "/" d) as [<- | _]; [discriminate Hd |].
    rewrite (IH (String d cur) Hx). cbn [rev_string].
    rewrite (rev_string_acc (String d EmptyString) cur), append_associative.
    reflexivity.
Qed.

Lemma split_slash_cons (s : string) :
  split "/" (String "/" s) = EmptyString :: split "/" s.
Proof.
  unfold split. cbn [split_from prefix String.length Nat.pred].
  destruct (ascii_dec "/" "/") as [_ | Hne]; [| contradiction].
  assert (Hp : prefix EmptyString s = true) by (destruct s; reflexivity).
  rewrite Hp. reflexivity.
Qed.

Lemma component_slash_free (x : string) :
  is_component x = true -> none_of (fun d => Ascii.eqb d "/") x = true.
Proof. unfold is_component. intros H. apply andb_true_iff in H. apply H. Qed.

Lemma component_kept (x : string) :
  is_component x = true -> negb (String.eqb x EmptyString || String.eqb x ".") = true.
Proof. unfold is_component. intros H. apply andb_true_iff in H. apply H. Qed.

Lemma split_concat (x : string) (l : list string) :
  Forall (fun c => is_component c = true) (x :: l) ->
  split "/" (String.concat "/" (x :: l)) = x :: l.
Proof.
  revert x. induction l as [| y l IH]; intros x Hall.
  - cbn [String.concat]. unfold split. rewrite split_slash_last; [reflexivity |].
    apply component_slash_free. inversion Hall; assumption.
  - inversion Hall as [| ? ? Hx Hrest]; subst.
    change (String.concat "/" (x :: y :: l))
      with (x ++ String "/" (String.concat "/" (y :: l)))%string.
    unfold split. rewrite split_slash_piece by (apply component_slash_free, Hx).
    fold (split "/" (String.concat "/" (y :: l))). rewrite (IH y Hrest). reflexivity.
Qed.

Lemma components_kept (l : list string) :
  Forall (fun c => is_component c = true) l ->
  filter (fun c => negb (String.eqb c EmptyString || String.eqb c ".")) l = l.
Proof.
  induction 1 as [| x l Hx _ IH]; [reflexivity |].
  cbn [filter]. rewrite (component_kept x Hx), IH. reflexivity.
Qed.

Lemma path_parts_concat (l : list string) :
  Forall (fun c => is_component c = true) l ->
  path_parts (String.concat "/" l) = l.
Proof.
  intros Hall. unfold path_parts. destruct l as [| x l]; [reflexivity |].
  rewrite (split_concat x l Hall). apply components_kept, Hall.
Qed.

Lemma path_parts_slash (s : string) : path_parts (String "/" s) = path_parts s.
Proof. unfold path_parts. rewrite split_slash_cons. reflexivity. Qed.

Lemma leading_slashes_concat (l : list string) :
  Forall (fun c => is_component c = true) l ->
  leading_slashes (String.concat "/" l) = O.
Proof.
  intros Hall. destruct Hall as [| x l Hx _]; [reflexivity |].
  pose proof (component_slash_free x Hx) as Hfree.
  pose proof (component_kept x Hx) as Hkept.
  destruct x as [| d x]; [discriminate Hkept |].
  cbn [none_of] in Hfree. apply andb_true_iff in Hfree. destruct Hfree as [Hd _].
  assert (Hhead : forall t, leading_slashes (String d t) = O).
  { intros t. cbn [leading_slashes]. destruct (Ascii.eqb d "/"); [discriminate Hd | reflexivity]. }
  destruct l; cbn [String.concat append]; apply Hhead.
Qed.

Lemma path_root_cases (s : string) :
  path_root s = EmptyString \/ path_root s = "/" \/ path_root s = "//".
Proof.
  unfold path_root. destruct (leading_slashes s) as [| [| [| n]]]; auto.
Qed.

(** Reading the [str] of a path gives its root and its components back. *)
Lemma path_str_read (root : string) (parts : list string) :
  root = EmptyString \/ root = "/" \/ root = "//" ->
  Forall (fun c => is_component c = true) parts ->
  path_root (path_str root parts) = root /\ path_parts (path_str root parts) = parts.
Proof.
  intros Hroot Hall.
  pose proof (leading_slashes_concat parts Hall) as Hlead.
  pose proof (path_parts_concat parts Hall) as Hparts.
  destruct Hroot as [-> | [-> | ->]].
  - destruct parts as [| x l]; [split; reflexivity |].
    unfold path_str. cbn [append]. unfold path_root. rewrite Hlead. split; [reflexivity | exact Hparts].
  - unfold path_str. cbn [append]. unfold path_root. cbn [leading_slashes Ascii.eqb].
    change (Ascii.eqb "/" "/") with true. cbv iota. rewrite Hlead.
    rewrite path_parts_slash. split; [reflexivity | exact Hparts].
  - unfold path_str. cbn [append]. unfold path_root. cbn [leading_slashes].
    change (Ascii.eqb "/" "/") with true. cbv iota. rewrite Hlead.
    rewrite !path_parts_slash. split; [reflexivity | exact Hparts].
Qed.

Lemma path_parts_components (s : string) :
  Forall (fun c => is_component c = true) (path_parts s).
Proof.
  assert (Hfree : forall t cur, none_of (fun d => Ascii.eqb d "/") cur = true ->
            Forall (fun c => none_of (fun d => Ascii.eqb d "/") c = true)
                   (split_from "/" O cur t)).
  { induction t as [| d t IH]; intros cur Hcur.
    - cbn [split_from]. constructor; [| constructor]. rewrite none_of_rev. exact Hcur.
    - cbn [split_from prefix String.length Nat.pred].
      destruct (ascii_dec "/" d) as [<- | Hne].
      + assert (Hp : prefix EmptyString t = true) by (destruct t; reflexivity).
        rewrite Hp. constructor; [rewrite none_of_rev; exact Hcur |].
        apply IH. reflexivity.
      + apply IH. cbn [none_of]. rewrite Hcur, andb_true_r.
        destruct (Ascii.eqb_spec d "/") as [-> | _]; [contradiction | reflexivity]. }
  apply Forall_forall. intros c Hc. unfold path_parts in Hc.
  apply filter_In in Hc. destruct Hc as [Hin Hkept].
  unfold is_component. rewrite Hkept, andb_true_r.
  pose proof (Hfree s EmptyString eq_refl) as Hall.
  rewrite Forall_forall in Hall. apply Hall, Hin.
Qed.

Lemma component_alone (x : string) :
  is_component x = true -> prefix "/" x = false /\ path_parts x = [x].
Proof.
  intros Hx. split.
  - pose proof (component_slash_free x Hx) as Hfree.
    destruct x as [| d x]; [reflexivity |].
    cbn [none_of] in Hfree. apply andb_true_iff in Hfree. destruct Hfree as [Hd _].
    cbn [prefix]. destruct (ascii_dec "/" d) as [<- | _]; [discriminate Hd | reflexivity].
  - apply (path_parts_concat [x]). constructor; [exact Hx | constructor].
Qed.

(** Joining one component to a path. *)
Lemma path_join_component (a x : string) :
  is_component x = true ->
  path_join a x = path_str (path_root a) (path_parts a ++ [x]).
Proof.
  intros Hx. destruct (component_alone x Hx) as [Hp Hparts].
  unfold path_join. rewrite Hp, Hparts. reflexivity.
Qed.

(** A file joined to the parent of another file of the same directory. *)
Lemma sibling_of_joined (a x y : string) :
  is_component x = true -> is_component y = true ->
  path_join (ConvertToGguf.parent (path_join a x)) y = path_join a y.
Proof.
  intros Hx Hy.
  pose proof (path_parts_components a) as Ha.
  assert (Hax : Forall (fun c => is_component c = true) (path_parts a ++ [x])).
  { apply Forall_app. split; [exact Ha |]. constructor; [exact Hx | constructor]. }
  unfold ConvertToGguf.parent. rewrite (path_join_component a x Hx).
  destruct (path_str_read (path_root a) (path_parts a ++ [x]) (path_root_cases a) Hax)
    as [-> ->].
  rewrite removelast_last.
  rewrite !(path_join_component _ y Hy).
  destruct (path_str_read (path_root a) (path_parts a) (path_root_cases a) Ha)
    as [-> ->].
  reflexivity.
Qed.

Lemma gguf_component (name : string) :
  none_of (fun d => Ascii.eqb d "/") name = true ->
  is_component (name ++ ".gguf") = true.
Proof.
  intros Hname. unfold is_component. rewrite none_of_append, Hname.
  assert (Hne : forall t, String.eqb (t ++ ".gguf") EmptyString = false)
    by (intros [| ? ?]; reflexivity).
  destruct name as [| c name]; [reflexivity |].
  cbn [append String.eqb]. rewrite Hne. destruct (Ascii.eqb c "."); reflexivity.
Qed.

(** X29.  A conversion that ends with status 0 has done, in this order and
    nothing else: made the working directory, installed the dependencies,
    removed an old copy if there was one, copied the model, downloaded the
    convert script unless it was there, run it, written the Modelfile, run
    [ollama create], and removed the copy if it was still there.  For a
    model name without a slash the Modelfile is [Modelfile.gguf] in the
    working directory, beside the GGUF file its [FROM] line names. *)
Theorem successful_conversion_trace
    (c : ConvertToGguf.cli) (e : ConvertToGguf.env) (mlx name : string) :
  snd (ConvertToGguf.main c e) = Exit 0 ->
  ConvertToGguf.c_mlx_path c = Some mlx ->
  ConvertToGguf.c_output_name c = Some name ->
  none_of (fun d => Ascii.eqb d "/") name = true ->
  let wd := dict_get (ConvertToGguf.c_work_dir c) "/tmp/luddo-convert" in
  let hf := path_join wd "hf_model" in
  let gguf := path_join wd (name ++ ".gguf") in
  let modelfile := path_join wd "Modelfile.gguf" in
  fst (ConvertToGguf.main c e)
  = ConvertToGguf.MakeDirs wd
    :: ConvertToGguf.Run (ConvertToGguf.pip_cmd e)
    :: (if ConvertToGguf.e_hf_exists e then [ConvertToGguf.RemoveTree hf] else [])
    ++ ConvertToGguf.CopyTree mlx hf
    :: (if ConvertToGguf.e_script_exists e then []
        else [ConvertToGguf.Download ConvertToGguf.script_url
                (ConvertToGguf.convert_script e)])
    ++ [ ConvertToGguf.Run (ConvertToGguf.convert_cmd e hf gguf);
         ConvertToGguf.WriteFile modelfile (ConvertToGguf.modelfile_content gguf);
         ConvertToGguf.Run (ConvertToGguf.ollama_cmd name modelfile) ]
    ++ (if ConvertToGguf.e_hf_left e then [ConvertToGguf.RemoveTree hf] else []).
Proof.
  intros Hok Hm Hn Hname wd hf gguf modelfile.
  destruct (converter_success_facts c e Hok)
    as (_ & Hmk & Hpip & Hrm & Hcp & Hdl & (err1 & Hcv) & Hw & (err2 & Hol) & Hcl).
  assert (Hsibling : path_join (ConvertToGguf.parent gguf) "Modelfile.gguf" = modelfile).
  { apply sibling_of_joined; [apply gguf_component, Hname | reflexivity]. }
  unfold ConvertToGguf.main. rewrite Hm, Hn, Hmk. fold wd.
  rewrite converter_steps. cbv zeta. fold hf gguf. rewrite Hsibling.
  rewrite Hpip, Hcp, Hcv, Hw, Hol.
  cbn [ConvertToGguf.returncode Z.eqb negb].
  destruct (ConvertToGguf.e_hf_exists e); [rewrite (Hrm eq_refl) |];
    (destruct (ConvertToGguf.e_script_exists e); [| rewrite (Hdl eq_refl)]);
    (destruct (ConvertToGguf.e_hf_left e); [rewrite (Hcl eq_refl) |]);
    reflexivity.
Qed.

(** The same for [--work-dir /tmp/x/]: the trailing slash is not doubled. *)
Lemma successful_conversion_trace_witness :
  let c := ConvertToGguf.Cli (Some "models/luddo-v2/fused") (Some "luddo-v2")
             (Some "/tmp/x/") in
  fst (ConvertToGguf.main c ConvertToGguf.sample_env)
  = [ ConvertToGguf.MakeDirs "/tmp/x/";
      ConvertToGguf.Run (ConvertToGguf.pip_cmd ConvertToGguf.sample_env);
      ConvertToGguf.CopyTree "models/luddo-v2/fused" "/tmp/x/hf_model";
      ConvertToGguf.Run
        (ConvertToGguf.convert_cmd ConvertToGguf.sample_env "/tmp/x/hf_model"
           "/tmp/x/luddo-v2.gguf");
      ConvertToGguf.WriteFile "/tmp/x/Modelfile.gguf"
        (ConvertToGguf.modelfile_content "/tmp/x/luddo-v2.gguf");
      ConvertToGguf.Run (ConvertToGguf.ollama_cmd "luddo-v2" "/tmp/x/Modelfile.gguf");
      ConvertToGguf.RemoveTree "/tmp/x/hf_model" ].
Proof.
  cbv zeta.
  rewrite (successful_conversion_trace
             (ConvertToGguf.Cli (Some "models/luddo-v2/fused") (Some "luddo-v2")
                (Some "/tmp/x/"))
             ConvertToGguf.sample_env "models/luddo-v2/fused" "luddo-v2").
  - reflexivity.
  - reflexivity.
  - reflexivity.
  - reflexivity.
  - reflexivity.
Defined.
